(** * The Prolific integration of PsychoPy: session, client and sync workflow

    A shallow embedding of
      - [psychopy/projects/prolific_client.py]  (class [ProlificClient]),
      - [psychopy/projects/prolific.py]         (sessions, users, projects,
                                                 [login], [getCurrentSession]),
      - [psychopy/app/prolific_ui/project.py]   ([syncProject],
                                                 [DetailsPanel.onSyncButton]),
    followed by the properties of the specification that were checked
    against it.

    Python values are a small universe of JSON-like values; the process-wide
    state (the [_existingSession] global, the session objects, the user store,
    the platform's scripted replies and the trace of what the program did)
    is threaded through a state-and-exception monad. *)

From Stdlib Require Import ZArith List String Ascii Bool Lia DecimalString.
Import ListNotations.

Set Warnings "-register-all".
Local Open Scope string_scope.
Local Open Scope Z_scope.

(* ================================================================== *)
(** ** Python values *)

(** What [response.json()] can return, and what the functions below pass
    around.  JSON numbers are integers here: binary floats are left out. *)
Inductive PyVal : Type :=
| PNone
| PBool (b : bool)
| PInt (n : Z)
| PStr (s : string)
| PList (xs : list PyVal)
| PDict (kvs : list (string * PyVal)).

(** A [dict] with string keys, in insertion order. *)
Definition dict := list (string * PyVal).

(** [bool(v)], as used by [if v:] and [not v]. *)
Definition truthy (v : PyVal) : bool :=
  match v with
  | PNone => false
  | PBool b => b
  | PInt n => negb (n =? 0)
  | PStr s => negb (s =? "")%string
  | PList xs => match xs with [] => false | _ => true end
  | PDict kvs => match kvs with [] => false | _ => true end
  end.

(** [d.get(k)], [None] of the option standing for an absent key. *)
Fixpoint dict_get (k : string) (d : dict) : option PyVal :=
  match d with
  | [] => None
  | (k', v) :: d' => if (k =? k')%string then Some v else dict_get k d'
  end.

(** [k in d]. *)
Definition dict_has (k : string) (d : dict) : bool :=
  match dict_get k d with Some _ => true | None => false end.

(** [d[k] = v]: an existing key keeps its place, a new key goes last. *)
Fixpoint dict_set (k : string) (v : PyVal) (d : dict) : dict :=
  match d with
  | [] => [(k, v)]
  | (k', v') :: d' =>
      if (k =? k')%string then (k', v) :: d' else (k', v') :: dict_set k v d'
  end.

(** [{**a, **b}]: the items of [a], then those of [b] written over them. *)
Definition dict_merge (a b : dict) : dict :=
  fold_left (fun acc kv => dict_set (fst kv) (snd kv) acc) b a.

(** [str(n)] of an [int]. *)
Definition str_of_int (n : Z) : string := NilZero.string_of_int (Z.to_int n).

(** Whether a value can be a dictionary key (is hashable). *)
Definition hashable (v : PyVal) : bool :=
  match v with PList _ | PDict _ => false | _ => true end.

(** [a == b] on hashable values; [True == 1] and [False == 0] in Python. *)
Definition key_eqb (a b : PyVal) : bool :=
  match a, b with
  | PNone, PNone => true
  | PStr s, PStr t => (s =? t)%string
  | PInt n, PInt m => n =? m
  | PBool x, PBool y => Bool.eqb x y
  | PBool x, PInt m => (if x then 1 else 0) =? m
  | PInt n, PBool y => n =? (if y then 1 else 0)
  | _, _ => false
  end.

(** A dictionary with arbitrary hashable keys (the user store). *)
Definition store := list (PyVal * PyVal).

Fixpoint store_get (k : PyVal) (d : store) : option PyVal :=
  match d with
  | [] => None
  | (k', v) :: d' => if key_eqb k k' then Some v else store_get k d'
  end.

Fixpoint store_set (k v : PyVal) (d : store) : store :=
  match d with
  | [] => [(k, v)]
  | (k', v') :: d' =>
      if key_eqb k k' then (k', v) :: d' else (k', v') :: store_set k v d'
  end.

(** ** Exceptions and results *)

(** The exceptions the modelled code can meet.  The two connection errors
    are kept apart by where they are raised: inside [requests], or by the
    explicit [raise] at the top of [login]. *)
Inductive Exc : Type :=
| TransportError (msg : string)   (* requests.exceptions.ConnectionError & co, raised by requests.get/post *)
| LoginConnectionError            (* raise ConnectionError("Failed to connect to prolific.co. No network?") *)
| JSONDecodeError                 (* response.json() on a body that is not JSON *)
| TypeError (msg : string)
| AttributeError (name : string)
| KeyError (key : string)
| ValueError (msg : string)
| OverflowError
| DecimalException (msg : string) (* decimal.InvalidOperation, decimal.Overflow *)
| IOError.

(** The outcome of running a piece of code: a value, an exception that an
    [except] clause can catch, or [Abort] when the model leaves its domain
    (recursion budget used up, or a reference to no object). *)
Inductive Result (A : Type) : Type :=
| Ok (a : A)
| Raise (e : Exc)
| Abort.
Arguments Ok {A} a.
Arguments Raise {A} e.
Arguments Abort {A}.

(** [d[k]] on a value: subscripting a dict; anything else of the JSON
    universe cannot be subscripted by a string. *)
Definition subscript (v : PyVal) (k : string) : Result PyVal :=
  match v with
  | PDict d => match dict_get k d with
               | Some x => Ok x
               | None => Raise (KeyError k)
               end
  | _ => Raise (TypeError "indices must be integers, or object is not subscriptable")
  end.

(* ================================================================== *)
(** ** [decimal.Decimal] under the default context *)

Module Dec.

(** A finite decimal is [coef * 10 ^ exp]; the sign lives in [coef], so the
    sign of a zero is not tracked.  [DNaN] is the quiet NaN; signalling
    NaNs are left out. *)
Inductive Decimal : Type :=
| DFin (coef exp : Z)
| DInf (negative : bool)
| DNaN.

(** The default context: 28 digits, round-half-even, exponents within
    [Emin, Emax], Overflow and InvalidOperation trapped. *)
Definition prec : Z := 28.
Definition Emax : Z := 999999.
Definition Emin : Z := -999999.
Definition Etiny : Z := Emin - prec + 1.
Definition Etop : Z := Emax - prec + 1.

Fixpoint ndigits_from (fuel : nat) (k n : Z) : Z :=
  match fuel with
  | O => k
  | S fuel' => if n <? 10 ^ k then k else ndigits_from fuel' (k + 1) n
  end.

(** [len(str(abs(n)))]: the number of decimal digits, 1 for zero. *)
Definition ndigits (n : Z) : Z :=
  ndigits_from (Z.to_nat (Z.log2 (Z.abs n))) 1 (Z.abs n).

(** [a / b] rounded to the nearest integer, ties to even ([0 <= a], [0 < b]). *)
Definition round_half_even (a b : Z) : Z :=
  let q := a / b in
  let r := a mod b in
  if 2 * r <? b then q
  else if b <? 2 * r then q + 1
  else if Z.even q then q else q + 1.

(** [Decimal._fix]: round a finite result to the context. *)
Definition fix_ (c e : Z) : Result Decimal :=
  if c =? 0 then Ok (DFin 0 (Z.min (Z.max e Etiny) Emax))
  else
    let m := Z.abs c in
    let exp_min0 := ndigits m + e - prec in
    if Etop <? exp_min0 then Raise (DecimalException "Overflow")
    else
      let exp_min := Z.max exp_min0 Etiny in
      if e <? exp_min then
        let digits := ndigits m + e - exp_min in
        let m1 := if digits <? 0 then 1 else m in
        let e1 := if digits <? 0 then exp_min - 1 else e in
        let q := round_half_even m1 (10 ^ (exp_min - e1)) in
        let q' := if prec <? ndigits q then q / 10 else q in
        let e' := if prec <? ndigits q then exp_min + 1 else exp_min in
        if Etop <? e' then Raise (DecimalException "Overflow")
        else Ok (DFin (Z.sgn c * q') e')
      else Ok (DFin c e).

(** [d * n] for an [int] [n] (which is first converted to [Decimal(n)]). *)
Definition mul_int (d : Decimal) (n : Z) : Result Decimal :=
  match d with
  | DNaN => Ok DNaN
  | DInf s =>
      if n =? 0 then Raise (DecimalException "InvalidOperation")
      else Ok (DInf (xorb s (n <? 0)))
  | DFin c e => fix_ (c * n) e
  end.

(** [int(d)]: truncation toward zero. *)
Definition to_int (d : Decimal) : Result Z :=
  match d with
  | DNaN => Raise (ValueError "cannot convert NaN to integer")
  | DInf _ => Raise OverflowError
  | DFin c e => if 0 <=? e then Ok (c * 10 ^ e) else Ok (Z.quot c (10 ^ (- e)))
  end.

Fixpoint strip_zeros (fuel : nat) (coeff exp ideal : Z) : Z * Z :=
  match fuel with
  | O => (coeff, exp)
  | S fuel' =>
      if (exp <? ideal) && (coeff mod 10 =? 0)
      then strip_zeros fuel' (coeff / 10) (exp + 1) ideal
      else (coeff, exp)
  end.

(** [d / n] for an [int] [n]: [Decimal.__truediv__]. *)
Definition div_int (d : Decimal) (n : Z) : Result Decimal :=
  match d with
  | DNaN => Ok DNaN
  | DInf s => Ok (DInf (xorb s (n <? 0)))
  | DFin c e =>
      if n =? 0 then
        Raise (DecimalException (if c =? 0 then "InvalidOperation" else "DivisionByZero"))
      else if c =? 0 then fix_ 0 e
      else
        let shift := ndigits n - ndigits c + prec + 1 in
        let exp := e - shift in
        let num := if 0 <=? shift then Z.abs c * 10 ^ shift else Z.abs c in
        let den := if 0 <=? shift then Z.abs n else Z.abs n * 10 ^ (- shift) in
        let coeff := num / den in
        let rem := num mod den in
        let ce :=
          if rem =? 0
          then strip_zeros (Z.to_nat (e - exp)) coeff exp e
          else (if coeff mod 5 =? 0 then coeff + 1 else coeff, exp) in
        fix_ (Z.sgn c * Z.sgn n * fst ce) (snd ce)
  end.

End Dec.

(* ================================================================== *)
(** ** The process state and the monad *)

(** What the transport gives back for one request: a response with its
    status code and body ([None] when the body is not JSON), or a failure
    of the network, which [requests] reports by raising. *)
Inductive NetReply : Type :=
| Reply (status_code : Z) (body : option PyVal)
| NetDown (msg : string).

(** What the program does to the outside world, in order. *)
Inductive Event : Type :=
| EvRequest (method url : string) (bearer : PyVal) (json : option PyVal)
    (* requests.get/post(url, headers={"authorization": f"Bearer {bearer}"}, json=...) *)
| EvSaveUsers                      (* knownUsers.save() *)
| EvMessageBox (caption : string)  (* wx.MessageBox(..., caption, ...) *)
| EvNoGitWarning                   (* noGitWarning(parent=...) *)
| EvLogInProlific                  (* logInProlific(parent) *)
| EvSetLocalPath                   (* setLocalPath(self, project) *)
| EvSetStatus (msg : string)       (* syncPanel.setStatus(...) *)
| EvRaiseWindow.                   (* parent.Raise() *)

(** A [ProlificSession] object.  [token] is the ['token'] entry of the
    object's [__dict__], absent until [setToken] has run. *)
Record ProlificSession : Type := mkSession {
  username : PyVal;
  userID : PyVal;
  userFullName : PyVal;
  remember_me : bool;
  authenticated : bool;
  currentProject : PyVal;
  token : option PyVal
}.

(** Assignments to the attributes of a session. *)
Definition with_username (v : PyVal) (s : ProlificSession) : ProlificSession :=
  mkSession v (userID s) (userFullName s) (remember_me s) (authenticated s)
            (currentProject s) (token s).

Definition with_userID (v : PyVal) (s : ProlificSession) : ProlificSession :=
  mkSession (username s) v (userFullName s) (remember_me s) (authenticated s)
            (currentProject s) (token s).

Definition with_userFullName (v : PyVal) (s : ProlificSession) : ProlificSession :=
  mkSession (username s) (userID s) v (remember_me s) (authenticated s)
            (currentProject s) (token s).

Definition with_authenticated (b : bool) (s : ProlificSession) : ProlificSession :=
  mkSession (username s) (userID s) (userFullName s) (remember_me s) b
            (currentProject s) (token s).

Definition with_token_entry (t : PyVal) (s : ProlificSession) : ProlificSession :=
  mkSession (username s) (userID s) (userFullName s) (remember_me s) (authenticated s)
            (currentProject s) (Some t).

Definition addr := nat.

Record World : Type := mkWorld {
  heap : list ProlificSession;     (* the session objects, by address *)
  existingSession : option addr;   (* the module global _existingSession *)
  knownUsers : store;              (* the user store, in memory *)
  disk_ok : bool;                  (* whether the store's file can be written *)
  prolificUser : PyVal;            (* prefs.appData['projects']['prolificUser'] *)
  haveGit : bool;                  (* the module constant haveGit *)
  platform : list NetReply;        (* what the transport will give, request by request *)
  trace : list Event               (* what has been done so far *)
}.

Definition M (A : Type) : Type := World -> Result A * World.

Definition ret {A} (a : A) : M A := fun w => (Ok a, w).

Definition bind {A B} (m : M A) (k : A -> M B) : M B :=
  fun w =>
    match m w with
    | (Ok a, w') => k a w'
    | (Raise e, w') => (Raise e, w')
    | (Abort, w') => (Abort, w')
    end.

Definition raise {A} (e : Exc) : M A := fun w => (Raise e, w).

Definition abort {A} : M A := fun w => (Abort, w).

(** [try: m  except: h] with a bare [except], which catches every exception. *)
Definition try_except {A} (m : M A) (h : M A) : M A :=
  fun w =>
    match m w with
    | (Raise _, w') => h w'
    | r => r
    end.

Definition lift {A} (r : Result A) : M A := fun w => (r, w).

Definition get_world : M World := fun w => (Ok w, w).

Definition modify (f : World -> World) : M unit := fun w => (Ok tt, f w).

Declare Scope monad_scope.
Delimit Scope monad_scope with monad.
Notation "x <- c1 ;; c2" := (bind c1 (fun x => c2))
  (at level 61, c1 at next level, right associativity) : monad_scope.
Notation "c1 ;; c2" := (bind c1 (fun _ => c2))
  (at level 61, right associativity) : monad_scope.
Local Open Scope monad_scope.

(** Assignments to the parts of the state. *)
Definition with_heap (h : list ProlificSession) (w : World) : World :=
  mkWorld h (existingSession w) (knownUsers w) (disk_ok w)
          (prolificUser w) (haveGit w) (platform w) (trace w).

Definition with_existingSession (s : option addr) (w : World) : World :=
  mkWorld (heap w) s (knownUsers w) (disk_ok w)
          (prolificUser w) (haveGit w) (platform w) (trace w).

Definition with_knownUsers (k : store) (w : World) : World :=
  mkWorld (heap w) (existingSession w) k (disk_ok w)
          (prolificUser w) (haveGit w) (platform w) (trace w).

Definition with_prolificUser (u : PyVal) (w : World) : World :=
  mkWorld (heap w) (existingSession w) (knownUsers w) (disk_ok w)
          u (haveGit w) (platform w) (trace w).

Definition with_platform (p : list NetReply) (w : World) : World :=
  mkWorld (heap w) (existingSession w) (knownUsers w) (disk_ok w)
          (prolificUser w) (haveGit w) p (trace w).

Definition with_trace (t : list Event) (w : World) : World :=
  mkWorld (heap w) (existingSession w) (knownUsers w) (disk_ok w)
          (prolificUser w) (haveGit w) (platform w) t.

Definition emit (e : Event) : M unit :=
  modify (fun w => with_trace (trace w ++ [e]) w).

Definition set_platform (p : list NetReply) : M unit := modify (with_platform p).

Definition set_existingSession (s : option addr) : M unit :=
  modify (with_existingSession s).

Definition set_knownUsers (k : store) : M unit := modify (with_knownUsers k).

Definition set_prolificUser (u : PyVal) : M unit := modify (with_prolificUser u).

Definition set_heap (h : list ProlificSession) : M unit := modify (with_heap h).

(** Creating an object: it gets the next free address. *)
Definition alloc (s : ProlificSession) : M addr :=
  w <- get_world ;;
  set_heap (heap w ++ [s]) ;;
  ret (List.length (heap w)).

(** Reading the object behind a reference. *)
Definition deref (a : addr) : M ProlificSession :=
  w <- get_world ;;
  match nth_error (heap w) a with
  | Some s => ret s
  | None => abort
  end.

Fixpoint list_update {A} (l : list A) (i : nat) (x : A) : list A :=
  match l, i with
  | [], _ => []
  | _ :: l', O => x :: l'
  | y :: l', S i' => y :: list_update l' i' x
  end.

(** Assigning attributes of the object behind a reference. *)
Definition update (a : addr) (f : ProlificSession -> ProlificSession) : M unit :=
  s <- deref a ;;
  w <- get_world ;;
  set_heap (list_update (heap w) a (f s)).

(** A response object of [requests]. *)
Record Response : Type := mkResponse {
  status_code : Z;
  body : option PyVal
}.

(** [requests.get] / [requests.post]: the request goes out, and the
    transport either answers or raises.  A transport with nothing left to
    give never answers: the request fails like any other network error. *)
Definition request (method url : string) (bearer : PyVal) (json : option PyVal)
  : M Response :=
  emit (EvRequest method url bearer json) ;;
  w <- get_world ;;
  match platform w with
  | [] => raise (TransportError "no reply")
  | NetDown msg :: rest => set_platform rest ;; raise (TransportError msg)
  | Reply st b :: rest => set_platform rest ;; ret (mkResponse st b)
  end.

(** [response.json()]. *)
Definition json (r : Response) : M PyVal :=
  match body r with
  | Some v => ret v
  | None => raise JSONDecodeError
  end.

(* ================================================================== *)
(** ** projects/prolific_client.py *)

Module ProlificClient.
Import Dec.

Definition api_url : string := "https://test.prolific.co/api/v1".
Definition client_url : string := "https://test-client.prolific.co".

(** [class ProlificClient]: [__init__] stores the token. *)
Record t : Type := mk { token : PyVal }.

(** [{**{"token": self.token}, **data}]; [**data] needs a mapping. *)
Definition with_token (self : t) (data : PyVal) : Result PyVal :=
  match data with
  | PDict d => Ok (PDict (dict_merge [("token", token self)] d))
  | _ => Raise (TypeError "argument after ** must be a mapping")
  end.

Definition retrieve_prolific_user (self : t) : M PyVal :=
  response <- request "GET" (api_url ++ "/users/me/") (token self) None ;;
  if negb (status_code response =? 200) then ret PNone
  else
    data <- json response ;;
    lift (with_token self data).

(** [int(reward*100)]. *)
Definition minor_units (reward : Decimal) : Result Z :=
  match mul_int reward 100 with
  | Ok d => to_int d
  | Raise e => Raise e
  | Abort => Abort
  end.

Section Library.

(** The parts of the Python library that are taken as given: the
    [decimal] module's parser of strings and of (sign, digits, exponent)
    sequences, and [repr] of lists and dicts. *)
Variable Decimal_parse : PyVal -> Result Decimal.
Variable repr_container : PyVal -> string.

(** [Decimal(v)]. *)
Definition Decimal_of (v : PyVal) : Result Decimal :=
  match v with
  | PInt n => Ok (DFin n 0)
  | PBool b => Ok (DFin (if b then 1 else 0) 0)
  | PStr _ | PList _ => Decimal_parse v
  | PNone | PDict _ => Raise (TypeError "conversion to Decimal is not supported")
  end.

(** [f"{v}"]. *)
Definition format (v : PyVal) : string :=
  match v with
  | PNone => "None"
  | PBool b => if b then "True" else "False"
  | PInt n => str_of_int n
  | PStr s => s
  | PList _ | PDict _ => repr_container v
  end.

Definition calculate_total (self : t) (participants : Z) (reward : Decimal)
  : M (option Decimal) :=
  r <- lift (minor_units reward) ;;
  response <- request "POST" (api_url ++ "/study-cost-calculator/") (token self)
                (Some (PDict [("reward", PInt r);
                              ("total_available_places", PInt participants);
                              ("study_type", PStr "SINGLE")])) ;;
  if negb (status_code response =? 200) then ret None
  else
    data <- json response ;;
    total_cost <- lift (subscript data "total_cost") ;;
    d <- lift (Decimal_of total_cost) ;;
    q <- lift (div_int d 100) ;;
    ret (Some q).

Definition create_study (self : t)
    (title internal_name description external_study_url code : string)
    (participants duration : Z) (reward : Decimal) : M PyVal :=
  r <- lift (minor_units reward) ;;
  let projDict : dict :=
    [("name", PStr title);
     ("internal_name", PStr internal_name);
     ("description", PStr description);
     ("external_study_url", PStr external_study_url);
     ("completion_code", PStr code);
     ("callback_url",
        PStr ("https://test-client.prolific.co/submissions/complete?cc=" ++ code));
     ("total_available_places", PInt participants);
     ("estimated_completion_time", PInt duration);
     ("maximum_allowed_time", PInt 13);
     ("reward", PInt r);
     ("prolific_id_option", PStr "url_parameters");
     ("completion_option", PStr "url");
     ("device_compatibility", PList [PStr "mobile"; PStr "desktop"; PStr "tablet"]);
     ("peripheral_requirements", PList []);
     ("custom_screening_checked", PBool false);
     ("publish_at", PNone);
     ("study_type", PStr "SINGLE");
     ("eligibility_requirements", PList [])] in
  response <- request "POST" (api_url ++ "/studies/") (token self)
                (Some (PDict projDict)) ;;
  if negb (status_code response =? 201) then ret PNone
  else
    study <- json response ;;
    id <- lift (subscript study "id") ;;
    let extra : dict := [("url", PStr (client_url ++ "/studies/" ++ format id ++ "/"))] in
    match study with
    | PDict s => ret (PDict (dict_merge s extra))
    | _ => raise (TypeError "argument after ** must be a mapping")
    end.

Definition publish_study (self : t) (id : PyVal) : M PyVal :=
  response <- request "POST" (api_url ++ "/studies/" ++ format id ++ "/transition/")
                (token self) (Some (PDict [("action", PStr "PUBLISH")])) ;;
  if negb (status_code response =? 200) then ret PNone
  else json response.

End Library.

End ProlificClient.

(* ================================================================== *)
(** ** projects/prolific.py *)

Module prolific.

Definition permissions : list (string * Z) :=
  [("guest", 10);
   ("reporter", 20);
   ("developer", 30);
   ("maintainer", 30);
   ("owner", 50)].

Fixpoint permissions_get (k : string) (t : list (string * Z)) : option Z :=
  match t with
  | [] => None
  | (k', v) :: t' => if (k =? k')%string then Some v else permissions_get k t'
  end.

(** *** The user store *)

(** Modelled from the spec: the store class [DictStorage] of
    [psychopy.tools.filetools] is not among the sources.  It is a mapping
    kept in memory ([key in store], [store[key]], [store[key] = value]) whose
    [save()] writes the whole mapping to its file and fails with an IOError
    when the file cannot be written. *)
Definition knownUsers_contains (k : PyVal) : M bool :=
  if hashable k then
    w <- get_world ;;
    ret (match store_get k (knownUsers w) with Some _ => true | None => false end)
  else raise (TypeError "unhashable type").

Definition knownUsers_getitem (k : PyVal) : M PyVal :=
  if hashable k then
    w <- get_world ;;
    match store_get k (knownUsers w) with
    | Some v => ret v
    | None => raise (KeyError "knownUsers")
    end
  else raise (TypeError "unhashable type").

Definition knownUsers_setitem (k v : PyVal) : M unit :=
  if hashable k then
    w <- get_world ;;
    set_knownUsers (store_set k v (knownUsers w))
  else raise (TypeError "unhashable type").

Definition knownUsers_save : M unit :=
  w <- get_world ;;
  if disk_ok w then emit EvSaveUsers else raise IOError.

(** *** class User *)

Record User : Type := mkUser { data : dict }.

Definition User_id (self : User) : PyVal :=
  if dict_has "id" (data self)
  then match dict_get "id" (data self) with Some v => v | None => PNone end
  else PNone.

Definition User_username (self : User) : PyVal :=
  if dict_has "username" (data self)
  then match dict_get "username" (data self) with Some v => v | None => PNone end
  else PNone.

Definition User_name (self : User) : PyVal :=
  match dict_get "name" (data self) with Some v => v | None => PNone end.

Definition User_saveLocal (self : User) : M unit :=
  knownUsers_setitem (User_username self) (PDict (data self)) ;;
  knownUsers_save.

(** *** class ProlificSession, and the module-level session functions *)

Definition getToken (self : addr) : M PyVal :=
  s <- deref self ;;
  match token s with
  | Some t => ret t
  | None => raise (KeyError "token")
  end.

(** The [client] property: a fresh [ProlificClient] around the token, or
    [None]. *)
Definition client (self : addr) : M (option ProlificClient.t) :=
  t <- getToken self ;;
  if truthy t then
    t' <- getToken self ;;
    ret (Some (ProlificClient.mk t'))
  else ret None.

Section SessionClass.

(** [User.__init__] calls the module-level [getCurrentSession], which is
    defined after the classes and itself constructs sessions. *)
Variable getCurrentSession_ : M (option addr).

Definition User_init (localData : PyVal) (rememberMe : bool) : M User :=
  cur <- getCurrentSession_ ;;
  tok <- match cur with
         | Some a => getToken a
         | None => raise (AttributeError "getToken")
         end ;;
  match localData with
  | PDict d =>
      let self := mkUser (dict_set "token" tok d) in
      (if rememberMe then User_saveLocal self else ret tt) ;;
      ret self
  | _ => raise (TypeError "object does not support item assignment")
  end.

(** The [user] property. *)
Definition user (self : addr) : M User :=
  c <- client self ;;
  match c with
  | Some _ =>
      c' <- client self ;;
      match c' with
      | Some cl =>
          u <- ProlificClient.retrieve_prolific_user cl ;;
          if truthy u then User_init u true
          else User_init (PDict []) false
      | None => raise (AttributeError "retrieve_prolific_user")
      end
  | None => User_init (PDict []) false
  end.

Definition startSession (self : addr) : M unit :=
  c <- client self ;;
  match c with
  | None => update self (with_authenticated false)
  | Some _ =>
      u <- user self ;;
      update self (with_username (User_username u)) ;;
      update self (with_userID (User_id u)) ;;
      update self (with_userFullName (User_name u)) ;;
      update self (with_authenticated true)
  end.

Definition setToken (self : addr) (tok : PyVal) : M unit :=
  update self (with_token_entry tok) ;;
  startSession self.

(** [ProlificSession(token, remember_me)]: a new object, then [__init__]. *)
Definition ProlificSession_init (tok : PyVal) (remember : bool) : M addr :=
  self <- alloc (mkSession PNone PNone PNone remember false PNone None) ;;
  setToken self tok ;;
  ret self.

Definition refreshSession : M (option addr) :=
  w <- get_world ;;
  match existingSession w with
  | Some a =>
      t <- getToken a ;;
      if truthy t then
        t' <- getToken a ;;
        s <- ProlificSession_init t' true ;;
        set_existingSession (Some s)
      else
        s <- ProlificSession_init PNone true ;;
        set_existingSession (Some s)
  | None =>
      s <- ProlificSession_init PNone true ;;
      set_existingSession (Some s)
  end ;;
  w' <- get_world ;;
  ret (existingSession w').

End SessionClass.

(** [getCurrentSession()].  The functions above and this one call each
    other; [fuel] bounds the depth of that recursion. *)
Fixpoint getCurrentSession (fuel : nat) : M (option addr) :=
  match fuel with
  | O => abort
  | S fuel' =>
      w <- get_world ;;
      match existingSession w with
      | Some a => ret (Some a)
      | None =>
          s <- ProlificSession_init (getCurrentSession fuel') PNone true ;;
          set_existingSession (Some s) ;;
          refreshSession (getCurrentSession fuel') ;;
          w' <- get_world ;;
          ret (existingSession w')
      end
  end.

Definition login (fuel : nat) (tokenOrUsername : PyVal) : M unit :=
  currentSession <- getCurrentSession fuel ;;
  match currentSession with
  | None => raise LoginConnectionError
  | Some cur =>
      known <- knownUsers_contains tokenOrUsername ;;
      tok <- (if known then knownUsers_getitem tokenOrUsername
              else ret tokenOrUsername) ;;
      let tok' :=
        match tok with
        | PDict d => match dict_get "token" d with Some t => t | None => tok end
        | _ => tok
        end in
      setToken (getCurrentSession fuel) cur tok' ;;
      u <- user (getCurrentSession fuel) cur ;;
      set_prolificUser (User_username u)
  end.

(** *** class ProlificProject(dict) *)

(** The object is a [dict] ([items]) with an instance [__dict__]
    ([attrs]). *)
Record ProlificProject : Type := mkProject {
  items : dict;
  attrs : dict
}.

(** [bool(project)]: a dict subclass is true when it has items. *)
Definition ProlificProject_truthy (p : ProlificProject) : bool :=
  match items p with [] => false | _ => true end.

(** [ProlificProject.__init__(self, pavloviaId, data)]. *)
Definition ProlificProject_init (pavloviaId data : PyVal) : Result ProlificProject :=
  match subscript data "id" with
  | Ok idNumber =>
      match subscript data "name" with
      | Ok title =>
          Ok (mkProject
                [("id", pavloviaId); ("idNumber", idNumber);
                 ("title", title); ("url", PStr "")]
                [("_storedAttribs", PDict []); ("pavloviaId", pavloviaId);
                 ("prolific", data); ("_lastKnownSync", PInt 0)])
      | Raise e => Raise e
      | Abort => Abort
      end
  | Raise e => Raise e
  | Abort => Abort
  end.

(** How Python binds the arguments of a call to the parameters of a
    function that has neither defaults nor starred parameters. *)
Fixpoint bind_positional (params : list string) (args : list PyVal)
  : Result (dict * list string) :=
  match args, params with
  | [], _ => Ok ([], params)
  | a :: args', p :: params' =>
      match bind_positional params' args' with
      | Ok (bound, rest) => Ok ((p, a) :: bound, rest)
      | Raise e => Raise e
      | Abort => Abort
      end
  | _ :: _, [] => Raise (TypeError "too many positional arguments")
  end.

Fixpoint bind_keywords (params : list string) (bound : dict) (kwargs : dict)
  : Result dict :=
  match kwargs with
  | [] => Ok bound
  | (k, v) :: kwargs' =>
      if negb (existsb (String.eqb k) params)
      then Raise (TypeError "got an unexpected keyword argument")
      else if dict_has k bound
      then Raise (TypeError "got multiple values for argument")
      else bind_keywords params (bound ++ [(k, v)])%list kwargs'
  end.

Definition bind_arguments (params : list string) (args : list PyVal) (kwargs : dict)
  : Result dict :=
  match bind_positional params args with
  | Ok (bound, _) =>
      match bind_keywords params bound kwargs with
      | Ok bound' =>
          if forallb (fun p => dict_has p bound') params then Ok bound'
          else Raise (TypeError "missing required positional argument")
      | Raise e => Raise e
      | Abort => Abort
      end
  | Raise e => Raise e
  | Abort => Abort
  end.

(** A call of the class [ProlificProject] with positional arguments [args]
    and keyword arguments [kwargs]. *)
Definition ProlificProject_call (args : list PyVal) (kwargs : dict)
  : Result ProlificProject :=
  match bind_arguments ["pavloviaId"; "data"] args kwargs with
  | Ok bound =>
      match dict_get "pavloviaId" bound, dict_get "data" bound with
      | Some pavloviaId, Some data => ProlificProject_init pavloviaId data
      | _, _ => Abort
      end
  | Raise e => Raise e
  | Abort => Abort
  end.

(** [name in container] followed by [container[name]], for the three
    containers [__getattr__] searches: [None] of the option when the name is
    not in the container. *)
Definition search (container : PyVal) (name : string) : Result (option PyVal) :=
  match container with
  | PDict d =>
      match dict_get name d with
      | Some v => Ok (Some v)
      | None => Ok None
      end
  | PList xs =>
      if existsb (fun x => match x with PStr s => (s =? name)%string | _ => false end) xs
      then Raise (TypeError "list indices must be integers")
      else Ok None
  | PStr s =>
      match String.index 0 name s with
      | Some _ => Raise (TypeError "string indices must be integers")
      | None => Ok None
      end
  | _ => Raise (TypeError "argument is not iterable")
  end.

(** [ProlificProject.__getattr__(self, name)], which Python calls for a
    name that is neither a property or method of the class nor in the
    object's [__dict__]. *)
Definition ProlificProject_getattr (self : ProlificProject) (name : string)
  : Result PyVal :=
  match dict_get "prolific" (attrs self) with
  | None => Raise (KeyError "prolific")
  | Some proj =>
      if negb (truthy proj) then Ok PNone
      else
        match dict_get name (items self) with
        | Some v => Ok v
        | None =>
            match dict_get name (attrs self) with
            | Some v => Ok v
            | None =>
                match search proj name with
                | Ok (Some v) => Ok v
                | Ok None => Raise (AttributeError name)
                | Raise e => Raise e
                | Abort => Abort
                end
            end
        end
  end.

(** [ProlificProject.sync(self, infoStream=None)]. *)
Definition ProlificProject_sync (self : ProlificProject) : PyVal := PInt 1.

(** [ProlificSession.getProject(self, id, repo=None)]. *)
Definition getProject (id repo : PyVal) : Result (option ProlificProject) :=
  if truthy id then
    match ProlificProject_call [id] [("repo", repo)] with
    | Ok p => Ok (Some p)
    | Raise e => Raise e
    | Abort => Abort
    end
  else if truthy repo then
    match ProlificProject_call [] [("repo", repo)] with
    | Ok p => Ok (Some p)
    | Raise e => Raise e
    | Abort => Abort
    end
  else Ok None.

(** *** The properties of ProlificProject *)

(** [self.prolific]: the entry of the instance [__dict__]; without it
    [__getattr__] is entered and fails on its first line. *)
Definition ProlificProject_prolific (self : ProlificProject) : Result PyVal :=
  match dict_get "prolific" (attrs self) with
  | Some v => Ok v
  | None => Raise (KeyError "prolific")
  end.

(** [v.get(k)]: only a dict of the JSON universe has the method. *)
Definition py_get (v : PyVal) (k : string) : Result PyVal :=
  match v with
  | PDict d => Ok (match dict_get k d with Some x => x | None => PNone end)
  | _ => Raise (AttributeError "get")
  end.

(** [v + s] for a [str] [s]. *)
Definition py_add_str (v : PyVal) (s : string) : Result PyVal :=
  match v with
  | PStr a => Ok (PStr (a ++ s))
  | _ => Raise (TypeError "unsupported operand type(s) for +")
  end.

(** The [id] property: [self.pavloviaId]. *)
Definition ProlificProject_id (self : ProlificProject) : Result PyVal :=
  match dict_get "pavloviaId" (attrs self) with
  | Some v => Ok v
  | None => ProlificProject_getattr self "pavloviaId"
  end.

(** The [idNumber] property. *)
Definition ProlificProject_idNumber (self : ProlificProject) : Result PyVal :=
  match ProlificProject_prolific self with
  | Ok proj => if truthy proj then py_get proj "id" else Ok PNone
  | Raise e => Raise e
  | Abort => Abort
  end.

(** The [title] property. *)
Definition ProlificProject_title (self : ProlificProject) : Result PyVal :=
  match ProlificProject_prolific self with
  | Ok proj => py_get proj "name"
  | Raise e => Raise e
  | Abort => Abort
  end.

(** The [url] property. *)
Definition ProlificProject_url (self : ProlificProject) : Result PyVal :=
  match ProlificProject_prolific self with
  | Ok proj => py_get proj "url"
  | Raise e => Raise e
  | Abort => Abort
  end.

(** The [submissions_url] property. *)
Definition ProlificProject_submissions_url (self : ProlificProject) : Result PyVal :=
  match ProlificProject_url self with
  | Ok url => py_add_str url "submissions/"
  | Raise e => Raise e
  | Abort => Abort
  end.

(** *** More of class User *)

(** The module's table [currency_symbol]; the first symbol is the two
    characters U+00C2 U+00A3 of the source, as their UTF-8 bytes. *)
Definition currency_symbol : list (string * string) :=
  [("GBP", String (ascii_of_nat 195) (String (ascii_of_nat 130)
             (String (ascii_of_nat 194) (String (ascii_of_nat 163) EmptyString))));
   ("USD", "$")].

Fixpoint currency_symbol_get (k : string) (t : list (string * string)) : option string :=
  match t with
  | [] => None
  | (k', v) :: t' => if (k =? k')%string then Some v else currency_symbol_get k t'
  end.

(** The [currency_code] property. *)
Definition User_currency_code (self : User) : PyVal :=
  if dict_has "currency_code" (data self)
  then match dict_get "currency_code" (data self) with Some v => v | None => PNone end
  else PNone.

(** The [currency_symbol] property: [currency_symbol[self.currency_code]]
    for a non-empty code.  The keys of the table are strings, so any other
    hashable code is a missing key. *)
Definition User_currency_symbol (self : User) : Result PyVal :=
  let code := User_currency_code self in
  if truthy code then
    match code with
    | PStr s =>
        match currency_symbol_get s currency_symbol with
        | Some sym => Ok (PStr sym)
        | None => Raise (KeyError s)
        end
    | PList _ | PDict _ => Raise (TypeError "unhashable type")
    | PInt n => Raise (KeyError (str_of_int n))
    | PBool b => Raise (KeyError (if b then "True" else "False"))
    | PNone => Raise (KeyError "None")
    end
  else Ok PNone.

(** *** More of class ProlificSession *)

Section SessionMethods.

Variable getCurrentSession_ : M (option addr).

(** Taken as given, as in the client: the [decimal] parser, [repr] of
    containers, and [str] of a [Decimal]. *)
Variable Decimal_parse : PyVal -> Result Dec.Decimal.
Variable repr_container : PyVal -> string.
Variable Decimal_str : Dec.Decimal -> string.

Definition calculate_total_price (self : addr) (participants : Z)
    (reward : Dec.Decimal) : M string :=
  c <- client self ;;
  match c with
  | Some _ =>
      c' <- client self ;;
      match c' with
      | Some cl =>
          total <- ProlificClient.calculate_total Decimal_parse cl participants reward ;;
          u <- user getCurrentSession_ self ;;
          symbol <- lift (User_currency_symbol u) ;;
          ret ((match total with
                | Some d => Decimal_str d
                | None => "None"
                end)
               ++ ProlificClient.format repr_container symbol)
      | None => raise (AttributeError "calculate_total")
      end
  | None => ret ""
  end.

Definition createProject (self : addr) (pavloviaId : PyVal)
    (title internal_name description url code : string)
    (participants duration : Z) (reward : Dec.Decimal)
  : M (option ProlificProject) :=
  c <- client self ;;
  match c with
  | Some cl =>
      study <- ProlificClient.create_study repr_container cl title internal_name
                 description url code participants duration reward ;;
      if truthy study then
        p <- lift (ProlificProject_call [pavloviaId; study] []) ;;
        ret (Some p)
      else ret None
  | None => raise (AttributeError "create_study")
  end.

Definition publish (self : addr) (project : ProlificProject)
  : M (option ProlificProject) :=
  c <- client self ;;
  match c with
  | Some cl =>
      idNumber <- lift (ProlificProject_idNumber project) ;;
      study <- ProlificClient.publish_study repr_container cl idNumber ;;
      if truthy study then
        pavloviaId <- lift (ProlificProject_id project) ;;
        p <- lift (ProlificProject_call [pavloviaId; study] []) ;;
        ret (Some p)
      else ret None
  | None => raise (AttributeError "publish_study")
  end.

End SessionMethods.

(** *** logout *)

Section Logout.

(** [prefs.saveAppData()], and the open frames of the application: a frame
    that has a [setUser] method is given by what [setUser(None)] does, one
    that has none (or is gone) by [None]. *)
Variable saveAppData : M unit.
Variable openFrames : list (option (M unit)).

Fixpoint setUser_None (frames : list (option (M unit))) : M unit :=
  match frames with
  | [] => ret tt
  | Some setUser :: frames' => setUser ;; setUser_None frames'
  | None :: frames' => setUser_None frames'
  end.

Definition logout (fuel : nat) : M unit :=
  s <- ProlificSession_init (getCurrentSession fuel) PNone true ;;
  set_existingSession (Some s) ;;
  set_prolificUser PNone ;;
  saveAppData ;;
  setUser_None openFrames.

End Logout.

End prolific.

(* ================================================================== *)
(** ** app/prolific_ui/project.py *)

Module prolific_ui.
Import prolific.

(** The application frames that call into the workflow.  A coder frame has
    a [currentDoc] (with its [filename], or [None] when no document is
    open); a builder frame has a [filename] and a [prolific_project], and
    its [repr] contains "BuilderFrame"; any other frame has a [filename]. *)
Inductive Frame : Type :=
| CoderFrame (currentDoc : option string)
| BuilderFrame (filename : string) (prolific_project : option ProlificProject)
| OtherFrame (filename : string).

(** [bool(project)] for a project argument that may be [None]. *)
Definition project_truthy (project : option ProlificProject) : bool :=
  match project with
  | Some p => ProlificProject_truthy p
  | None => false
  end.

(** [self.project.<name>]: the instance [__dict__] first, then
    [__getattr__] (for a [name] that the class does not define). *)
Definition ProlificProject_attr (p : ProlificProject) (name : string) : Result PyVal :=
  match dict_get name (attrs p) with
  | Some v => Ok v
  | None => ProlificProject_getattr p name
  end.

(** [v < n] for an [int] [n]. *)
Definition lt_int (v : PyVal) (n : Z) : Result bool :=
  match v with
  | PInt m => Ok (m <? n)
  | PBool b => Ok ((if b then 1 else 0) <? n)
  | _ => Raise (TypeError "'<' not supported between these types")
  end.

(** [not perms or perms < prolific.permissions['developer']]: the test of
    [onSyncButton] (and of [setProject]) for ``fork first''. *)
Definition forkRequired (perms : PyVal) : Result bool :=
  if negb (truthy perms) then Ok true
  else
    match permissions_get "developer" permissions with
    | Some developer => lt_int perms developer
    | None => Raise (KeyError "developer")
    end.

(** Calling a value of the JSON universe: none of them is callable. *)
Definition call (v : PyVal) : Result Empty_set :=
  Raise (TypeError "object is not callable").

Section Collaborators.

(** [os.path.dirname], [os.path.expanduser] and [os.path.normcase] depend
    on the operating system and on the user's home; [logInProlific] and
    [setLocalPath] are the dialogs of [prolific_ui.functions]. *)
Variable dirname : string -> string.
Variable expanduser : string -> string.
Variable normcase : string -> string.
Variable logInProlific : Frame -> M PyVal.
Variable setLocalPath : ProlificProject -> M PyVal.

Definition syncProject (fuel : nat) (parent : Frame) (project : option ProlificProject)
  : M PyVal :=
  currentPath <- match parent with
                 | CoderFrame (Some filename) => ret (dirname filename)
                 | CoderFrame None => raise (AttributeError "filename")
                 | BuilderFrame filename _ => ret (dirname filename)
                 | OtherFrame filename => ret (dirname filename)
                 end ;;
  let currentPath := normcase (expanduser currentPath) in
  let invalidFolders := [normcase (expanduser "~/Desktop");
                         normcase (expanduser "~/My Documents")] in
  if existsb (String.eqb currentPath) invalidFolders then
    emit (EvMessageBox "Project Sync Error") ;;
    ret (PInt (-1))
  else
    let project :=
      match parent with
      | BuilderFrame _ prolific_project =>
          if negb (project_truthy project) then prolific_project else project
      | _ => project
      end in
    returned <-
      (if negb (project_truthy project) then
         proSession <- getCurrentSession fuel ;;
         username <-
           try_except
             (match proSession with
              | Some s =>
                  u <- user (getCurrentSession fuel) s ;;
                  ret (User_username u)
              | None => raise (AttributeError "user")
              end)
             (emit EvLogInProlific ;; logInProlific parent) ;;
         if negb (truthy username) then ret (Some (PInt (-1)))
         else ret None
       else ret None) ;;
    match returned with
    | Some v => ret v
    | None =>
        if negb (project_truthy project) then ret (PInt 0)
        else ret PNone
    end.

(** [class DetailsPanel]: the part of its state that [onSyncButton] uses. *)
Record DetailsPanel : Type := mkPanel {
  panel_parent : Frame;
  panel_project : option ProlificProject
}.

(** [fork = self.project.forkTo()] and [self.setProject(fork.id)].  The
    project class defines no [forkTo], so the name goes through
    [__getattr__]; what it finds there, if anything, is a JSON value, and
    the call of it never returns. *)
Definition fork_step (project : ProlificProject) : M unit :=
  forkTo <- lift (ProlificProject_attr project "forkTo") ;;
  fork <- lift (call forkTo) ;;
  match fork return M unit with end.

(** The block ``fork first if needed'' of [onSyncButton]. *)
Definition fork_if_needed (project : ProlificProject) : M unit :=
  perms <- lift (ProlificProject_attr project "permissions") ;;
  fork_first <- lift (forkRequired perms) ;;
  if fork_first then fork_step project else ret tt.

Definition onSyncButton (fuel : nat) (self : DetailsPanel) : M (PyVal * DetailsPanel) :=
  w <- get_world ;;
  if negb (haveGit w) then
    emit EvNoGitWarning ;;
    ret (PInt 0, self)
  else
    match panel_project self with
    | None => raise (AttributeError "User pressed the sync button with no current project existing.")
    | Some project =>
        session <- getCurrentSession fuel ;;
        u <- match session with
             | Some s => user (getCurrentSession fuel) s
             | None => raise (AttributeError "user")
             end ;;
        if negb (truthy (User_username u)) then
          emit EvLogInProlific ;;
          logInProlific (panel_parent self) ;;
          ret (PNone, self)
        else
          fork_if_needed project ;;
          has_root <-
            (if negb (dict_has "localRoot" (items project)) then ret false
             else
               localRoot <- lift (ProlificProject_attr project "localRoot") ;;
               ret (truthy localRoot)) ;;
          project' <-
            (if negb has_root then
               emit EvSetLocalPath ;;
               newPath <- setLocalPath project ;;
               emit EvRaiseWindow ;;
               ret (mkProject (items project) (dict_set "local" newPath (attrs project)))
             else ret project) ;;
          emit (EvSetStatus "Synchronizing...") ;;
          let _ := ProlificProject_sync project' in
          emit EvRaiseWindow ;;
          ret (PNone, mkPanel (panel_parent self) (Some project'))
    end.

End Collaborators.

(** *** class ProjectEditor *)

(** Assigning an attribute of a value of the JSON universe: none of them
    takes attributes. *)
Definition setattr_json (v : PyVal) (name : string) : Result Empty_set :=
  Raise (AttributeError name).

(** The part of a [ProjectEditor] that its handlers use: the identifier
    and project it was opened with, the frame it belongs to, and the texts
    of its fields. *)
Record ProjectEditor : Type := mkEditor {
  editor_parent : Frame;
  editor_pavloviaId : PyVal;
  editor_project : option ProlificProject;
  isNew : bool;
  titleBox : string;
  internalNameBox : string;
  descrBox : string;
  urlBox : string;
  codeBox : string;
  participantsBox : string;
  durationBox : string;
  rewardBox : string;
  totalBox : string
}.

Definition with_editor_project (p : option ProlificProject) (e : ProjectEditor)
  : ProjectEditor :=
  mkEditor (editor_parent e) (editor_pavloviaId e) p (isNew e) (titleBox e)
           (internalNameBox e) (descrBox e) (urlBox e) (codeBox e)
           (participantsBox e) (durationBox e) (rewardBox e) (totalBox e).

Definition with_editor_parent (f : Frame) (e : ProjectEditor) : ProjectEditor :=
  mkEditor f (editor_pavloviaId e) (editor_project e) (isNew e) (titleBox e)
           (internalNameBox e) (descrBox e) (urlBox e) (codeBox e)
           (participantsBox e) (durationBox e) (rewardBox e) (totalBox e).

Definition with_totalBox (t : string) (e : ProjectEditor) : ProjectEditor :=
  mkEditor (editor_parent e) (editor_pavloviaId e) (editor_project e) (isNew e)
           (titleBox e) (internalNameBox e) (descrBox e) (urlBox e) (codeBox e)
           (participantsBox e) (durationBox e) (rewardBox e) t.

(** [parent.prolific_project = project]: the attribute is part of a
    builder frame here. *)
Definition set_prolific_project (project : option ProlificProject) (parent : Frame)
  : Frame :=
  match parent with
  | BuilderFrame filename _ => BuilderFrame filename project
  | _ => parent
  end.

Section Editor.

(** Taken as given: [int] of a string ([None] for a ValueError), the
    [decimal] parser, [repr] of containers and [str] of a [Decimal]; and
    the two calls that leave the modelled state, [EndModal(wx.ID_OK)] and
    [knownProjects.save()]. *)
Variable int_of_str : string -> option Z.
Variable Decimal_parse : PyVal -> Result Dec.Decimal.
Variable repr_container : PyVal -> string.
Variable Decimal_str : Dec.Decimal -> string.
Variable EndModal : M unit.
Variable knownProjects_save : M unit.

(** [as_int]: [int(value)], and 0 for whatever it raises. *)
Definition as_int (value : string) : Z :=
  match int_of_str value with
  | Some n => n
  | None => 0
  end.

(** [as_decimal]: [Decimal(value)], and [Decimal("0")] for whatever it
    raises. *)
Definition as_decimal (value : string) : Result Dec.Decimal :=
  match Decimal_parse (PStr value) with
  | Ok d => Ok d
  | Raise _ => Ok (Dec.DFin 0 0)
  | Abort => Abort
  end.

Definition onCostUpdate (fuel : nat) (self : ProjectEditor) : M ProjectEditor :=
  let participants := as_int (participantsBox self) in
  reward <- lift (as_decimal (rewardBox self)) ;;
  session <- getCurrentSession fuel ;;
  total <- match session with
           | Some s =>
               calculate_total_price (getCurrentSession fuel) Decimal_parse
                 repr_container Decimal_str s participants reward
           | None => raise (AttributeError "calculate_total_price")
           end ;;
  ret (with_totalBox total self).

(** [submitChanges].  Its first test, [if not session.user], reads the
    [user] property and never holds: a [User] object is true. *)
Definition submitChanges (fuel : nat) (self : ProjectEditor) : M ProjectEditor :=
  session <- getCurrentSession fuel ;;
  _ <- match session with
       | Some s => user (getCurrentSession fuel) s
       | None => raise (AttributeError "user")
       end ;;
  let title := titleBox self in
  let internal_name := internalNameBox self in
  let description := descrBox self in
  let url := urlBox self in
  let code := codeBox self in
  let participants := as_int (participantsBox self) in
  let duration := as_int (durationBox self) in
  reward <- lift (as_decimal (rewardBox self)) ;;
  self' <-
    (if isNew self then
       project <- match session with
                  | Some s =>
                      createProject repr_container s (editor_pavloviaId self)
                        title internal_name description url code
                        participants duration reward
                  | None => raise (AttributeError "createProject")
                  end ;;
       match project with
       | Some p =>
           ret (with_editor_project
                  (Some (mkProject (items p)
                                   (dict_set "_newRemote" (PBool true) (attrs p))))
                  self)
       | None => raise (AttributeError "_newRemote")
       end
     else
       match editor_project self with
       | Some p =>
           let p1 := mkProject (items p)
                       (dict_set "pavloviaId" (editor_pavloviaId self) (attrs p)) in
           prolific <- lift (ProlificProject_prolific p1) ;;
           assigned <- lift (setattr_json prolific "name") ;;
           match assigned return M ProjectEditor with end
       | None => raise (AttributeError "pavloviaId")
       end) ;;
  EndModal ;;
  knownProjects_save ;;
  ret (with_editor_parent
         (set_prolific_project (editor_project self') (editor_parent self'))
         self').

End Editor.

End prolific_ui.

(* ================================================================== *)
(** ** The specification's wording, and the inputs of the examples *)

Module Spec.
Import Dec.

(** Written from the specification, for comparison with [minor_units]:
    the reward in minor units is [round(rewardAmount*100)], the exact
    product rounded to the nearest integer (ties to even, as Python's
    [round] does). *)
Definition round_minor_units (reward : Decimal) : option Z :=
  match reward with
  | DFin c e =>
      if 0 <=? e + 2 then Some (c * 10 ^ (e + 2))
      else Some (Z.sgn c * round_half_even (Z.abs c) (10 ^ (- (e + 2))))
  | _ => None
  end.

(** The exact product [c * 10^e * 100] truncated toward zero, which is what
    [int] makes of it. *)
Definition truncated_minor_units (c e : Z) : Z :=
  if 0 <=? e then c * 100 * 10 ^ e else Z.quot (c * 100) (10 ^ (- e)).

End Spec.

Module Examples.
Import prolific prolific_ui.

(** [os.path] on a POSIX system whose user has the home [/home/user]. *)
Definition home : string := "/home/user".

Definition expanduser (p : string) : string :=
  match p with
  | String "~" EmptyString => home
  | String "~" (String "/" rest) => home ++ "/" ++ rest
  | _ => p
  end.

Definition normcase (p : string) : string := p.

Fixpoint rev_string (s acc : string) : string :=
  match s with
  | EmptyString => acc
  | String c s' => rev_string s' (String c acc)
  end.

Fixpoint drop_slashes (s : string) : string :=
  match s with
  | String "/" s' => drop_slashes s'
  | _ => s
  end.

Fixpoint drop_to_slash (s : string) : string :=
  match s with
  | EmptyString => EmptyString
  | String "/" _ => s
  | String _ s' => drop_to_slash s'
  end.

(** [posixpath.dirname]: up to the last slash, without trailing slashes
    unless there is nothing else. *)
Definition dirname (p : string) : string :=
  let head := drop_to_slash (rev_string p "") in
  match drop_slashes head with
  | EmptyString => rev_string head ""
  | stripped => rev_string stripped ""
  end.

(** A parser that rejects everything, and a [repr] that is never needed. *)
Definition no_parse (v : PyVal) : Result Dec.Decimal :=
  Raise (DecimalException "InvalidOperation").
Definition no_repr (v : PyVal) : string := "".

(** A login dialog the user closes, and one in which the user logs in. *)
Definition login_declined (parent : Frame) : M PyVal := ret PNone.
Definition login_accepted (parent : Frame) : M PyVal := ret (PStr "alice").
Definition folder_chosen (p : ProlificProject) : M PyVal := ret (PStr "/home/user/study").

(** A fresh process: no session yet, empty store, nothing done. *)
Definition fresh (replies : list NetReply) : World :=
  mkWorld [] None [] true PNone true replies [].

(** A process whose current session holds [tok]. *)
Definition session_with (tok : PyVal) : ProlificSession :=
  mkSession PNone PNone PNone true false PNone (Some tok).

Definition running (tok : PyVal) (replies : list NetReply) : World :=
  mkWorld [session_with tok] (Some 0%nat) [] true PNone true replies [].

Definition alice : PyVal :=
  PDict [("id", PStr "u1"); ("username", PStr "alice"); ("name", PStr "Alice")].

(** A project built from a server payload. *)
Definition study (perms : PyVal) : ProlificProject :=
  mkProject
    [("id", PStr "alice/stroop"); ("idNumber", PInt 42);
     ("title", PStr "Stroop"); ("url", PStr "")]
    [("_storedAttribs", PDict []); ("pavloviaId", PStr "alice/stroop");
     ("prolific", PDict [("id", PInt 42); ("name", PStr "Stroop");
                         ("permissions", perms)]);
     ("_lastKnownSync", PInt 0)].

(** An editor on a builder frame, its fields as the user left them. *)
Definition editor_on (project : option ProlificProject) (new : bool) : ProjectEditor :=
  mkEditor (BuilderFrame "/home/user/study/stroop.psyexp" project)
           (PStr "alice/stroop") project new
           "Stroop" "stroop" "A task" "https://run.pavlovia.org/alice/stroop" "C0DE"
           "twenty" "5" "a lot" "".

End Examples.

(* ================================================================== *)
(** ** Predicates used in the statements *)

(** The keys of a dictionary are distinct, as in every Python [dict]. *)
Definition dict_wf (d : dict) : Prop := NoDup (map fst d).

(** A piece of code that never ends in the connection error of [login]. *)
Definition never_login_error {A} (m : M A) : Prop :=
  forall w, fst (m w) <> Raise LoginConnectionError.

(** The session a constructor leaves behind when the token is empty. *)
Definition anonymous (tok : PyVal) (remember : bool) : ProlificSession :=
  mkSession PNone PNone PNone remember false PNone (Some tok).

(** [d.get(k)], with Python's [None] for an absent key. *)
Definition field (k : string) (d : dict) : PyVal :=
  match dict_get k d with Some v => v | None => PNone end.

(** The file a frame is working on. *)
Definition working_file (parent : prolific_ui.Frame) : option string :=
  match parent with
  | prolific_ui.CoderFrame currentDoc => currentDoc
  | prolific_ui.BuilderFrame filename _ => Some filename
  | prolific_ui.OtherFrame filename => Some filename
  end.

(** The project a frame offers when none is passed. *)
Definition context_project (parent : prolific_ui.Frame)
  : option prolific.ProlificProject :=
  match parent with
  | prolific_ui.BuilderFrame _ prolific_project => prolific_project
  | _ => None
  end.

(** Every value a piece of code can return satisfies [P]. *)
Definition returns_only {A} (P : A -> Prop) (m : M A) : Prop :=
  forall w a w', m w = (Ok a, w') -> P a.

(** A call that only shows something: it returns, and all it changes is
    the trace. *)
Definition gui_only (m : M unit) : Prop :=
  forall w, exists t, m w = (Ok tt, with_trace t w).

(** Every frame's [setUser(None)] only shows something. *)
Definition frames_gui_only (frames : list (option (M unit))) : Prop :=
  Forall (fun f => match f with Some m => gui_only m | None => True end) frames.

(** No request went out between two states. *)
Definition no_request_since (w w' : World) : Prop :=
  exists evs, trace w' = (trace w ++ evs)%list
              /\ forall m u b j, ~ In (EvRequest m u b j) evs.

(* ================================================================== *)
(** * Properties *)

(** ** Dictionaries *)

Section DictFacts.

Lemma dict_get_set_same (k : string) (v : PyVal) (d : dict) :
  dict_get k (dict_set k v d) = Some v.
Proof.
  induction d as [|[k' v'] d IH]; simpl.
  - now rewrite String.eqb_refl.
  - destruct (k =? k')%string eqn:E; simpl; rewrite E; auto.
Qed.

Lemma dict_get_set_other (k k' : string) (v : PyVal) (d : dict) :
  k <> k' -> dict_get k (dict_set k' v d) = dict_get k d.
Proof.
  intros Hne. induction d as [|[k0 v0] d IH]; simpl.
  - destruct (String.eqb_spec k k'); congruence.
  - destruct (String.eqb_spec k' k0) as [->|Hk]; simpl.
    + destruct (String.eqb_spec k k0); congruence.
    + destruct (String.eqb_spec k k0); auto.
Qed.

Lemma dict_get_not_in (k : string) (d : dict) :
  ~ In k (map fst d) -> dict_get k d = None.
Proof.
  induction d as [|[k' v'] d IH]; simpl; intros H; auto.
  destruct (String.eqb_spec k k') as [->|Hk].
  - exfalso. apply H. now left.
  - apply IH. intros Hin. apply H. now right.
Qed.

Lemma dict_merge_get (k : string) (b : dict) :
  dict_wf b ->
  forall a, dict_get k (dict_merge a b) =
            match dict_get k b with
            | Some v => Some v
            | None => dict_get k a
            end.
Proof.
  unfold dict_merge.
  induction b as [|[k' v'] b IH]; intros Hwf a; simpl; auto.
  inversion Hwf as [|x l Hnotin Hwf']; subst.
  rewrite (IH Hwf'). simpl in Hnotin.
  destruct (String.eqb_spec k k') as [->|Hk].
  - rewrite (dict_get_not_in k' b Hnotin). apply dict_get_set_same.
  - destruct (dict_get k b); auto. now apply dict_get_set_other.
Qed.

End DictFacts.

(** ** Running the monad *)

Section MonadFacts.

Lemma bind_ok {A B} (m : M A) (k : A -> M B) (w w' : World) (a : A) :
  m w = (Ok a, w') -> bind m k w = k a w'.
Proof. unfold bind. now intros ->. Qed.

Lemma bind_raise {A B} (m : M A) (k : A -> M B) (w w' : World) (e : Exc) :
  m w = (Raise e, w') -> bind m k w = (Raise e, w').
Proof. unfold bind. now intros ->. Qed.

Lemma request_reply (method url : string) (bearer : PyVal) (js : option PyVal)
      (w : World) (st : Z) (b : option PyVal) (rest : list NetReply) :
  platform w = Reply st b :: rest ->
  request method url bearer js w =
    (Ok (mkResponse st b),
     with_platform rest (with_trace (trace w ++ [EvRequest method url bearer js])%list w)).
Proof.
  intros H. unfold request, bind, emit, modify, get_world, set_platform, ret.
  simpl. now rewrite H.
Qed.

Lemma request_down (method url : string) (bearer : PyVal) (js : option PyVal)
      (w : World) (msg : string) (rest : list NetReply) :
  platform w = NetDown msg :: rest ->
  request method url bearer js w =
    (Raise (TransportError msg),
     with_platform rest (with_trace (trace w ++ [EvRequest method url bearer js])%list w)).
Proof.
  intros H. unfold request, bind, emit, modify, get_world, set_platform, raise.
  simpl. now rewrite H.
Qed.

Lemma request_silent (method url : string) (bearer : PyVal) (js : option PyVal)
      (w : World) :
  platform w = [] ->
  request method url bearer js w =
    (Raise (TransportError "no reply"),
     with_trace (trace w ++ [EvRequest method url bearer js])%list w).
Proof.
  intros H. unfold request, bind, emit, modify, get_world, raise.
  simpl. now rewrite H.
Qed.

End MonadFacts.

(** ** The client *)

Section ClientFacts.
Import ProlificClient Dec.

(** The request [create_study] sends, whatever comes back. *)
Lemma create_study_request (repr : PyVal -> string) (self : ProlificClient.t)
    (title internal_name description url code : string)
    (participants duration : Z) (reward : Decimal) (r : Z) (w : World) :
  minor_units reward = Ok r ->
  exists body,
    trace (snd (create_study repr self title internal_name description url code
                  participants duration reward w)) =
      (trace w ++ [EvRequest "POST" (api_url ++ "/studies/") (token self)
                     (Some (PDict body))])%list
    /\ dict_get "reward" body = Some (PInt r)
    /\ dict_get "total_available_places" body = Some (PInt participants).
Proof.
  intros Hr. unfold create_study. rewrite Hr. unfold lift at 1. unfold bind at 1.
  eexists. split; [|split].
  - destruct (platform w) as [|[st b|msg] rest] eqn:Hp.
    + now rewrite (bind_raise _ _ _ _ _ (request_silent _ _ _ _ _ Hp)).
    + rewrite (bind_ok _ _ _ _ _ (request_reply _ _ _ _ _ _ _ _ Hp)). simpl.
      destruct (st =? 201); simpl; [|reflexivity].
      unfold bind, json, lift. simpl.
      destruct b as [v|]; simpl; [|reflexivity].
      destruct (subscript v "id"); simpl; try reflexivity.
      destruct v; reflexivity.
    + now rewrite (bind_raise _ _ _ _ _ (request_down _ _ _ _ _ _ _ Hp)).
  - reflexivity.
  - reflexivity.
Qed.

(** The request [calculate_total] sends, whatever comes back. *)
Lemma calculate_total_request (parse : PyVal -> Result Decimal)
    (self : ProlificClient.t) (participants : Z) (reward : Decimal) (r : Z) (w : World) :
  minor_units reward = Ok r ->
  trace (snd (calculate_total parse self participants reward w)) =
    (trace w ++ [EvRequest "POST" (api_url ++ "/study-cost-calculator/") (token self)
                   (Some (PDict [("reward", PInt r);
                                 ("total_available_places", PInt participants);
                                 ("study_type", PStr "SINGLE")]))])%list.
Proof.
  intros Hr. unfold calculate_total. rewrite Hr. unfold lift at 1. unfold bind at 1.
  destruct (platform w) as [|[st b|msg] rest] eqn:Hp.
  - now rewrite (bind_raise _ _ _ _ _ (request_silent _ _ _ _ _ Hp)).
  - rewrite (bind_ok _ _ _ _ _ (request_reply _ _ _ _ _ _ _ _ Hp)). simpl.
    destruct (st =? 200); simpl; [|reflexivity].
    unfold bind, json, lift. simpl.
    destruct b as [v|]; simpl; [|reflexivity].
    destruct (subscript v "total_cost") as [tc| |]; simpl; try reflexivity.
    destruct (Decimal_of parse tc) as [d| |]; simpl; try reflexivity.
    destruct (div_int d 100); reflexivity.
  - now rewrite (bind_raise _ _ _ _ _ (request_down _ _ _ _ _ _ _ Hp)).
Qed.

(** C3, as amended.  [retrieve_prolific_user] sends one GET to
    [/users/me/].  On every reply whose status is not 200 it returns [None].
    A failure of the network is not caught: the exception raised by the
    transport leaves the function.  On a 200 reply whose body is a JSON
    object it returns that object with a [token] entry added: every other
    key keeps its value, and [token] is the client's token when the reply
    has no [token] entry of its own. *)
Theorem retrieve_prolific_user_replies (self : ProlificClient.t) (w : World) :
  (forall st b rest, platform w = Reply st b :: rest -> st <> 200 ->
     fst (retrieve_prolific_user self w) = Ok PNone)
  /\ (forall msg rest, platform w = NetDown msg :: rest ->
     fst (retrieve_prolific_user self w) = Raise (TransportError msg))
  /\ (forall d rest, platform w = Reply 200 (Some (PDict d)) :: rest -> dict_wf d ->
     exists r, fst (retrieve_prolific_user self w) = Ok (PDict r)
       /\ (forall k, k <> "token" -> dict_get k r = dict_get k d)
       /\ (dict_get "token" d = None -> dict_get "token" r = Some (token self)))
  /\ trace (snd (retrieve_prolific_user self w)) =
       (trace w ++ [EvRequest "GET" (api_url ++ "/users/me/") (token self) None])%list.
Proof.
  unfold retrieve_prolific_user.
  split; [|split; [|split]].
  - intros st b rest Hp Hst.
    rewrite (bind_ok _ _ _ _ _ (request_reply _ _ _ _ _ _ _ _ Hp)). simpl.
    destruct (Z.eqb_spec st 200); [contradiction | reflexivity].
  - intros msg rest Hp.
    now rewrite (bind_raise _ _ _ _ _ (request_down _ _ _ _ _ _ _ Hp)).
  - intros d rest Hp Hwf.
    rewrite (bind_ok _ _ _ _ _ (request_reply _ _ _ _ _ _ _ _ Hp)). simpl.
    eexists. split; [reflexivity|]. split.
    + intros k Hk. rewrite (dict_merge_get k d Hwf). simpl.
      destruct (dict_get k d); auto.
      destruct (String.eqb_spec k "token"); congruence.
    + intros Hnone. rewrite (dict_merge_get "token" d Hwf). now rewrite Hnone.
  - destruct (platform w) as [|[st b|msg] rest] eqn:Hp.
    + now rewrite (bind_raise _ _ _ _ _ (request_silent _ _ _ _ _ Hp)).
    + rewrite (bind_ok _ _ _ _ _ (request_reply _ _ _ _ _ _ _ _ Hp)). simpl.
      destruct (st =? 200); simpl; [|reflexivity].
      unfold bind, json, lift. simpl.
      destruct b as [v|]; simpl; [|reflexivity].
      destruct (with_token self v); reflexivity.
    + now rewrite (bind_raise _ _ _ _ _ (request_down _ _ _ _ _ _ _ Hp)).
Qed.

(** C9.  Once the reward has been converted ([int(reward*100)] gave [r]),
    [create_study] posts a body holding [reward = r] and
    [total_available_places = participants]; on every reply whose status is
    not 201 it returns [None]; on a 201 reply whose body is a JSON object
    with an [id] it returns that object with [url] set to
    [client_url/studies/<id>/], every other key unchanged.  For the
    reward 0.13 the body holds 13, and for the id 42 the url ends in
    [/studies/42/]. *)
Theorem create_study_replies (repr : PyVal -> string) (self : ProlificClient.t)
    (title internal_name description url code : string)
    (participants duration : Z) (reward : Decimal) (r : Z) (w : World) :
  minor_units reward = Ok r ->
  (forall st b rest, platform w = Reply st b :: rest -> st <> 201 ->
     fst (create_study repr self title internal_name description url code
            participants duration reward w) = Ok PNone)
  /\ (forall s id rest,
        platform w = Reply 201 (Some (PDict s)) :: rest ->
        dict_get "id" s = Some id ->
        exists payload,
          fst (create_study repr self title internal_name description url code
                 participants duration reward w) = Ok (PDict payload)
          /\ dict_get "url" payload =
               Some (PStr (client_url ++ "/studies/" ++ format repr id ++ "/"))
          /\ forall k, k <> "url" -> dict_get k payload = dict_get k s)
  /\ (exists body,
        trace (snd (create_study repr self title internal_name description url code
                      participants duration reward w)) =
          (trace w ++ [EvRequest "POST" (api_url ++ "/studies/") (token self)
                         (Some (PDict body))])%list
        /\ dict_get "reward" body = Some (PInt r)
        /\ dict_get "total_available_places" body = Some (PInt participants))
  /\ minor_units (DFin 13 (-2)) = Ok 13
  /\ client_url ++ "/studies/" ++ format repr (PInt 42) ++ "/" =
       "https://test-client.prolific.co/studies/42/".
Proof.
  intros Hr.
  split; [|split; [|split; [|split; reflexivity]]].
  - intros st b rest Hp Hst.
    unfold create_study; rewrite Hr; unfold lift at 1; unfold bind at 1.
    rewrite (bind_ok _ _ _ _ _ (request_reply _ _ _ _ _ _ _ _ Hp)). simpl.
    destruct (Z.eqb_spec st 201); [contradiction | reflexivity].
  - intros s id rest Hp Hid.
    unfold create_study; rewrite Hr; unfold lift at 1; unfold bind at 1.
    rewrite (bind_ok _ _ _ _ _ (request_reply _ _ _ _ _ _ _ _ Hp)). simpl.
    unfold bind, json, lift. simpl. rewrite Hid. simpl.
    eexists. split; [reflexivity|]. split.
    + apply dict_get_set_same.
    + intros k Hk. now apply dict_get_set_other.
  - now apply create_study_request.
Qed.

End ClientFacts.

(** ** Decimal arithmetic within the context's precision *)

Section DecimalFacts.
Import Dec.

Lemma ndigits_from_bounds (fuel : nat) :
  forall k m n, 0 <= k <= m -> n < 10 ^ m -> k <= ndigits_from fuel k n <= m.
Proof.
  induction fuel as [|fuel IH]; intros k m n Hk Hn; simpl.
  - lia.
  - destruct (Z.ltb_spec n (10 ^ k)) as [Hlt|Hge].
    + lia.
    + assert (k < m).
      { destruct (Z.lt_ge_cases k m) as [|Hmk]; auto.
        assert (10 ^ m <= 10 ^ k) by (apply Z.pow_le_mono_r; lia). lia. }
      specialize (IH (k + 1) m n). lia.
Qed.

Lemma ndigits_bounds (n m : Z) :
  1 <= m -> Z.abs n < 10 ^ m -> 1 <= ndigits n <= m.
Proof.
  intros Hm Hn. unfold ndigits. apply ndigits_from_bounds; lia.
Qed.

(** A nonzero coefficient that fits the precision, with an exponent in
    range, is left alone by the context. *)
Lemma fix_exact (c e : Z) :
  c <> 0 -> Z.abs c < 10 ^ prec -> Etiny <= e <= Etop ->
  fix_ c e = Ok (DFin c e).
Proof.
  intros Hc Hlt He. unfold fix_.
  destruct (Z.eqb_spec c 0); [contradiction|].
  assert (Hn : 1 <= ndigits (Z.abs c) <= prec).
  { apply ndigits_bounds; [unfold prec; lia | now rewrite Z.abs_idemp]. }
  destruct (Z.ltb_spec Etop (ndigits (Z.abs c) + e - prec)); [lia|].
  destruct (Z.ltb_spec e (Z.max (ndigits (Z.abs c) + e - prec) Etiny)); [lia|].
  reflexivity.
Qed.

(** [int(reward*100)] is the exact product truncated toward zero. *)
Lemma minor_units_truncates (c e : Z) :
  Z.abs c * 100 < 10 ^ prec -> Etiny <= e <= Etop ->
  ProlificClient.minor_units (DFin c e) = Ok (Spec.truncated_minor_units c e).
Proof.
  intros Hc He. unfold ProlificClient.minor_units, mul_int, Spec.truncated_minor_units.
  destruct (Z.eq_dec c 0) as [->|Hne].
  - unfold fix_. simpl Z.eqb. cbv iota. unfold to_int.
    destruct (0 <=? Z.min (Z.max e Etiny) Emax); destruct (0 <=? e); reflexivity.
  - rewrite fix_exact by lia.
    unfold to_int. destruct (0 <=? e); reflexivity.
Qed.

(** With at most two decimal places nothing is cut off: truncating and
    rounding agree. *)
Lemma truncated_is_rounded (c e : Z) :
  -2 <= e ->
  Spec.round_minor_units (DFin c e) = Some (Spec.truncated_minor_units c e).
Proof.
  intros He. unfold Spec.round_minor_units, Spec.truncated_minor_units.
  destruct (Z.leb_spec 0 (e + 2)); [|lia]. f_equal.
  destruct (Z.leb_spec 0 e).
  - rewrite Z.pow_add_r by lia. change (10 ^ 2) with 100. lia.
  - assert (e = -1 \/ e = -2) as [-> | ->] by lia.
    + change (10 ^ (-1 + 2)) with 10. change (10 ^ (- -1)) with 10.
      replace (c * 100) with (c * 10 * 10) by lia.
      now rewrite Z.quot_mul by lia.
    + change (10 ^ (-2 + 2)) with 1. change (10 ^ (- -2)) with 100.
      rewrite Z.quot_mul by lia. lia.
Qed.

Lemma strip_zeros_spec (ideal : Z) (fuel : nat) :
  forall coeff exp,
    exp <= ideal -> ideal - exp <= Z.of_nat fuel -> 0 < coeff ->
    exp <= snd (strip_zeros fuel coeff exp ideal) <= ideal
    /\ coeff = fst (strip_zeros fuel coeff exp ideal)
                * 10 ^ (snd (strip_zeros fuel coeff exp ideal) - exp)
    /\ 0 < fst (strip_zeros fuel coeff exp ideal)
    /\ (snd (strip_zeros fuel coeff exp ideal) < ideal ->
        fst (strip_zeros fuel coeff exp ideal) mod 10 <> 0).
Proof.
  induction fuel as [|fuel IH]; intros coeff exp Hle Hfuel Hpos.
  - simpl. replace (exp - exp) with 0 by lia. simpl. lia.
  - cbn [strip_zeros].
    destruct (Z.ltb_spec exp ideal) as [Hlt|Hge]; cbn [andb].
    + destruct (Z.eqb_spec (coeff mod 10) 0) as [Hmod|Hmod].
      * assert (Hdiv : coeff = 10 * (coeff / 10)).
        { rewrite (Z.div_mod coeff 10) at 1 by lia. lia. }
        destruct (IH (coeff / 10) (exp + 1)) as (H1 & H2 & H3 & H4); try lia.
        repeat split; try lia.
        rewrite Hdiv at 1. rewrite H2 at 1.
        replace (snd (strip_zeros fuel (coeff / 10) (exp + 1) ideal) - exp)
          with (1 + (snd (strip_zeros fuel (coeff / 10) (exp + 1) ideal) - (exp + 1)))
          by lia.
        rewrite Z.pow_add_r by lia. change (10 ^ 1) with 10. lia.
      * cbn [fst snd]. replace (exp - exp) with 0 by lia. simpl. lia.
    + cbn [fst snd]. replace (exp - exp) with 0 by lia. simpl. lia.
Qed.

(** Dividing an integer of at most 28 digits by 100 is exact: the
    quotient times 100 is the integer again, with at most two decimals. *)
Lemma div_100_exact (n : Z) :
  Z.abs n < 10 ^ prec ->
  exists q x, div_int (DFin n 0) 100 = Ok (DFin q x)
              /\ -2 <= x <= 0 /\ q * 10 ^ (x + 2) = n.
Proof.
  intros Hn. unfold div_int.
  change (100 =? 0) with false. cbv iota.
  destruct (Z.eqb_spec n 0) as [->|Hne].
  - exists 0, 0. split; [reflexivity | split; [lia | reflexivity]].
  - change (ndigits 100) with 3. change (Z.abs 100) with 100.
    change (Z.sgn 100) with 1.
    assert (Hd : 1 <= ndigits n <= prec)
      by (apply ndigits_bounds; [unfold prec; lia | exact Hn]).
    set (shift := 3 - ndigits n + prec + 1).
    assert (Hs : 4 <= shift <= 31) by (unfold shift, prec in *; lia).
    destruct (Z.leb_spec 0 shift); [|lia].
    assert (H10 : 10 ^ shift = 10 ^ (shift - 2) * 100).
    { replace shift with ((shift - 2) + 2) at 1 by lia.
      rewrite Z.pow_add_r by lia. reflexivity. }
    assert (Hpow : 0 < 10 ^ (shift - 2)) by (apply Z.pow_pos_nonneg; lia).
    assert (Hnum : Z.abs n * 10 ^ shift = (Z.abs n * 10 ^ (shift - 2)) * 100)
      by (rewrite H10; lia).
    rewrite Hnum. rewrite Z.div_mul by lia. rewrite Z.mod_mul by lia.
    change (0 =? 0) with true. cbv iota.
    replace (0 - (0 - shift)) with shift by lia.
    pose proof (strip_zeros_spec 0 (Z.to_nat shift)
                  (Z.abs n * 10 ^ (shift - 2)) (0 - shift)) as Hstrip.
    destruct Hstrip as (Hx & Hc & Hq & Hmod); try lia.
    set (q := fst (strip_zeros (Z.to_nat shift) (Z.abs n * 10 ^ (shift - 2)) (0 - shift) 0)) in *.
    set (x := snd (strip_zeros (Z.to_nat shift) (Z.abs n * 10 ^ (shift - 2)) (0 - shift) 0)) in *.
    assert (Hx2 : -2 <= x).
    { destruct (Z.le_gt_cases (-2) x) as [|Hlow]; auto. exfalso.
      apply Hmod; [lia|].
      assert (Hsplit : 10 ^ (shift - 2) = 10 ^ (x - (0 - shift)) * 10 ^ (- 2 - x)).
      { rewrite <- Z.pow_add_r by lia. f_equal. lia. }
      rewrite Hsplit in Hc.
      assert (Hp2 : 0 < 10 ^ (x - (0 - shift))) by (apply Z.pow_pos_nonneg; lia).
      assert (Hq' : q = Z.abs n * 10 ^ (- 2 - x)) by nia.
      replace (- 2 - x) with (1 + (- 3 - x)) in Hq' by lia.
      rewrite Z.pow_add_r in Hq' by lia. change (10 ^ 1) with 10 in Hq'.
      rewrite Hq'. replace (Z.abs n * (10 * 10 ^ (- 3 - x)))
        with ((Z.abs n * 10 ^ (- 3 - x)) * 10) by lia.
      apply Z.mod_mul. lia. }
    assert (Hval : q * 10 ^ (x + 2) = Z.abs n).
    { assert (Hsplit : 10 ^ (x - (0 - shift)) = 10 ^ (x + 2) * 10 ^ (shift - 2)).
      { rewrite <- Z.pow_add_r by lia. f_equal. lia. }
      rewrite Hsplit in Hc. nia. }
    assert (Hqn : q <= Z.abs n).
    { assert (0 < 10 ^ (x + 2)) by (apply Z.pow_pos_nonneg; lia). nia. }
    assert (Hsgn : Z.sgn n = 1 \/ Z.sgn n = -1) by lia.
    exists (Z.sgn n * 1 * q), x. split; [|split; [lia|]].
    + apply fix_exact.
      * destruct Hsgn as [-> | ->]; lia.
      * destruct Hsgn as [-> | ->]; lia.
      * unfold Etiny, Emin, Etop, Emax, prec. lia.
    + replace (Z.sgn n * 1 * q * 10 ^ (x + 2)) with (Z.sgn n * (q * 10 ^ (x + 2))) by lia.
      rewrite Hval. now rewrite Z.mul_comm, Z.abs_sgn.
Qed.

End DecimalFacts.

(** ** Money *)

Section MoneyFacts.
Import ProlificClient Dec.

#[local] Arguments div_int : simpl never.

(** C4, as stated, fails: for the reward 0.139 the specification's
    [round(rewardAmount*100)] is 14, and the request carries 13. *)
Lemma money_conversion_counterexample :
  Spec.round_minor_units (DFin 139 (-3)) = Some 14
  /\ trace (snd (calculate_total Examples.no_parse (ProlificClient.mk (PStr "tok")) 500
                   (DFin 139 (-3)) (Examples.fresh []))) =
       [EvRequest "POST" "https://test.prolific.co/api/v1/study-cost-calculator/"
          (PStr "tok")
          (Some (PDict [("reward", PInt 13);
                        ("total_available_places", PInt 500);
                        ("study_type", PStr "SINGLE")]))].
Proof. split; reflexivity. Qed.

(** C4, as amended.  For every participant count and every finite decimal
    reward [c * 10^e] whose product with 100 fits the decimal context (28
    digits, exponent in range), the cost-calculator request and the create-study
    request carry the reward as [int(reward*100)]: the exact decimal
    product truncated toward zero.  For a reward with at most two decimal
    places this is [round(reward*100)].  On a 200 reply whose [total_cost]
    is an integer of at most 28 digits, [calculate_total] returns the
    decimal that, times 100, is exactly that integer. *)
Theorem money_conversion (parse : PyVal -> Result Decimal) (repr : PyVal -> string)
    (self : ProlificClient.t)
    (title internal_name description url code : string)
    (participants duration : Z) (c e : Z) (w : World) :
  Z.abs c * 100 < 10 ^ prec -> Etiny <= e <= Etop ->
  trace (snd (calculate_total parse self participants (DFin c e) w)) =
    (trace w ++ [EvRequest "POST" (api_url ++ "/study-cost-calculator/") (token self)
                   (Some (PDict [("reward", PInt (Spec.truncated_minor_units c e));
                                 ("total_available_places", PInt participants);
                                 ("study_type", PStr "SINGLE")]))])%list
  /\ (exists body,
        trace (snd (create_study repr self title internal_name description url code
                      participants duration (DFin c e) w)) =
          (trace w ++ [EvRequest "POST" (api_url ++ "/studies/") (token self)
                         (Some (PDict body))])%list
        /\ dict_get "reward" body = Some (PInt (Spec.truncated_minor_units c e))
        /\ dict_get "total_available_places" body = Some (PInt participants))
  /\ (-2 <= e ->
      Spec.round_minor_units (DFin c e) = Some (Spec.truncated_minor_units c e))
  /\ (forall d n rest,
        platform w = Reply 200 (Some (PDict d)) :: rest ->
        dict_get "total_cost" d = Some (PInt n) ->
        Z.abs n < 10 ^ prec ->
        exists q x,
          fst (calculate_total parse self participants (DFin c e) w) = Ok (Some (DFin q x))
          /\ -2 <= x <= 0 /\ q * 10 ^ (x + 2) = n).
Proof.
  intros Hc He.
  pose proof (minor_units_truncates c e Hc He) as Hr.
  split; [|split; [|split]].
  - now apply calculate_total_request.
  - now apply create_study_request.
  - apply truncated_is_rounded.
  - intros d n rest Hp Hcost Hn.
    destruct (div_100_exact n Hn) as (q & x & Hdiv & Hx & Hq).
    exists q, x. split; [|split; assumption].
    unfold calculate_total. rewrite Hr. unfold lift at 1. unfold bind at 1.
    rewrite (bind_ok _ _ _ _ _ (request_reply _ _ _ _ _ _ _ _ Hp)). simpl.
    unfold bind, json, lift. simpl. rewrite Hcost. simpl.
    now rewrite Hdiv.
Qed.

End MoneyFacts.

(** ** Session objects *)

Section HeapFacts.

Lemma nth_error_list_update_same {A} (l : list A) (i : nat) (x y : A) :
  nth_error l i = Some y -> nth_error (list_update l i x) i = Some x.
Proof.
  revert i. induction l as [|z l IH]; intros [|i]; simpl; try discriminate; auto.
Qed.

Lemma nth_error_list_update_other {A} (l : list A) (i j : nat) (x : A) :
  i <> j -> nth_error (list_update l i x) j = nth_error l j.
Proof.
  revert i j. induction l as [|z l IH]; intros [|i] [|j] H; simpl; auto;
    congruence.
Qed.

Lemma nth_error_snoc {A} (l : list A) (x : A) :
  nth_error (l ++ [x]) (List.length l) = Some x.
Proof. induction l; simpl; auto. Qed.

Lemma list_update_snoc {A} (l : list A) (x y : A) :
  list_update (l ++ [x]) (List.length l) y = (l ++ [y])%list.
Proof. induction l; simpl; auto. now rewrite IHl. Qed.

Lemma nth_error_snoc2 {A} (l : list A) (x y : A) :
  nth_error (l ++ [x; y]) (S (List.length l)) = Some y.
Proof. induction l; simpl; auto. Qed.

Lemma deref_ok (a : addr) (w : World) (s : ProlificSession) :
  nth_error (heap w) a = Some s -> deref a w = (Ok s, w).
Proof. intros H. unfold deref, bind, get_world, ret. now rewrite H. Qed.

Lemma update_ok (a : addr) (f : ProlificSession -> ProlificSession)
      (w : World) (s : ProlificSession) :
  nth_error (heap w) a = Some s ->
  update a f w = (Ok tt, with_heap (list_update (heap w) a (f s)) w).
Proof.
  intros H. unfold update. rewrite (bind_ok _ _ _ _ _ (deref_ok a w s H)).
  reflexivity.
Qed.

Lemma getToken_ok (a : addr) (w : World) (s : ProlificSession) (t : PyVal) :
  nth_error (heap w) a = Some s -> token s = Some t ->
  prolific.getToken a w = (Ok t, w).
Proof.
  intros H Ht. unfold prolific.getToken.
  rewrite (bind_ok _ _ _ _ _ (deref_ok a w s H)). now rewrite Ht.
Qed.

Lemma client_none (a : addr) (w : World) (s : ProlificSession) (t : PyVal) :
  nth_error (heap w) a = Some s -> token s = Some t -> truthy t = false ->
  prolific.client a w = (Ok None, w).
Proof.
  intros H Ht Hf. unfold prolific.client.
  rewrite (bind_ok _ _ _ _ _ (getToken_ok a w s t H Ht)). now rewrite Hf.
Qed.

Lemma client_some (a : addr) (w : World) (s : ProlificSession) (t : PyVal) :
  nth_error (heap w) a = Some s -> token s = Some t -> truthy t = true ->
  prolific.client a w = (Ok (Some (ProlificClient.mk t)), w).
Proof.
  intros H Ht Hf. unfold prolific.client.
  rewrite (bind_ok _ _ _ _ _ (getToken_ok a w s t H Ht)). rewrite Hf.
  now rewrite (bind_ok _ _ _ _ _ (getToken_ok a w s t H Ht)).
Qed.

End HeapFacts.

(** ** Sessions without a token *)

Section AnonymousSessions.
Import prolific.

Lemma startSession_no_token (gcs : M (option addr)) (self : addr)
      (s : ProlificSession) (tok : PyVal) (w : World) :
  nth_error (heap w) self = Some s -> token s = Some tok -> truthy tok = false ->
  startSession gcs self w =
    (Ok tt, with_heap (list_update (heap w) self (with_authenticated false s)) w).
Proof.
  intros H Ht Hf. unfold startSession.
  rewrite (bind_ok _ _ _ _ _ (client_none self w s tok H Ht Hf)).
  now apply update_ok.
Qed.

Lemma ProlificSession_init_no_token (gcs : M (option addr)) (tok : PyVal)
      (remember : bool) (w : World) :
  truthy tok = false ->
  ProlificSession_init gcs tok remember w =
    (Ok (List.length (heap w)),
     with_heap (heap w ++ [anonymous tok remember]) w).
Proof.
  intros Hf. unfold ProlificSession_init, alloc, setToken.
  unfold bind at 1. unfold bind at 1. unfold get_world at 1.
  unfold bind at 1. unfold set_heap at 1, modify at 1.
  unfold ret at 1. unfold bind at 1. unfold bind at 1.
  set (s0 := mkSession PNone PNone PNone remember false PNone None).
  set (w1 := with_heap (heap w ++ [s0]) w).
  assert (H1 : nth_error (heap w1) (List.length (heap w)) = Some s0)
    by apply nth_error_snoc.
  rewrite (update_ok _ _ _ _ H1).
  set (w2 := with_heap _ w1).
  assert (H2 : nth_error (heap w2) (List.length (heap w)) = Some (with_token_entry tok s0)).
  { unfold w2, w1. simpl. rewrite list_update_snoc. apply nth_error_snoc. }
  rewrite (startSession_no_token gcs _ _ tok w2 H2 eq_refl Hf).
  unfold ret, w2, w1, with_heap. simpl.
  rewrite list_update_snoc, list_update_snoc. reflexivity.
Qed.

Lemma getCurrentSession_existing (n : nat) (a : addr) (w : World) :
  existingSession w = Some a ->
  getCurrentSession (S n) w = (Ok (Some a), w).
Proof.
  intros H. simpl. unfold bind, get_world. now rewrite H.
Qed.

Lemma getCurrentSession_first (n : nat) (w : World) :
  existingSession w = None ->
  getCurrentSession (S n) w =
    (Ok (Some (S (List.length (heap w)))),
     with_existingSession (Some (S (List.length (heap w))))
       (with_heap (heap w ++ [anonymous PNone true; anonymous PNone true]) w)).
Proof.
  intros H. cbn [getCurrentSession].
  unfold bind at 1. unfold get_world at 1. rewrite H.
  rewrite (bind_ok _ _ _ _ _
             (ProlificSession_init_no_token (getCurrentSession n) PNone true w eq_refl)).
  unfold bind at 1. unfold set_existingSession at 1, modify at 1.
  set (w1 := with_existingSession _ _).
  unfold refreshSession.
  unfold bind at 1. unfold bind at 1. unfold get_world at 1.
  change (existingSession w1) with (Some (List.length (heap w))). cbv iota.
  unfold bind at 1.
  assert (H1 : nth_error (heap w1) (List.length (heap w)) = Some (anonymous PNone true))
    by apply nth_error_snoc.
  rewrite (bind_ok _ _ _ _ _ (getToken_ok _ _ _ PNone H1 eq_refl)).
  cbn [truthy].
  rewrite (bind_ok _ _ _ _ _
             (ProlificSession_init_no_token (getCurrentSession n) PNone true w1 eq_refl)).
  unfold w1, with_existingSession, with_heap, set_existingSession, modify,
    bind, get_world, ret. simpl.
  rewrite length_app. simpl. rewrite Nat.add_1_r.
  rewrite <- app_assoc. reflexivity.
Qed.

(** With any fuel but none, [getCurrentSession] hands out a session. *)
Lemma getCurrentSession_some (n : nat) (w : World) :
  exists a w', getCurrentSession (S n) w = (Ok (Some a), w').
Proof.
  destruct (existingSession w) as [a|] eqn:H.
  - exists a, w. now apply getCurrentSession_existing.
  - eexists _, _. now apply getCurrentSession_first.
Qed.

End AnonymousSessions.

(** ** Where the connection error of [login] can come from *)

Section LoginError.
Import prolific.

Lemma nle_ret {A} (a : A) : never_login_error (ret a).
Proof. intros w. discriminate. Qed.

Lemma nle_abort {A} : never_login_error (@abort A).
Proof. intros w. discriminate. Qed.

Lemma nle_raise {A} (e : Exc) :
  e <> LoginConnectionError -> never_login_error (@raise A e).
Proof. intros H w. simpl. congruence. Qed.

Lemma nle_lift {A} (r : Result A) :
  r <> Raise LoginConnectionError -> never_login_error (lift r).
Proof. intros H w. exact H. Qed.

Lemma nle_modify (f : World -> World) : never_login_error (modify f).
Proof. intros w. discriminate. Qed.

Lemma nle_get_world : never_login_error get_world.
Proof. intros w. discriminate. Qed.

Lemma nle_bind {A B} (m : M A) (k : A -> M B) :
  never_login_error m -> (forall a, never_login_error (k a)) ->
  never_login_error (bind m k).
Proof.
  intros Hm Hk w. unfold bind. specialize (Hm w).
  destruct (m w) as [[a|e|] w']; simpl in *.
  - apply Hk.
  - intros E. apply Hm. congruence.
  - discriminate.
Qed.

Lemma nle_try_except {A} (m h : M A) :
  never_login_error m -> never_login_error h -> never_login_error (try_except m h).
Proof.
  intros Hm Hh w. unfold try_except. specialize (Hm w).
  destruct (m w) as [[a|e|] w']; simpl in *.
  - discriminate.
  - apply Hh.
  - discriminate.
Qed.

Create HintDb nle discriminated.

(** One step of a syntax-directed proof that a computation never ends in
    the connection error of [login]; the facts already proved are hints. *)
Ltac nle_step :=
  match goal with
  | |- never_login_error (bind _ _) => apply nle_bind; [|intros]
  | |- never_login_error (ret _) => apply nle_ret
  | |- never_login_error abort => apply nle_abort
  | |- never_login_error (raise _) => apply nle_raise; discriminate
  | |- never_login_error (modify _) => apply nle_modify
  | |- never_login_error get_world => apply nle_get_world
  | |- never_login_error (match ?x with _ => _ end) => destruct x
  | |- never_login_error _ => solve [auto with nle]
  end.

Ltac nle := repeat nle_step.

Lemma nle_emit (e : Event) : never_login_error (emit e).
Proof. apply nle_modify. Qed.
#[local] Hint Resolve nle_emit : nle.

Lemma nle_deref (a : addr) : never_login_error (deref a).
Proof. unfold deref. nle. Qed.
#[local] Hint Resolve nle_deref : nle.

Lemma nle_update (a : addr) (f : ProlificSession -> ProlificSession) :
  never_login_error (update a f).
Proof. unfold update, set_heap. nle. Qed.
#[local] Hint Resolve nle_update : nle.

Lemma nle_alloc (s : ProlificSession) : never_login_error (alloc s).
Proof. unfold alloc, set_heap. nle. Qed.
#[local] Hint Resolve nle_alloc : nle.

Lemma nle_request (method url : string) (bearer : PyVal) (js : option PyVal) :
  never_login_error (request method url bearer js).
Proof. unfold request, set_platform. nle. Qed.
#[local] Hint Resolve nle_request : nle.

Lemma nle_json (r : Response) : never_login_error (json r).
Proof. unfold json. nle. Qed.
#[local] Hint Resolve nle_json : nle.

Lemma nle_retrieve_prolific_user (c : ProlificClient.t) :
  never_login_error (ProlificClient.retrieve_prolific_user c).
Proof.
  unfold ProlificClient.retrieve_prolific_user. nle.
  apply nle_lift. unfold ProlificClient.with_token.
  match goal with |- context [match ?v with _ => _ end] => destruct v end;
    discriminate.
Qed.
#[local] Hint Resolve nle_retrieve_prolific_user : nle.

Lemma nle_getToken (a : addr) : never_login_error (getToken a).
Proof. unfold getToken. nle. Qed.
#[local] Hint Resolve nle_getToken : nle.

Lemma nle_client (a : addr) : never_login_error (client a).
Proof. unfold client. nle. Qed.
#[local] Hint Resolve nle_client : nle.

Lemma nle_knownUsers_contains (k : PyVal) : never_login_error (knownUsers_contains k).
Proof. unfold knownUsers_contains. nle. Qed.
#[local] Hint Resolve nle_knownUsers_contains : nle.

Lemma nle_knownUsers_getitem (k : PyVal) : never_login_error (knownUsers_getitem k).
Proof. unfold knownUsers_getitem. nle. Qed.
#[local] Hint Resolve nle_knownUsers_getitem : nle.

Lemma nle_User_saveLocal (u : User) : never_login_error (User_saveLocal u).
Proof.
  unfold User_saveLocal, knownUsers_setitem, knownUsers_save, set_knownUsers. nle.
Qed.
#[local] Hint Resolve nle_User_saveLocal : nle.

Section WithCallback.

Variable gcs : M (option addr).
Hypothesis nle_gcs : never_login_error gcs.

Lemma nle_User_init (localData : PyVal) (rememberMe : bool) :
  never_login_error (User_init gcs localData rememberMe).
Proof. unfold User_init. nle. Qed.
#[local] Hint Resolve nle_User_init : nle.

Lemma nle_user (self : addr) : never_login_error (user gcs self).
Proof. unfold user. nle. Qed.
#[local] Hint Resolve nle_user : nle.

Lemma nle_startSession (self : addr) : never_login_error (startSession gcs self).
Proof. unfold startSession. nle. Qed.
#[local] Hint Resolve nle_startSession : nle.

Lemma nle_setToken (self : addr) (tok : PyVal) :
  never_login_error (setToken gcs self tok).
Proof. unfold setToken. nle. Qed.

Lemma nle_ProlificSession_init (tok : PyVal) (remember : bool) :
  never_login_error (ProlificSession_init gcs tok remember).
Proof. unfold ProlificSession_init. pose proof nle_setToken. nle. Qed.

Lemma nle_refreshSession : never_login_error (refreshSession gcs).
Proof.
  unfold refreshSession, set_existingSession.
  pose proof nle_ProlificSession_init. nle.
Qed.

End WithCallback.

Lemma nle_getCurrentSession (fuel : nat) : never_login_error (getCurrentSession fuel).
Proof.
  induction fuel as [|fuel IH]; simpl.
  - apply nle_abort.
  - pose proof (nle_ProlificSession_init _ IH).
    pose proof (nle_refreshSession _ IH).
    unfold set_existingSession. nle.
Qed.


End LoginError.

(** ** Sessions with a token *)

Section TokenSessions.
Import prolific.

Variable gcs : M (option addr).

Lemma user_net_down (self : addr) (s : ProlificSession) (tok : PyVal) (w : World)
      (msg : string) (rest : list NetReply) :
  nth_error (heap w) self = Some s -> token s = Some tok -> truthy tok = true ->
  platform w = NetDown msg :: rest ->
  fst (user gcs self w) = Raise (TransportError msg).
Proof.
  intros H Ht Htr Hp. unfold user.
  rewrite (bind_ok _ _ _ _ _ (client_some self w s tok H Ht Htr)).
  rewrite (bind_ok _ _ _ _ _ (client_some self w s tok H Ht Htr)).
  unfold ProlificClient.retrieve_prolific_user. cbn [ProlificClient.token].
  unfold bind at 1. unfold bind at 1.
  now rewrite (request_down _ _ _ _ _ _ _ Hp).
Qed.

Lemma user_silent (self : addr) (s : ProlificSession) (tok : PyVal) (w : World) :
  nth_error (heap w) self = Some s -> token s = Some tok -> truthy tok = true ->
  platform w = [] ->
  fst (user gcs self w) = Raise (TransportError "no reply").
Proof.
  intros H Ht Htr Hp. unfold user.
  rewrite (bind_ok _ _ _ _ _ (client_some self w s tok H Ht Htr)).
  rewrite (bind_ok _ _ _ _ _ (client_some self w s tok H Ht Htr)).
  unfold ProlificClient.retrieve_prolific_user. cbn [ProlificClient.token].
  unfold bind at 1. unfold bind at 1.
  now rewrite (request_silent _ _ _ _ _ Hp).
Qed.

Lemma startSession_raises (self : addr) (s : ProlificSession) (tok : PyVal)
      (w : World) (e : Exc) :
  nth_error (heap w) self = Some s -> token s = Some tok -> truthy tok = true ->
  fst (user gcs self w) = Raise e ->
  fst (startSession gcs self w) = Raise e.
Proof.
  intros H Ht Htr Hu. unfold startSession.
  rewrite (bind_ok _ _ _ _ _ (client_some self w s tok H Ht Htr)).
  unfold bind at 1. destruct (user gcs self w) as [[u|e'|] w']; simpl in *;
    congruence.
Qed.

Lemma setToken_raises (self : addr) (s : ProlificSession) (tok : PyVal)
      (w : World) (msg : string) (rest : list NetReply) :
  nth_error (heap w) self = Some s -> truthy tok = true ->
  platform w = NetDown msg :: rest ->
  fst (setToken gcs self tok w) = Raise (TransportError msg).
Proof.
  intros H Htr Hp. unfold setToken.
  rewrite (bind_ok _ _ _ _ _ (update_ok self _ w s H)).
  set (w1 := with_heap _ w).
  assert (H1 : nth_error (heap w1) self = Some (with_token_entry tok s))
    by (apply (nth_error_list_update_same _ _ _ _ H)).
  apply (startSession_raises self _ tok w1 _ H1 eq_refl Htr).
  now apply (user_net_down self _ tok w1 msg rest H1 eq_refl Htr).
Qed.

Lemma ProlificSession_init_raises (tok : PyVal) (remember : bool) (w : World)
      (msg : string) (rest : list NetReply) :
  truthy tok = true -> platform w = NetDown msg :: rest ->
  fst (ProlificSession_init gcs tok remember w) = Raise (TransportError msg).
Proof.
  intros Htr Hp. unfold ProlificSession_init, alloc.
  unfold bind at 1. unfold bind at 1. unfold get_world at 1.
  unfold bind at 1. unfold set_heap at 1, modify at 1. unfold ret at 1.
  set (s0 := mkSession PNone PNone PNone remember false PNone None).
  set (w1 := with_heap (heap w ++ [s0]) w).
  assert (H1 : nth_error (heap w1) (List.length (heap w)) = Some s0)
    by apply nth_error_snoc.
  pose proof (setToken_raises _ _ tok w1 msg rest H1 Htr Hp) as Hs.
  unfold bind.
  destruct (setToken gcs (List.length (heap w)) tok w1) as [[u|e'|] w']; simpl in *;
    congruence.
Qed.

(** Whoever ends up authenticated had a token and got an answer. *)
Lemma startSession_authenticated_only_if (self : addr) (s s' : ProlificSession)
      (tok : PyVal) (w : World) :
  nth_error (heap w) self = Some s -> token s = Some tok ->
  fst (startSession gcs self w) = Ok tt ->
  nth_error (heap (snd (startSession gcs self w))) self = Some s' ->
  authenticated s' = true ->
  truthy tok = true /\ exists st b rest, platform w = Reply st b :: rest.
Proof.
  intros H Ht Hok Hs' Hauth.
  destruct (truthy tok) eqn:Htr.
  - split; [reflexivity|].
    destruct (platform w) as [|[st b|msg] rest] eqn:Hp.
    + rewrite (startSession_raises self s tok w _ H Ht Htr
                 (user_silent self s tok w H Ht Htr Hp)) in Hok. discriminate.
    + now exists st, b, rest.
    + rewrite (startSession_raises self s tok w _ H Ht Htr
                 (user_net_down self s tok w msg rest H Ht Htr Hp)) in Hok.
      discriminate.
  - rewrite (startSession_no_token gcs self s tok w H Ht Htr) in Hs'.
    simpl in Hs'. rewrite (nth_error_list_update_same _ _ _ _ H) in Hs'.
    injection Hs' as <-. discriminate.
Qed.

End TokenSessions.

(** ** A session whose token the platform accepts *)

Section AcceptedToken.
Import prolific.

Lemma dict_set_nonempty (k : string) (v : PyVal) (d : dict) : dict_set k v d <> [].
Proof. destruct d as [|[k' v'] d]; simpl; [|destruct (k =? k')%string]; discriminate. Qed.

Lemma dict_merge_nonempty (b : dict) : forall a, a <> [] -> dict_merge a b <> [].
Proof.
  unfold dict_merge. induction b as [|[k v] b IH]; intros a Ha; simpl; auto.
  apply IH. apply dict_set_nonempty.
Qed.

Lemma User_username_field (u : User) : User_username u = field "username" (data u).
Proof. unfold User_username, dict_has, field. now destruct (dict_get _ _). Qed.

Lemma User_id_field (u : User) : User_id u = field "id" (data u).
Proof. unfold User_id, dict_has, field. now destruct (dict_get _ _). Qed.

(** A field of the reply survives the two writes of [token]. *)
Lemma field_of_user_data (k : string) (tok tc : PyVal) (d : dict) :
  dict_wf d -> k <> "token" ->
  field k (dict_set "token" tc (dict_merge [("token", tok)] d)) = field k d.
Proof.
  intros Hwf Hk. unfold field.
  rewrite dict_get_set_other by assumption.
  rewrite (dict_merge_get k d Hwf). simpl.
  destruct (dict_get k d); auto.
  destruct (String.eqb_spec k "token"); congruence.
Qed.

Variable n : nat.

Lemma user_accepted (self cur : addr) (s sc : ProlificSession) (tok tc : PyVal)
      (d : dict) (rest : list NetReply) (w : World) :
  nth_error (heap w) self = Some s -> token s = Some tok -> truthy tok = true ->
  existingSession w = Some cur ->
  nth_error (heap w) cur = Some sc -> token sc = Some tc ->
  platform w = Reply 200 (Some (PDict d)) :: rest ->
  hashable (field "username" (dict_set "token" tc (dict_merge [("token", tok)] d))) = true ->
  disk_ok w = true ->
  user (getCurrentSession (S n)) self w =
    (Ok (mkUser (dict_set "token" tc (dict_merge [("token", tok)] d))),
     with_trace (trace w ++ [EvRequest "GET" (ProlificClient.api_url ++ "/users/me/") tok None;
                             EvSaveUsers])%list
       (with_knownUsers
          (store_set (field "username" (dict_set "token" tc (dict_merge [("token", tok)] d)))
                     (PDict (dict_set "token" tc (dict_merge [("token", tok)] d)))
                     (knownUsers w))
          (with_platform rest w))).
Proof.
  intros H Ht Htr Hex Hc Htc Hp Hhash Hdisk. unfold user.
  rewrite (bind_ok _ _ _ _ _ (client_some self w s tok H Ht Htr)).
  rewrite (bind_ok _ _ _ _ _ (client_some self w s tok H Ht Htr)).
  unfold ProlificClient.retrieve_prolific_user. cbn [ProlificClient.token].
  unfold bind at 1. unfold bind at 1.
  rewrite (request_reply _ _ _ _ _ _ _ _ Hp).
  cbn [status_code Z.eqb Pos.eqb negb].
  unfold bind at 1, json at 1. cbn [body]. unfold ret at 1.
  unfold lift at 1, ProlificClient.with_token at 1. cbn [ProlificClient.token].
  set (w1 := with_platform rest _).
  assert (Hne : truthy (PDict (dict_merge [("token", tok)] d)) = true).
  { simpl. destruct (dict_merge [("token", tok)] d) eqn:E; auto.
    exfalso. revert E. apply dict_merge_nonempty. discriminate. }
  rewrite Hne.
  unfold User_init.
  assert (Hex1 : existingSession w1 = Some cur) by exact Hex.
  rewrite (bind_ok _ _ _ _ _ (getCurrentSession_existing n cur w1 Hex1)).
  assert (Hc1 : nth_error (heap w1) cur = Some sc) by exact Hc.
  rewrite (bind_ok _ _ _ _ _ (getToken_ok cur w1 sc tc Hc1 Htc)).
  unfold User_saveLocal, knownUsers_setitem, knownUsers_save.
  rewrite User_username_field. cbn [data]. rewrite Hhash.
  unfold bind, get_world, set_knownUsers, modify, emit, ret. simpl.
  rewrite Hdisk. unfold modify, with_trace, with_knownUsers, with_platform. simpl.
  rewrite <- app_assoc. reflexivity.
Qed.

Lemma startSession_accepted (self cur : addr) (s sc : ProlificSession) (tok tc : PyVal)
      (d : dict) (rest : list NetReply) (w : World) :
  nth_error (heap w) self = Some s -> token s = Some tok -> truthy tok = true ->
  existingSession w = Some cur ->
  nth_error (heap w) cur = Some sc -> token sc = Some tc ->
  platform w = Reply 200 (Some (PDict d)) :: rest ->
  dict_wf d ->
  hashable (field "username" d) = true ->
  disk_ok w = true ->
  exists w',
    startSession (getCurrentSession (S n)) self w = (Ok tt, w')
    /\ nth_error (heap w') self =
         Some (with_authenticated true
                 (with_userFullName (field "name" d)
                    (with_userID (field "id" d)
                       (with_username (field "username" d) s))))
    /\ trace w' =
         (trace w ++ [EvRequest "GET" (ProlificClient.api_url ++ "/users/me/") tok None;
                      EvSaveUsers])%list.
Proof.
  intros H Ht Htr Hex Hc Htc Hp Hwf Hhash Hdisk.
  assert (Hu : forall k, k <> "token" ->
             field k (dict_set "token" tc (dict_merge [("token", tok)] d)) = field k d)
    by (intros; now apply field_of_user_data).
  unfold startSession.
  rewrite (bind_ok _ _ _ _ _ (client_some self w s tok H Ht Htr)).
  erewrite (bind_ok _ _ _ _ _ (user_accepted self cur s sc tok tc d rest w
                                H Ht Htr Hex Hc Htc Hp _ Hdisk)).
  rewrite User_username_field, User_id_field. unfold User_name. cbn [data].
  fold (field "name" (dict_set "token" tc (dict_merge [("token", tok)] d))).
  rewrite !Hu by discriminate.
  set (w1 := with_trace _ _).
  assert (H1 : nth_error (heap w1) self = Some s) by exact H.
  rewrite (bind_ok _ _ _ _ _ (update_ok self _ w1 s H1)).
  set (w2 := with_heap _ w1).
  assert (H2 : nth_error (heap w2) self = Some (with_username (field "username" d) s))
    by apply (nth_error_list_update_same _ _ _ _ H1).
  rewrite (bind_ok _ _ _ _ _ (update_ok self _ w2 _ H2)).
  set (w3 := with_heap _ w2).
  assert (H3 : nth_error (heap w3) self =
               Some (with_userID (field "id" d) (with_username (field "username" d) s)))
    by apply (nth_error_list_update_same _ _ _ _ H2).
  rewrite (bind_ok _ _ _ _ _ (update_ok self _ w3 _ H3)).
  set (w4 := with_heap _ w3).
  assert (H4 : nth_error (heap w4) self =
               Some (with_userFullName (field "name" d)
                       (with_userID (field "id" d)
                          (with_username (field "username" d) s))))
    by apply (nth_error_list_update_same _ _ _ _ H3).
  rewrite (update_ok self _ w4 _ H4).
  eexists. split; [reflexivity|]. split.
  - apply (nth_error_list_update_same _ _ _ _ H4).
  - reflexivity.
  Unshelve. rewrite Hu by discriminate. exact Hhash.
Qed.

End AcceptedToken.

(** ** The session invariant *)

Section SessionInvariant.
Import prolific.

(** C1, as stated, fails twice.  A token the platform rejects (a 401
    reply) still leaves the session with [authenticated = True], and the
    anonymous user's username is [None], not the empty string.  A failure
    of the network during the identity fetch leaves the constructor as an
    exception. *)
Lemma session_authentication_counterexample :
  (exists w' s',
     startSession (getCurrentSession 2) 0%nat
       (Examples.running (PStr "tok") [Reply 401 (Some (PDict []))]) = (Ok tt, w')
     /\ nth_error (heap w') 0%nat = Some s'
     /\ authenticated s' = true
     /\ username s' = PNone)
  /\ (exists u w',
        user (getCurrentSession 2) 0%nat
          (Examples.running (PStr "tok") [Reply 401 (Some (PDict []))]) = (Ok u, w')
        /\ User_username u = PNone /\ User_username u <> PStr "")
  /\ fst (ProlificSession_init (getCurrentSession 2) (PStr "tok") true
            (Examples.fresh [NetDown "unreachable"]))
     = Raise (TransportError "unreachable").
Proof.
  split; [|split].
  - eexists _, _. split; [reflexivity|]. split; [reflexivity|]. split; reflexivity.
  - eexists _, _. split; [reflexivity|]. split; [reflexivity|discriminate].
  - reflexivity.
Qed.

(** C1, as amended.  For a session object holding a token entry:
    with an empty token, [startSession] sends nothing and leaves the session
    unauthenticated; a session that is authenticated after [startSession]
    has returned had a non-empty token and got an answer to its identity
    request; after a 200 answer carrying a JSON object, the session is
    authenticated and its username, id and full name are those of the
    answer; and a failure of the network during the identity fetch is not
    caught: it leaves [startSession], [setToken] and the constructor as the
    transport's exception. *)
Theorem session_authentication (n : nat) (self : addr) (s : ProlificSession)
      (tok : PyVal) (w : World) :
  nth_error (heap w) self = Some s -> token s = Some tok ->
  (truthy tok = false ->
     startSession (getCurrentSession (S n)) self w =
       (Ok tt, with_heap (list_update (heap w) self (with_authenticated false s)) w))
  /\ (forall s',
        fst (startSession (getCurrentSession (S n)) self w) = Ok tt ->
        nth_error (heap (snd (startSession (getCurrentSession (S n)) self w))) self
          = Some s' ->
        authenticated s' = true ->
        truthy tok = true /\ exists st b rest, platform w = Reply st b :: rest)
  /\ (forall cur sc tc d rest,
        truthy tok = true ->
        existingSession w = Some cur ->
        nth_error (heap w) cur = Some sc -> token sc = Some tc ->
        platform w = Reply 200 (Some (PDict d)) :: rest ->
        dict_wf d -> hashable (field "username" d) = true -> disk_ok w = true ->
        exists w',
          startSession (getCurrentSession (S n)) self w = (Ok tt, w')
          /\ nth_error (heap w') self =
               Some (with_authenticated true
                       (with_userFullName (field "name" d)
                          (with_userID (field "id" d)
                             (with_username (field "username" d) s))))
          /\ trace w' =
               (trace w ++ [EvRequest "GET" (ProlificClient.api_url ++ "/users/me/") tok None;
                            EvSaveUsers])%list)
  /\ (forall msg rest,
        truthy tok = true -> platform w = NetDown msg :: rest ->
        fst (startSession (getCurrentSession (S n)) self w) = Raise (TransportError msg)
        /\ fst (setToken (getCurrentSession (S n)) self tok w) = Raise (TransportError msg)
        /\ fst (ProlificSession_init (getCurrentSession (S n)) tok true w)
           = Raise (TransportError msg)).
Proof.
  intros H Ht. split; [|split; [|split]].
  - intros Hf. now apply (startSession_no_token _ self s tok).
  - intros s'. now apply (startSession_authenticated_only_if _ self s s' tok).
  - intros cur sc tc d rest Htr Hex Hc Htc Hp Hwf Hhash Hdisk.
    now apply (startSession_accepted n self cur s sc tok tc d rest).
  - intros msg rest Htr Hp. split; [|split].
    + apply (startSession_raises _ self s tok w _ H Ht Htr).
      now apply (user_net_down _ self s tok w msg rest).
    + now apply (setToken_raises _ self s tok w msg rest).
    + now apply ProlificSession_init_raises with (rest := rest).
Qed.

(** An accepted token, run through the theorem. *)
Lemma session_authentication_witness :
  exists w',
    startSession (getCurrentSession 2) 0%nat
      (Examples.running (PStr "tok") [Reply 200 (Some Examples.alice)]) = (Ok tt, w')
    /\ nth_error (heap w') 0%nat =
         Some (mkSession (PStr "alice") (PStr "u1") (PStr "Alice") true true PNone
                         (Some (PStr "tok"))).
Proof.
  destruct (session_authentication 1 0%nat (Examples.session_with (PStr "tok"))
              (PStr "tok") (Examples.running (PStr "tok") [Reply 200 (Some Examples.alice)])
              eq_refl eq_refl) as (_ & _ & H200 & _).
  destruct (H200 0%nat (Examples.session_with (PStr "tok")) (PStr "tok")
              [("id", PStr "u1"); ("username", PStr "alice"); ("name", PStr "Alice")] []
              eq_refl eq_refl eq_refl eq_refl eq_refl) as (w' & Hrun & Hs & _).
  - repeat constructor; simpl; intuition discriminate.
  - reflexivity.
  - reflexivity.
  - exists w'. split; [exact Hrun | exact Hs].
Defined.

End SessionInvariant.

(** ** The sync workflow *)

Section SyncWorkflow.
Import prolific prolific_ui.

Variable dirname : string -> string.
Variable expanduser : string -> string.
Variable normcase : string -> string.
Variable logInProlific : Frame -> M PyVal.

(** The user of a session without a token: anonymous, nothing sent. *)
Lemma user_no_token (n : nat) (self : addr) (s : ProlificSession) (tok : PyVal)
      (w : World) :
  existingSession w = Some self ->
  nth_error (heap w) self = Some s -> token s = Some tok -> truthy tok = false ->
  user (getCurrentSession (S n)) self w = (Ok (mkUser [("token", tok)]), w).
Proof.
  intros Hex H Ht Hf. unfold user.
  rewrite (bind_ok _ _ _ _ _ (client_none self w s tok H Ht Hf)).
  unfold User_init.
  rewrite (bind_ok _ _ _ _ _ (getCurrentSession_existing n self w Hex)).
  rewrite (bind_ok _ _ _ _ _ (getToken_ok self w s tok H Ht)).
  reflexivity.
Qed.

(** The first steps of [syncProject] for a file outside the two folders. *)
Lemma syncProject_folder_ok (fuel : nat) (parent : Frame)
      (project : option ProlificProject) (file : string) (w : World) :
  working_file parent = Some file ->
  normcase (expanduser (dirname file)) <> normcase (expanduser "~/Desktop") ->
  normcase (expanduser (dirname file)) <> normcase (expanduser "~/My Documents") ->
  existsb (String.eqb (normcase (expanduser (dirname file))))
          [normcase (expanduser "~/Desktop"); normcase (expanduser "~/My Documents")]
    = false.
Proof.
  intros _ H1 H2. simpl.
  destruct (String.eqb_spec (normcase (expanduser (dirname file)))
                            (normcase (expanduser "~/Desktop"))); [contradiction|].
  destruct (String.eqb_spec (normcase (expanduser (dirname file)))
                            (normcase (expanduser "~/My Documents"))); [contradiction|].
  reflexivity.
Qed.

(** C8.  When the directory of the working file, after [expanduser] and
    [normcase], is the user's Desktop or My Documents folder, [syncProject]
    shows its message box and returns -1; nothing else happens: no request
    is sent, and no reply of the platform is consumed. *)
Theorem syncProject_rejects_folder (fuel : nat) (parent : Frame)
      (project : option ProlificProject) (file : string) (w : World) :
  working_file parent = Some file ->
  normcase (expanduser (dirname file)) = normcase (expanduser "~/Desktop")
  \/ normcase (expanduser (dirname file)) = normcase (expanduser "~/My Documents") ->
  syncProject dirname expanduser normcase logInProlific fuel parent project w =
    (Ok (PInt (-1)), with_trace (trace w ++ [EvMessageBox "Project Sync Error"]) w)
  /\ no_request_since w
       (snd (syncProject dirname expanduser normcase logInProlific fuel parent project w)).
Proof.
  intros Hfile Hdir.
  assert (Hin : existsb (String.eqb (normcase (expanduser (dirname file))))
                  [normcase (expanduser "~/Desktop");
                   normcase (expanduser "~/My Documents")] = true).
  { simpl. destruct Hdir as [-> | ->]; rewrite String.eqb_refl; auto.
    apply orb_true_r. }
  assert (Hrun : syncProject dirname expanduser normcase logInProlific fuel parent project w =
                 (Ok (PInt (-1)), with_trace (trace w ++ [EvMessageBox "Project Sync Error"]) w)).
  { unfold syncProject.
    destruct parent as [[f|]|f pp|f]; simpl in Hfile; try discriminate;
      injection Hfile as ->; unfold bind at 1; unfold ret at 1;
      rewrite Hin; reflexivity. }
  split; [exact Hrun|].
  rewrite Hrun. exists [EvMessageBox "Project Sync Error"]. split; [reflexivity|].
  intros m u b j [E|[]]. discriminate.
Qed.

(** C2, on the code.  With a project in hand and a file outside the two
    folders, [syncProject] runs off its end: it returns [None], which is
    none of 1, 0 and -1, and it has done nothing. *)
Theorem syncProject_returns_None (fuel : nat) (parent : Frame)
      (p : ProlificProject) (file : string) (w : World) :
  working_file parent = Some file ->
  normcase (expanduser (dirname file)) <> normcase (expanduser "~/Desktop") ->
  normcase (expanduser (dirname file)) <> normcase (expanduser "~/My Documents") ->
  ProlificProject_truthy p = true ->
  syncProject dirname expanduser normcase logInProlific fuel parent (Some p) w =
    (Ok PNone, w).
Proof.
  intros Hfile H1 H2 Hp.
  pose proof (syncProject_folder_ok fuel parent (Some p) file w Hfile H1 H2) as Hout.
  unfold syncProject.
  destruct parent as [[f|]|f pp|f]; simpl in Hfile; try discriminate;
    injection Hfile as ->; unfold bind at 1; unfold ret at 1;
    rewrite Hout; cbn [project_truthy]; rewrite ?Hp; cbn [negb project_truthy];
    rewrite ?Hp; reflexivity.
Qed.

(** C6, on the code.  No project passed, none in the frame, a file outside
    the two folders, and a current session without a token: [syncProject]
    returns -1 and the state is what it was.  Whatever the login dialog
    would do, it is not opened. *)
Theorem syncProject_skips_login (n : nat) (parent : Frame) (file : string)
      (w : World) (cur : addr) (s : ProlificSession) (tok : PyVal) :
  working_file parent = Some file ->
  normcase (expanduser (dirname file)) <> normcase (expanduser "~/Desktop") ->
  normcase (expanduser (dirname file)) <> normcase (expanduser "~/My Documents") ->
  project_truthy (context_project parent) = false ->
  existingSession w = Some cur ->
  nth_error (heap w) cur = Some s -> token s = Some tok -> truthy tok = false ->
  syncProject dirname expanduser normcase logInProlific (S n) parent None w =
    (Ok (PInt (-1)), w).
Proof.
  intros Hfile H1 H2 Hctx Hex Hs Ht Hf.
  pose proof (syncProject_folder_ok (S n) parent None file w Hfile H1 H2) as Hout.
  assert (Hrest :
    (proSession <- getCurrentSession (S n) ;;
     username <-
       try_except
         (match proSession with
          | Some s0 =>
              u <- user (getCurrentSession (S n)) s0 ;;
              ret (User_username u)
          | None => raise (AttributeError "user")
          end)
         (emit EvLogInProlific ;; logInProlific parent) ;;
     if negb (truthy username) then ret (Some (PInt (-1)))
     else ret None) w = (Ok (Some (PInt (-1))), w)).
  { rewrite (bind_ok _ _ _ _ _ (getCurrentSession_existing n cur w Hex)).
    unfold bind at 1, try_except.
    rewrite (bind_ok _ _ _ _ _ (user_no_token n cur s tok w Hex Hs Ht Hf)).
    reflexivity. }
  unfold syncProject.
  destruct parent as [[f|]|f pp|f]; simpl in Hfile; try discriminate;
    injection Hfile as ->; unfold bind at 1; unfold ret at 1;
    rewrite Hout; simpl in Hctx; cbn [project_truthy negb];
    rewrite ?Hctx; cbn [negb];
    rewrite (bind_ok _ _ _ _ _ Hrest); reflexivity.
Qed.

(** The same on the first use of the session in a process: the session
    that [getCurrentSession] creates has no token either. *)
Lemma syncProject_skips_login_fresh (n : nat) (parent : Frame) (file : string)
      (w : World) :
  working_file parent = Some file ->
  normcase (expanduser (dirname file)) <> normcase (expanduser "~/Desktop") ->
  normcase (expanduser (dirname file)) <> normcase (expanduser "~/My Documents") ->
  project_truthy (context_project parent) = false ->
  existingSession w = None ->
  syncProject dirname expanduser normcase logInProlific (S n) parent None w =
    (Ok (PInt (-1)),
     with_existingSession (Some (S (List.length (heap w))))
       (with_heap (heap w ++ [anonymous PNone true; anonymous PNone true]) w)).
Proof.
  intros Hfile H1 H2 Hctx Hex.
  pose proof (syncProject_folder_ok (S n) parent None file w Hfile H1 H2) as Hout.
  set (w1 := with_existingSession (Some (S (List.length (heap w))))
               (with_heap (heap w ++ [anonymous PNone true; anonymous PNone true]) w)).
  assert (Hcur : nth_error (heap w1) (S (List.length (heap w)))
                 = Some (anonymous PNone true))
    by apply nth_error_snoc2.
  assert (Hrest :
    (proSession <- getCurrentSession (S n) ;;
     username <-
       try_except
         (match proSession with
          | Some s0 =>
              u <- user (getCurrentSession (S n)) s0 ;;
              ret (User_username u)
          | None => raise (AttributeError "user")
          end)
         (emit EvLogInProlific ;; logInProlific parent) ;;
     if negb (truthy username) then ret (Some (PInt (-1)))
     else ret None) w = (Ok (Some (PInt (-1))), w1)).
  { rewrite (bind_ok _ _ _ _ _ (getCurrentSession_first n w Hex)). fold w1.
    unfold bind at 1, try_except.
    rewrite (bind_ok _ _ _ _ _
               (user_no_token n _ _ PNone w1 eq_refl Hcur eq_refl eq_refl)).
    reflexivity. }
  unfold syncProject.
  destruct parent as [[f|]|f pp|f]; simpl in Hfile; try discriminate;
    injection Hfile as ->; unfold bind at 1; unfold ret at 1;
    rewrite Hout; simpl in Hctx; cbn [project_truthy negb];
    rewrite ?Hctx; cbn [negb];
    rewrite (bind_ok _ _ _ _ _ Hrest); reflexivity.
Qed.

Lemma returns_only_ret {A} (P : A -> Prop) (a : A) : P a -> returns_only P (ret a).
Proof. intros H w a' w' E. injection E as <- _. exact H. Qed.

Lemma returns_only_bind {A B} (Q : A -> Prop) (P : B -> Prop)
      (m : M A) (k : A -> M B) :
  returns_only Q m -> (forall a, Q a -> returns_only P (k a)) ->
  returns_only P (bind m k).
Proof.
  intros Hm Hk w b w' E. unfold bind in E.
  destruct (m w) as [[a|e|] w1] eqn:Em; try discriminate.
  exact (Hk a (Hm w a w1 Em) w1 b w' E).
Qed.

Lemma returns_only_any {A} (m : M A) : returns_only (fun _ => True) m.
Proof. intros w a w' _. exact I. Qed.

(** Whatever the frame, the project, the state and the login dialog: what
    [syncProject] returns is -1, 0 or [None]; it never returns 1. *)
Lemma syncProject_results (fuel : nat) (parent : Frame)
      (project : option ProlificProject) :
  returns_only (fun v => v = PInt (-1) \/ v = PInt 0 \/ v = PNone)
    (syncProject dirname expanduser normcase logInProlific fuel parent project).
Proof.
  unfold syncProject.
  apply returns_only_bind with (Q := fun _ => True); [apply returns_only_any|].
  intros currentPath _.
  match goal with |- returns_only _ (if ?c then _ else _) => destruct c end.
  - apply returns_only_bind with (Q := fun _ => True); [apply returns_only_any|].
    intros _ _. apply returns_only_ret. auto.
  - apply returns_only_bind with (Q := fun r => r = Some (PInt (-1)) \/ r = None).
    + match goal with |- returns_only _ (if ?c then _ else _) => destruct c end.
      * apply returns_only_bind with (Q := fun _ => True); [apply returns_only_any|].
        intros proSession _.
        apply returns_only_bind with (Q := fun _ => True); [apply returns_only_any|].
        intros username _.
        destruct (negb (truthy username)); apply returns_only_ret; auto.
      * apply returns_only_ret. auto.
    + intros returned [-> | ->].
      * apply returns_only_ret. auto.
      * match goal with |- returns_only _ (if ?c then _ else _) => destruct c end;
          apply returns_only_ret; auto.
Qed.

Lemma syncProject_never_returns_1 (fuel : nat) (parent : Frame)
      (project : option ProlificProject) (w : World) :
  fst (syncProject dirname expanduser normcase logInProlific fuel parent project w)
    <> Ok (PInt 1).
Proof.
  intros E.
  destruct (syncProject dirname expanduser normcase logInProlific fuel parent project w)
    as [r w'] eqn:Erun.
  simpl in E. subst r.
  destruct (syncProject_results fuel parent project w _ w' Erun) as [H|[H|H]];
    discriminate.
Qed.

End SyncWorkflow.

(** ** Projects *)

Section Projects.
Import prolific prolific_ui.

(** C5, on the code.  [getProject] builds its result by calling the class
    with a keyword [repo], and [ProlificProject.__init__(self, pavloviaId,
    data)] has no such parameter: for every non-empty identifier, and for
    every non-empty [repo], the call ends in a TypeError.  Only with both
    empty does [getProject] return, and then it returns [None]. *)
Theorem getProject_raises (id repo : PyVal) :
  (truthy id = true ->
     getProject id repo = Raise (TypeError "got an unexpected keyword argument"))
  /\ (truthy id = false -> truthy repo = true ->
     getProject id repo = Raise (TypeError "got an unexpected keyword argument"))
  /\ (truthy id = false -> truthy repo = false -> getProject id repo = Ok None).
Proof.
  unfold getProject. split; [|split].
  - intros ->. reflexivity.
  - intros -> ->. reflexivity.
  - intros -> ->. reflexivity.
Qed.

(** A namespace/name identifier, run through the theorem. *)
Lemma getProject_raises_witness :
  getProject (PStr "alice/stroop") PNone =
    Raise (TypeError "got an unexpected keyword argument").
Proof.
  destruct (getProject_raises (PStr "alice/stroop") PNone) as (H & _).
  apply H. reflexivity.
Defined.

(** With two positional arguments the same class does build a project. *)
Lemma ProlificProject_call_positional (pavloviaId data : PyVal) :
  ProlificProject_call [pavloviaId; data] [] = ProlificProject_init pavloviaId data.
Proof. reflexivity. Qed.

(** The call of [forkTo] never returns: the class has no such method. *)
Lemma fork_step_never_returns (p : ProlificProject) (w w' : World) (r : unit) :
  fork_step p w <> (Ok r, w').
Proof.
  unfold fork_step, bind, lift, call.
  destruct (ProlificProject_attr p "forkTo"); discriminate.
Qed.

Lemma forkRequired_int (n : Z) : forkRequired (PInt n) = Ok (n <? 30).
Proof.
  unfold forkRequired. simpl.
  destruct (Z.eqb_spec n 0) as [->|]; reflexivity.
Qed.

(** The button pressed by a logged-in owner, whose project has no local
    folder yet: no fork, the folder dialog, then the sync. *)
Example onSyncButton_owner :
  match onSyncButton Examples.login_declined Examples.folder_chosen 2
          (mkPanel (BuilderFrame "/home/user/study/stroop.psyexp" None)
                   (Some (Examples.study (PInt 50))))
          (Examples.running (PStr "tok") [Reply 200 (Some Examples.alice)])
  with
  | (Ok (v, _), w') =>
      v = PNone
      /\ trace w' =
           [EvRequest "GET" "https://test.prolific.co/api/v1/users/me/" (PStr "tok") None;
            EvSaveUsers; EvSetLocalPath; EvRaiseWindow;
            EvSetStatus "Synchronizing..."; EvRaiseWindow]
  | _ => False
  end.
Proof. vm_compute. split; reflexivity. Qed.

(** The same button pressed by a guest: the fork is asked for, and the
    call of [forkTo] ends the handler with an AttributeError before any
    folder is chosen or anything is synced. *)
Example onSyncButton_guest :
  match onSyncButton Examples.login_declined Examples.folder_chosen 2
          (mkPanel (BuilderFrame "/home/user/study/stroop.psyexp" None)
                   (Some (Examples.study (PInt 10))))
          (Examples.running (PStr "tok") [Reply 200 (Some Examples.alice)])
  with
  | (Raise e, w') =>
      e = AttributeError "forkTo"
      /\ trace w' =
           [EvRequest "GET" "https://test.prolific.co/api/v1/users/me/" (PStr "tok") None;
            EvSaveUsers]
  | _ => False
  end.
Proof. vm_compute. split; reflexivity. Qed.

(** Without git the handler only warns. *)
Example onSyncButton_no_git :
  onSyncButton Examples.login_declined Examples.folder_chosen 2
    (mkPanel (OtherFrame "/home/user/study/stroop.py") None)
    (mkWorld [] None [] true PNone false [] [])
  = (Ok (PInt 0, mkPanel (OtherFrame "/home/user/study/stroop.py") None),
     mkWorld [] None [] true PNone false [] [EvNoGitWarning]).
Proof. reflexivity. Qed.

End Projects.

(** ** The theorems at concrete inputs *)

Section Witnesses.
Import prolific prolific_ui ProlificClient Dec Examples.

(** C3, as stated, fails: a failure of the network leaves
    [retrieve_prolific_user] as an exception instead of [None]; and a reply
    with a [token] entry of its own keeps it, the client's token is not
    what the caller finds there. *)
Lemma retrieve_prolific_user_counterexample :
  fst (retrieve_prolific_user (ProlificClient.mk (PStr "tok"))
         (fresh [NetDown "unreachable"]))
    = Raise (TransportError "unreachable")
  /\ fst (retrieve_prolific_user (ProlificClient.mk (PStr "tok"))
            (fresh [Reply 200 (Some (PDict [("token", PStr "other")]))]))
     = Ok (PDict [("token", PStr "other")]).
Proof. split; reflexivity. Qed.

Lemma retrieve_prolific_user_replies_witness :
  fst (retrieve_prolific_user (ProlificClient.mk (PStr "tok"))
         (fresh [Reply 401 (Some (PDict []))])) = Ok PNone
  /\ exists r,
       fst (retrieve_prolific_user (ProlificClient.mk (PStr "tok"))
              (fresh [Reply 200 (Some alice)])) = Ok (PDict r)
       /\ dict_get "token" r = Some (PStr "tok")
       /\ dict_get "username" r = Some (PStr "alice").
Proof.
  split.
  - destruct (retrieve_prolific_user_replies (ProlificClient.mk (PStr "tok"))
                (fresh [Reply 401 (Some (PDict []))])) as (H & _).
    apply (H 401 (Some (PDict [])) []); [reflexivity | discriminate].
  - destruct (retrieve_prolific_user_replies (ProlificClient.mk (PStr "tok"))
                (fresh [Reply 200 (Some alice)])) as (_ & _ & H & _).
    destruct (H [("id", PStr "u1"); ("username", PStr "alice"); ("name", PStr "Alice")] []
                eq_refl) as (r & Hrun & Hkeep & Htok).
    + repeat constructor; simpl; intuition discriminate.
    + exists r. split; [exact Hrun|]. split.
      * apply Htok. reflexivity.
      * rewrite Hkeep by discriminate. reflexivity.
Defined.

Lemma create_study_replies_witness :
  exists payload,
    fst (create_study no_repr (ProlificClient.mk (PStr "tok"))
           "Stroop" "stroop" "A task" "https://run.pavlovia.org/alice/stroop/" "2CC39346"
           500 1 (DFin 13 (-2))
           (fresh [Reply 201 (Some (PDict [("id", PInt 42); ("name", PStr "Stroop")]))]))
      = Ok (PDict payload)
    /\ dict_get "url" payload =
         Some (PStr "https://test-client.prolific.co/studies/42/").
Proof.
  destruct (create_study_replies no_repr (ProlificClient.mk (PStr "tok"))
              "Stroop" "stroop" "A task" "https://run.pavlovia.org/alice/stroop/" "2CC39346"
              500 1 (DFin 13 (-2)) 13
              (fresh [Reply 201 (Some (PDict [("id", PInt 42); ("name", PStr "Stroop")]))])
              eq_refl) as (_ & H & _).
  destruct (H [("id", PInt 42); ("name", PStr "Stroop")] (PInt 42) [] eq_refl eq_refl)
    as (payload & Hrun & Hurl & _).
  exists payload. split; [exact Hrun | exact Hurl].
Defined.

Lemma money_conversion_witness :
  Spec.round_minor_units (DFin 13 (-2)) = Some (Spec.truncated_minor_units 13 (-2))
  /\ exists q x,
       fst (calculate_total no_parse (ProlificClient.mk (PStr "tok")) 500 (DFin 13 (-2))
              (fresh [Reply 200 (Some (PDict [("total_cost", PInt 8667)]))]))
         = Ok (Some (DFin q x))
       /\ -2 <= x <= 0 /\ q * 10 ^ (x + 2) = 8667.
Proof.
  assert (Hc : Z.abs 13 * 100 < 10 ^ prec) by reflexivity.
  assert (He : Etiny <= -2 <= Etop) by (split; discriminate).
  destruct (money_conversion no_parse no_repr (ProlificClient.mk (PStr "tok"))
              "Stroop" "stroop" "A task" "https://run.pavlovia.org/alice/stroop/" "2CC39346"
              500 1 13 (-2)
              (fresh [Reply 200 (Some (PDict [("total_cost", PInt 8667)]))]) Hc He)
    as (_ & _ & Hround & Hdiv).
  split.
  - apply Hround. discriminate.
  - apply (Hdiv [("total_cost", PInt 8667)] 8667 []); reflexivity.
Defined.

Lemma syncProject_rejects_folder_witness :
  syncProject dirname expanduser normcase login_declined 2
    (BuilderFrame "/home/user/Desktop/stroop.psyexp" None) None
    (fresh [Reply 200 (Some alice)])
  = (Ok (PInt (-1)),
     with_trace [EvMessageBox "Project Sync Error"] (fresh [Reply 200 (Some alice)])).
Proof.
  destruct (syncProject_rejects_folder dirname expanduser normcase login_declined 2
              (BuilderFrame "/home/user/Desktop/stroop.psyexp" None) None
              "/home/user/Desktop/stroop.psyexp" (fresh [Reply 200 (Some alice)])
              eq_refl (or_introl eq_refl)) as (H & _).
  exact H.
Defined.

Lemma syncProject_returns_None_witness :
  syncProject dirname expanduser normcase login_accepted 2
    (BuilderFrame "/home/user/study/stroop.psyexp" None) (Some (study (PInt 50)))
    (fresh [])
  = (Ok PNone, fresh []).
Proof.
  apply (syncProject_returns_None dirname expanduser normcase login_accepted 2
           (BuilderFrame "/home/user/study/stroop.psyexp" None) (study (PInt 50))
           "/home/user/study/stroop.psyexp" (fresh []));
    solve [reflexivity | discriminate].
Defined.

Lemma syncProject_skips_login_witness :
  syncProject dirname expanduser normcase login_accepted 2
    (CoderFrame (Some "/home/user/study/stroop.py")) None (running PNone [])
  = (Ok (PInt (-1)), running PNone []).
Proof.
  apply (syncProject_skips_login dirname expanduser normcase login_accepted 1
           (CoderFrame (Some "/home/user/study/stroop.py"))
           "/home/user/study/stroop.py" (running PNone []) 0%nat (session_with PNone) PNone);
    solve [reflexivity | discriminate].
Defined.

(** The login dialog is reached only through the [except] clause: here
    the session has a token and the network is down, so reading the
    username raises; the user closes the dialog, and the result is -1. *)
Example syncProject_login_after_network_error :
  syncProject dirname expanduser normcase login_declined 2
    (CoderFrame (Some "/home/user/study/stroop.py")) None
    (running (PStr "tok") [NetDown "unreachable"])
  = (Ok (PInt (-1)),
     with_trace [EvRequest "GET" "https://test.prolific.co/api/v1/users/me/"
                   (PStr "tok") None;
                 EvLogInProlific]
       (running (PStr "tok") [])).
Proof. reflexivity. Qed.

End Witnesses.

(* ================================================================== *)
(** * More of the client *)

Section ClientEdges.
Import ProlificClient Dec.

(** [publish_study] sends one POST to [/studies/<id>/transition/] with the
    action PUBLISH.  Every reply whose status is not 200 gives [None]; a
    200 reply is handed back as it is, with no [url] or [token] added; a
    failure of the network leaves the function as an exception. *)
Theorem publish_study_replies (repr : PyVal -> string) (self : ProlificClient.t)
      (id : PyVal) (w : World) :
  (forall st b rest, platform w = Reply st b :: rest -> st <> 200 ->
     fst (publish_study repr self id w) = Ok PNone)
  /\ (forall v rest, platform w = Reply 200 (Some v) :: rest ->
     fst (publish_study repr self id w) = Ok v)
  /\ (forall msg rest, platform w = NetDown msg :: rest ->
     fst (publish_study repr self id w) = Raise (TransportError msg))
  /\ trace (snd (publish_study repr self id w)) =
       (trace w ++ [EvRequest "POST"
                      (api_url ++ "/studies/" ++ format repr id ++ "/transition/")
                      (token self) (Some (PDict [("action", PStr "PUBLISH")]))])%list.
Proof.
  unfold publish_study. split; [|split; [|split]].
  - intros st b rest Hp Hst.
    rewrite (bind_ok _ _ _ _ _ (request_reply _ _ _ _ _ _ _ _ Hp)). simpl.
    destruct (Z.eqb_spec st 200); [contradiction | reflexivity].
  - intros v rest Hp.
    now rewrite (bind_ok _ _ _ _ _ (request_reply _ _ _ _ _ _ _ _ Hp)).
  - intros msg rest Hp.
    now rewrite (bind_raise _ _ _ _ _ (request_down _ _ _ _ _ _ _ Hp)).
  - destruct (platform w) as [|[st b|msg] rest] eqn:Hp.
    + now rewrite (bind_raise _ _ _ _ _ (request_silent _ _ _ _ _ Hp)).
    + rewrite (bind_ok _ _ _ _ _ (request_reply _ _ _ _ _ _ _ _ Hp)). simpl.
      destruct (st =? 200); simpl; [|reflexivity].
      unfold json. simpl. destruct b; reflexivity.
    + now rewrite (bind_raise _ _ _ _ _ (request_down _ _ _ _ _ _ _ Hp)).
Qed.

Lemma publish_study_replies_witness :
  fst (publish_study Examples.no_repr (ProlificClient.mk (PStr "tok")) (PInt 42)
         (Examples.fresh [Reply 404 None])) = Ok PNone
  /\ fst (publish_study Examples.no_repr (ProlificClient.mk (PStr "tok")) (PInt 42)
            (Examples.fresh [Reply 200 (Some (PDict [("status", PStr "ACTIVE")]))]))
     = Ok (PDict [("status", PStr "ACTIVE")]).
Proof.
  split.
  - destruct (publish_study_replies Examples.no_repr (ProlificClient.mk (PStr "tok"))
                (PInt 42) (Examples.fresh [Reply 404 None])) as (H & _).
    apply (H 404 None []); [reflexivity | discriminate].
  - destruct (publish_study_replies Examples.no_repr (ProlificClient.mk (PStr "tok"))
                (PInt 42)
                (Examples.fresh [Reply 200 (Some (PDict [("status", PStr "ACTIVE")]))]))
      as (_ & H & _).
    apply (H _ []). reflexivity.
Defined.

(** A reward that is not a number stops both requests before they are
    sent: for NaN, [int(reward*100)] raises a ValueError, for an infinity an
    OverflowError, and the state is what it was. *)
Theorem non_finite_reward_sends_nothing (parse : PyVal -> Result Decimal)
      (repr : PyVal -> string) (self : ProlificClient.t)
      (title internal_name description url code : string)
      (participants duration : Z) (negative : bool) (w : World) :
  calculate_total parse self participants DNaN w
    = (Raise (ValueError "cannot convert NaN to integer"), w)
  /\ calculate_total parse self participants (DInf negative) w
     = (Raise OverflowError, w)
  /\ create_study repr self title internal_name description url code
       participants duration DNaN w
     = (Raise (ValueError "cannot convert NaN to integer"), w)
  /\ create_study repr self title internal_name description url code
       participants duration (DInf negative) w
     = (Raise OverflowError, w).
Proof. repeat split; reflexivity. Qed.

(** What [calculate_total] makes of the replies, once the reward has been
    converted: [None] for every status but 200; on a 200 reply, a body that
    is not JSON, a JSON object without [total_cost], and a [total_cost] that
    is null each end in their own exception, none of them in [None]. *)
Theorem calculate_total_replies (parse : PyVal -> Result Decimal)
      (self : ProlificClient.t) (participants : Z) (reward : Decimal) (r : Z)
      (w : World) :
  minor_units reward = Ok r ->
  (forall st b rest, platform w = Reply st b :: rest -> st <> 200 ->
     fst (calculate_total parse self participants reward w) = Ok None)
  /\ (forall rest, platform w = Reply 200 None :: rest ->
     fst (calculate_total parse self participants reward w) = Raise JSONDecodeError)
  /\ (forall d rest, platform w = Reply 200 (Some (PDict d)) :: rest ->
     dict_get "total_cost" d = None ->
     fst (calculate_total parse self participants reward w)
       = Raise (KeyError "total_cost"))
  /\ (forall d rest, platform w = Reply 200 (Some (PDict d)) :: rest ->
     dict_get "total_cost" d = Some PNone ->
     fst (calculate_total parse self participants reward w)
       = Raise (TypeError "conversion to Decimal is not supported"))
  /\ (forall msg rest, platform w = NetDown msg :: rest ->
     fst (calculate_total parse self participants reward w)
       = Raise (TransportError msg)).
Proof.
  intros Hr.
  assert (Hopen : forall w0,
    calculate_total parse self participants reward w0 =
    (response <- request "POST" (api_url ++ "/study-cost-calculator/") (token self)
                   (Some (PDict [("reward", PInt r);
                                 ("total_available_places", PInt participants);
                                 ("study_type", PStr "SINGLE")])) ;;
     if negb (status_code response =? 200) then ret None
     else
       data <- json response ;;
       total_cost <- lift (subscript data "total_cost") ;;
       d <- lift (Decimal_of parse total_cost) ;;
       q <- lift (div_int d 100) ;;
       ret (Some q)) w0).
  { intros w0. unfold calculate_total. rewrite Hr. reflexivity. }
  rewrite Hopen. split; [|split; [|split; [|split]]].
  - intros st b rest Hp Hst.
    rewrite (bind_ok _ _ _ _ _ (request_reply _ _ _ _ _ _ _ _ Hp)). simpl.
    destruct (Z.eqb_spec st 200); [contradiction | reflexivity].
  - intros rest Hp.
    now rewrite (bind_ok _ _ _ _ _ (request_reply _ _ _ _ _ _ _ _ Hp)).
  - intros d rest Hp Hd.
    rewrite (bind_ok _ _ _ _ _ (request_reply _ _ _ _ _ _ _ _ Hp)). simpl.
    unfold bind, json, lift. simpl. now rewrite Hd.
  - intros d rest Hp Hd.
    rewrite (bind_ok _ _ _ _ _ (request_reply _ _ _ _ _ _ _ _ Hp)). simpl.
    unfold bind, json, lift. simpl. now rewrite Hd.
  - intros msg rest Hp.
    now rewrite (bind_raise _ _ _ _ _ (request_down _ _ _ _ _ _ _ Hp)).
Qed.

Lemma calculate_total_replies_witness :
  fst (calculate_total Examples.no_parse (ProlificClient.mk (PStr "tok")) 500
         (DFin 13 (-2)) (Examples.fresh [Reply 500 None])) = Ok None
  /\ fst (calculate_total Examples.no_parse (ProlificClient.mk (PStr "tok")) 500
            (DFin 13 (-2)) (Examples.fresh [Reply 200 (Some (PDict []))]))
     = Raise (KeyError "total_cost").
Proof.
  split.
  - destruct (calculate_total_replies Examples.no_parse (ProlificClient.mk (PStr "tok"))
                500 (DFin 13 (-2)) 13 (Examples.fresh [Reply 500 None]) eq_refl)
      as (H & _).
    apply (H 500 None []); [reflexivity | discriminate].
  - destruct (calculate_total_replies Examples.no_parse (ProlificClient.mk (PStr "tok"))
                500 (DFin 13 (-2)) 13 (Examples.fresh [Reply 200 (Some (PDict []))])
                eq_refl) as (_ & _ & H & _).
    apply (H [] []); reflexivity.
Defined.

End ClientEdges.

(* ================================================================== *)
(** * More of the projects *)

Section ProjectRecords.
Import prolific.

(** What the constructor builds from an identifier and a payload with [id]
    and [name]. *)
Lemma ProlificProject_init_ok (pavloviaId : PyVal) (d : dict) (idv nm : PyVal) :
  dict_get "id" d = Some idv -> dict_get "name" d = Some nm ->
  ProlificProject_init pavloviaId (PDict d) =
    Ok (mkProject
          [("id", pavloviaId); ("idNumber", idv); ("title", nm); ("url", PStr "")]
          [("_storedAttribs", PDict []); ("pavloviaId", pavloviaId);
           ("prolific", PDict d); ("_lastKnownSync", PInt 0)]).
Proof.
  intros Hid Hnm. unfold ProlificProject_init, subscript. now rewrite Hid, Hnm.
Qed.

(** The constructor succeeds exactly for a payload that is a JSON object
    with [id] and [name]: a missing [id] or [name] is a KeyError and any
    other value a TypeError.  The project it returns is true, its [id] is the
    local identifier, [idNumber] and [title] are the payload's [id] and
    [name], and its [url] property is the payload's [url] ([None] when the
    payload has none) while its ['url'] item is always empty. *)
Theorem ProlificProject_constructor (pavloviaId data : PyVal) :
  ((exists p, ProlificProject_call [pavloviaId; data] [] = Ok p)
   <-> exists d idv nm, data = PDict d /\ dict_get "id" d = Some idv
                        /\ dict_get "name" d = Some nm)
  /\ (forall d, data = PDict d -> dict_get "id" d = None ->
        ProlificProject_call [pavloviaId; data] [] = Raise (KeyError "id"))
  /\ (forall d idv, data = PDict d -> dict_get "id" d = Some idv ->
        dict_get "name" d = None ->
        ProlificProject_call [pavloviaId; data] [] = Raise (KeyError "name"))
  /\ (forall p d, data = PDict d -> ProlificProject_call [pavloviaId; data] [] = Ok p ->
        ProlificProject_truthy p = true
        /\ ProlificProject_id p = Ok pavloviaId
        /\ ProlificProject_idNumber p = Ok (field "id" d)
        /\ ProlificProject_title p = Ok (field "name" d)
        /\ ProlificProject_url p = Ok (field "url" d)
        /\ dict_get "url" (items p) = Some (PStr "")).
Proof.
  change (ProlificProject_call [pavloviaId; data] [])
    with (ProlificProject_init pavloviaId data).
  split; [|split; [|split]].
  - split.
    + intros [p Hp]. unfold ProlificProject_init, subscript in Hp.
      destruct data as [| | | |?|d]; try discriminate.
      destruct (dict_get "id" d) as [idv|] eqn:Hid; [|discriminate].
      destruct (dict_get "name" d) as [nm|] eqn:Hnm; [|discriminate].
      now exists d, idv, nm.
    + intros (d & idv & nm & -> & Hid & Hnm).
      eexists. exact (ProlificProject_init_ok pavloviaId d idv nm Hid Hnm).
  - intros d -> Hid. unfold ProlificProject_init, subscript. now rewrite Hid.
  - intros d idv -> Hid Hnm. unfold ProlificProject_init, subscript.
    now rewrite Hid, Hnm.
  - intros p d -> Hp. unfold ProlificProject_init, subscript in Hp.
    destruct (dict_get "id" d) as [idv|] eqn:Hid; [|discriminate].
    destruct (dict_get "name" d) as [nm|] eqn:Hnm; [|discriminate].
    injection Hp as <-.
    unfold ProlificProject_idNumber, ProlificProject_title, ProlificProject_url,
      ProlificProject_id, ProlificProject_prolific, py_get, field. simpl.
    rewrite Hid, Hnm.
    destruct d as [|kv d']; [discriminate Hid|]. repeat split; reflexivity.
Qed.

Lemma ProlificProject_constructor_witness :
  exists p,
    ProlificProject_call [PStr "alice/stroop";
                          PDict [("id", PInt 42); ("name", PStr "Stroop")]] [] = Ok p
    /\ ProlificProject_idNumber p = Ok (PInt 42)
    /\ ProlificProject_url p = Ok PNone.
Proof.
  destruct (ProlificProject_constructor (PStr "alice/stroop")
              (PDict [("id", PInt 42); ("name", PStr "Stroop")]))
    as ((_ & Hbuild) & _ & _ & Hfields).
  destruct Hbuild as [p Hp].
  - exists [("id", PInt 42); ("name", PStr "Stroop")], (PInt 42), (PStr "Stroop").
    repeat split; reflexivity.
  - exists p. split; [exact Hp|].
    destruct (Hfields p _ eq_refl Hp) as (_ & _ & Hn & _ & Hu & _).
    split; [exact Hn | exact Hu].
Defined.

(** For a project built by the constructor, a name that is none of its
    four items and none of its four instance attributes is looked up in the
    payload: [__getattr__] gives the payload's value, and an AttributeError
    for a name the payload does not have. *)
Theorem ProlificProject_getattr_payload (pavloviaId : PyVal) (d : dict)
      (p : ProlificProject) (name : string) :
  ProlificProject_call [pavloviaId; PDict d] [] = Ok p ->
  ~ In name ["id"; "idNumber"; "title"; "url";
             "_storedAttribs"; "pavloviaId"; "prolific"; "_lastKnownSync"] ->
  ProlificProject_getattr p name =
    match dict_get name d with
    | Some v => Ok v
    | None => Raise (AttributeError name)
    end.
Proof.
  change (ProlificProject_call [pavloviaId; PDict d] [])
    with (ProlificProject_init pavloviaId (PDict d)).
  intros Hp Hname. unfold ProlificProject_init, subscript in Hp.
  destruct (dict_get "id" d) as [idv|] eqn:Hid; [|discriminate].
  destruct (dict_get "name" d) as [nm|] eqn:Hnm; [|discriminate].
  injection Hp as <-.
  assert (Hne : forall k, In k ["id"; "idNumber"; "title"; "url";
                                "_storedAttribs"; "pavloviaId"; "prolific";
                                "_lastKnownSync"] -> (name =? k)%string = false).
  { intros k Hk. destruct (String.eqb_spec name k); [subst; contradiction|reflexivity]. }
  unfold ProlificProject_getattr. cbn [attrs items dict_get].
  rewrite !Hne by (simpl; auto 10).
  change ("prolific" =? "_storedAttribs")%string with false.
  change ("prolific" =? "pavloviaId")%string with false.
  change ("prolific" =? "prolific")%string with true. cbv iota.
  destruct d as [|kv d']; [discriminate Hid|]. cbn [truthy negb].
  unfold search. destruct (dict_get name (kv :: d')); reflexivity.
Qed.

Lemma ProlificProject_getattr_payload_witness :
  ProlificProject_getattr (Examples.study (PInt 10)) "permissions" = Ok (PInt 10)
  /\ ProlificProject_getattr (Examples.study (PInt 10)) "forkTo"
     = Raise (AttributeError "forkTo").
Proof.
  split.
  - apply (ProlificProject_getattr_payload (PStr "alice/stroop")
             [("id", PInt 42); ("name", PStr "Stroop"); ("permissions", PInt 10)]
             (Examples.study (PInt 10)) "permissions" eq_refl).
    simpl. intuition discriminate.
  - apply (ProlificProject_getattr_payload (PStr "alice/stroop")
             [("id", PInt 42); ("name", PStr "Stroop"); ("permissions", PInt 10)]
             (Examples.study (PInt 10)) "forkTo" eq_refl).
    simpl. intuition discriminate.
Defined.

(** A project whose payload is empty answers every such name with [None]:
    [__getattr__] returns before it searches, also for a name that is among
    the project's items. *)
Theorem ProlificProject_getattr_empty_payload (p : ProlificProject)
      (proj : PyVal) (name : string) :
  dict_get "prolific" (attrs p) = Some proj -> truthy proj = false ->
  ProlificProject_getattr p name = Ok PNone.
Proof.
  intros Hp Hf. unfold ProlificProject_getattr. now rewrite Hp, Hf.
Qed.

End ProjectRecords.

(* ================================================================== *)
(** * More of the sessions *)

Section SessionLifecycle.
Import prolific.

(** [getCurrentSession] works offline and settles: whatever the state, it
    returns a session without sending a request, consuming a reply or
    touching the user store; afterwards that session is the current one,
    and every further call returns it and changes nothing. *)
Theorem getCurrentSession_offline_idempotent (n : nat) (w : World) :
  exists a w',
    getCurrentSession (S n) w = (Ok (Some a), w')
    /\ existingSession w' = Some a
    /\ trace w' = trace w /\ platform w' = platform w
    /\ knownUsers w' = knownUsers w /\ prolificUser w' = prolificUser w
    /\ (forall i s, nth_error (heap w) i = Some s -> nth_error (heap w') i = Some s)
    /\ forall m, getCurrentSession (S m) w' = (Ok (Some a), w').
Proof.
  destruct (existingSession w) as [a|] eqn:Hex.
  - exists a, w. rewrite (getCurrentSession_existing n a w Hex).
    repeat split; auto. intros m. now apply getCurrentSession_existing.
  - eexists _, _. rewrite (getCurrentSession_first n w Hex).
    split; [reflexivity|]. split; [reflexivity|].
    split; [reflexivity|]. split; [reflexivity|].
    split; [reflexivity|]. split; [reflexivity|]. split.
    + intros i s Hi. simpl. rewrite nth_error_app1; auto.
      apply nth_error_Some. congruence.
    + intros m. now apply getCurrentSession_existing.
Qed.

(** The world after a failed construction of a session: the half-built
    object is on the heap, the request is in the trace, nothing else moved. *)
Lemma ProlificSession_init_net_down (gcs : M (option addr)) (tok : PyVal)
      (remember : bool) (w : World) (msg : string) (rest : list NetReply) :
  truthy tok = true -> platform w = NetDown msg :: rest ->
  ProlificSession_init gcs tok remember w =
    (Raise (TransportError msg),
     with_platform rest
       (with_trace (trace w ++ [EvRequest "GET" (ProlificClient.api_url ++ "/users/me/")
                                  tok None])%list
          (with_heap (heap w ++ [mkSession PNone PNone PNone remember false PNone
                                           (Some tok)]) w))).
Proof.
  intros Htr Hp. unfold ProlificSession_init, alloc, setToken.
  unfold bind at 1. unfold bind at 1. unfold get_world at 1.
  unfold bind at 1. unfold set_heap at 1, modify at 1.
  unfold ret at 1. unfold bind at 1. unfold bind at 1.
  set (s0 := mkSession PNone PNone PNone remember false PNone None).
  set (w1 := with_heap (heap w ++ [s0]) w).
  assert (H1 : nth_error (heap w1) (List.length (heap w)) = Some s0)
    by apply nth_error_snoc.
  rewrite (update_ok _ _ _ _ H1).
  set (w2 := with_heap _ w1).
  assert (H2 : nth_error (heap w2) (List.length (heap w)) = Some (with_token_entry tok s0)).
  { unfold w2, w1. simpl. rewrite list_update_snoc. apply nth_error_snoc. }
  unfold startSession.
  rewrite (bind_ok _ _ _ _ _ (client_some _ w2 _ tok H2 eq_refl Htr)).
  unfold bind at 1. unfold user.
  rewrite (bind_ok _ _ _ _ _ (client_some _ w2 _ tok H2 eq_refl Htr)).
  rewrite (bind_ok _ _ _ _ _ (client_some _ w2 _ tok H2 eq_refl Htr)).
  unfold ProlificClient.retrieve_prolific_user. cbn [ProlificClient.token].
  unfold bind at 1. unfold bind at 1.
  assert (Hp2 : platform w2 = NetDown msg :: rest) by exact Hp.
  rewrite (request_down _ _ _ _ _ _ _ Hp2).
  unfold w2, w1, with_platform, with_trace, with_heap. simpl.
  rewrite list_update_snoc. reflexivity.
Qed.

(** [refreshSession] replaces the session, it does not patch it.  For a
    current session without a token the new one is an anonymous session on
    a new address and nothing is sent.  For one with a token, the identity
    request goes out with that same token; when the network fails, the
    exception leaves [refreshSession] and the current session is still the
    old one, unchanged. *)
Theorem refreshSession_replaces (gcs : M (option addr)) (cur : addr)
      (s : ProlificSession) (tok : PyVal) (w : World) :
  existingSession w = Some cur ->
  nth_error (heap w) cur = Some s -> token s = Some tok ->
  (truthy tok = false ->
     refreshSession gcs w =
       (Ok (Some (List.length (heap w))),
        with_existingSession (Some (List.length (heap w)))
          (with_heap (heap w ++ [anonymous PNone true]) w)))
  /\ (forall msg rest, truthy tok = true -> platform w = NetDown msg :: rest ->
        exists w',
          refreshSession gcs w = (Raise (TransportError msg), w')
          /\ existingSession w' = Some cur
          /\ nth_error (heap w') cur = Some s
          /\ trace w' = (trace w ++ [EvRequest "GET"
                                       (ProlificClient.api_url ++ "/users/me/")
                                       tok None])%list).
Proof.
  intros Hex Hs Ht. split.
  - intros Hf. unfold refreshSession.
    unfold bind at 1. unfold bind at 1. unfold get_world at 1. rewrite Hex.
    rewrite (bind_ok _ _ _ _ _ (getToken_ok cur w s tok Hs Ht)). rewrite Hf.
    rewrite (bind_ok _ _ _ _ _ (ProlificSession_init_no_token gcs PNone true w eq_refl)).
    reflexivity.
  - intros msg rest Htr Hp. unfold refreshSession.
    unfold bind at 1. unfold bind at 1. unfold get_world at 1. rewrite Hex.
    rewrite (bind_ok _ _ _ _ _ (getToken_ok cur w s tok Hs Ht)). rewrite Htr.
    rewrite (bind_ok _ _ _ _ _ (getToken_ok cur w s tok Hs Ht)).
    rewrite (bind_raise _ _ _ _ _
               (ProlificSession_init_net_down gcs tok true w msg rest Htr Hp)).
    eexists. split; [reflexivity|]. split; [exact Hex|]. split; [|reflexivity].
    simpl. rewrite nth_error_app1; auto. apply nth_error_Some. congruence.
Qed.

Lemma refreshSession_replaces_witness :
  exists w',
    refreshSession (getCurrentSession 2)
      (Examples.running (PStr "tok") [NetDown "unreachable"])
    = (Raise (TransportError "unreachable"), w')
    /\ existingSession w' = Some 0%nat
    /\ nth_error (heap w') 0%nat = Some (Examples.session_with (PStr "tok")).
Proof.
  destruct (refreshSession_replaces (getCurrentSession 2) 0%nat
              (Examples.session_with (PStr "tok")) (PStr "tok")
              (Examples.running (PStr "tok") [NetDown "unreachable"])
              eq_refl eq_refl eq_refl) as (_ & H).
  destruct (H "unreachable" [] eq_refl eq_refl) as (w' & Hrun & Hex & Hs & _).
  exists w'. split; [exact Hrun|]. split; [exact Hex | exact Hs].
Defined.

End SessionLifecycle.

(* ================================================================== *)
(** * Logging out and in *)

Section LogoutLogin.
Import prolific.

Lemma setUser_None_gui_only (frames : list (option (M unit))) :
  frames_gui_only frames -> gui_only (setUser_None frames).
Proof.
  induction 1 as [|[m|] frames Hm _ IH]; intros w; simpl.
  - exists (trace w). now destruct w.
  - destruct (Hm w) as [t1 H1]. unfold bind. rewrite H1.
    destruct (IH (with_trace t1 w)) as [t2 H2]. exists t2. now rewrite H2.
  - apply IH.
Qed.

(** [logout] puts a new session without a token in place of the current
    one and clears the remembered user name; it sends nothing, and the user
    store keeps every entry, so the users logged in before stay known.
    (Saving the preferences and telling the frames are assumed to do nothing
    but show something.) *)
Theorem logout_forgets_session_only (saveAppData : M unit)
      (openFrames : list (option (M unit))) (fuel : nat) (w : World) :
  gui_only saveAppData -> frames_gui_only openFrames ->
  exists t,
    logout saveAppData openFrames fuel w =
      (Ok tt,
       with_trace t
         (with_prolificUser PNone
            (with_existingSession (Some (List.length (heap w)))
               (with_heap (heap w ++ [anonymous PNone true]) w)))).
Proof.
  intros Hsave Hframes. unfold logout.
  rewrite (bind_ok _ _ _ _ _
             (ProlificSession_init_no_token (getCurrentSession fuel) PNone true w eq_refl)).
  unfold bind at 1. unfold set_existingSession at 1, modify at 1.
  unfold bind at 1. unfold set_prolificUser at 1, modify at 1.
  set (w1 := with_prolificUser PNone _).
  destruct (Hsave w1) as [t1 H1]. unfold bind. rewrite H1.
  destruct (setUser_None_gui_only openFrames Hframes (with_trace t1 w1)) as [t2 H2].
  exists t2. now rewrite H2.
Qed.

Lemma logout_forgets_session_only_witness :
  exists t,
    logout (emit EvRaiseWindow) [None; Some (emit EvRaiseWindow)] 1
      (mkWorld [Examples.session_with (PStr "tok")] (Some 0%nat)
               [(PStr "alice", Examples.alice)] true (PStr "alice") true [] [])
    = (Ok tt,
       mkWorld [Examples.session_with (PStr "tok"); anonymous PNone true] (Some 1%nat)
               [(PStr "alice", Examples.alice)] true PNone true [] t).
Proof.
  apply (logout_forgets_session_only (emit EvRaiseWindow)
           [None; Some (emit EvRaiseWindow)] 1
           (mkWorld [Examples.session_with (PStr "tok")] (Some 0%nat)
                    [(PStr "alice", Examples.alice)] true (PStr "alice") true [] [])).
  - intros w. eexists. reflexivity.
  - repeat constructor. intros w. eexists. reflexivity.
Defined.

Lemma key_eqb_refl (k : PyVal) : hashable k = true -> key_eqb k k = true.
Proof.
  destruct k as [|b|z|s| |]; simpl; intros H; try discriminate; auto.
  - now destruct b.
  - apply Z.eqb_refl.
  - apply String.eqb_refl.
Qed.

Lemma store_get_set_same (k v : PyVal) (st : store) :
  hashable k = true -> store_get k (store_set k v st) = Some v.
Proof.
  intros Hk. induction st as [|[k' v'] st IH]; simpl.
  - now rewrite key_eqb_refl.
  - destruct (key_eqb k k') eqn:E; simpl; rewrite E; auto.
Qed.

Lemma list_update_again {A} (l : list A) (i : nat) (x y : A) :
  list_update (list_update l i x) i y = list_update l i y.
Proof.
  revert i. induction l as [|z l IH]; intros [|i]; simpl; auto. now rewrite IH.
Qed.

(** Logging in with a token the platform accepts.  [login] fetches the
    identity twice, once in [setToken] and once for the user name it
    remembers; when both answers are the same JSON object, the current
    session ends up authenticated under that token, the remembered user name
    is the one of the answer, and the user store holds, under that name, the
    answer with the token in its [token] entry. *)
Theorem login_stores_token (n : nat) (tok : PyVal) (cur : addr)
      (s : ProlificSession) (d : dict) (rest : list NetReply) (w : World) :
  existingSession w = Some cur -> nth_error (heap w) cur = Some s ->
  hashable tok = true -> truthy tok = true ->
  store_get tok (knownUsers w) = None ->
  platform w = Reply 200 (Some (PDict d)) :: Reply 200 (Some (PDict d)) :: rest ->
  dict_wf d -> hashable (field "username" d) = true -> disk_ok w = true ->
  exists w' data,
    login (S n) tok w = (Ok tt, w')
    /\ prolificUser w' = field "username" d
    /\ nth_error (heap w') cur =
         Some (mkSession (field "username" d) (field "id" d) (field "name" d)
                         (remember_me s) true (currentProject s) (Some tok))
    /\ store_get (field "username" d) (knownUsers w') = Some (PDict data)
    /\ dict_get "token" data = Some tok
    /\ (forall k, k <> "token" -> dict_get k data = dict_get k d)
    /\ platform w' = rest
    /\ trace w' =
         (trace w ++ [EvRequest "GET" (ProlificClient.api_url ++ "/users/me/") tok None;
                      EvSaveUsers;
                      EvRequest "GET" (ProlificClient.api_url ++ "/users/me/") tok None;
                      EvSaveUsers])%list.
Proof.
  intros Hex Hs Hhash Htr Hnew Hp Hwf Hu Hdisk.
  set (data := dict_set "token" tok (dict_merge [("token", tok)] d)).
  assert (Hfield : forall k, k <> "token" -> field k data = field k d)
    by (intros; now apply field_of_user_data).
  assert (Hudata : hashable (field "username" data) = true)
    by (rewrite Hfield by discriminate; exact Hu).
  unfold login.
  rewrite (bind_ok _ _ _ _ _ (getCurrentSession_existing n cur w Hex)).
  unfold knownUsers_contains at 1. rewrite Hhash.
  unfold bind at 1. unfold bind at 1. unfold get_world at 1. rewrite Hnew.
  unfold ret at 1. unfold bind at 1. unfold ret at 1.
  assert (Htok : match tok with
                 | PDict d0 => match dict_get "token" d0 with Some t => t | None => tok end
                 | _ => tok
                 end = tok) by (destruct tok; try reflexivity; discriminate).
  rewrite Htok.
  (* setToken *)
  unfold setToken.
  unfold bind at 1. unfold bind at 1.
  rewrite (update_ok cur _ w s Hs).
  set (s1 := with_token_entry tok s).
  set (w1 := with_heap _ w).
  assert (Hs1 : nth_error (heap w1) cur = Some s1)
    by apply (nth_error_list_update_same _ _ _ _ Hs).
  unfold startSession.
  rewrite (bind_ok _ _ _ _ _ (client_some cur w1 s1 tok Hs1 eq_refl Htr)).
  assert (Hp1 : platform w1 = Reply 200 (Some (PDict d))
                              :: Reply 200 (Some (PDict d)) :: rest) by exact Hp.
  rewrite (bind_ok _ _ _ _ _
             (user_accepted n cur cur s1 s1 tok tok d _ w1
                Hs1 eq_refl Htr Hex Hs1 eq_refl Hp1 Hudata Hdisk)).
  fold data.
  rewrite User_username_field, User_id_field. unfold User_name. cbn [prolific.data].
  fold (field "name" data). rewrite !Hfield by discriminate.
  set (w2 := with_trace _ _).
  assert (H2 : nth_error (heap w2) cur = Some s1) by exact Hs1.
  rewrite (bind_ok _ _ _ _ _ (update_ok cur _ w2 s1 H2)).
  set (w3 := with_heap _ w2).
  assert (H3 : nth_error (heap w3) cur = Some (with_username (field "username" d) s1))
    by apply (nth_error_list_update_same _ _ _ _ H2).
  rewrite (bind_ok _ _ _ _ _ (update_ok cur _ w3 _ H3)).
  set (w4 := with_heap _ w3).
  assert (H4 : nth_error (heap w4) cur =
               Some (with_userID (field "id" d) (with_username (field "username" d) s1)))
    by apply (nth_error_list_update_same _ _ _ _ H3).
  rewrite (bind_ok _ _ _ _ _ (update_ok cur _ w4 _ H4)).
  set (w5 := with_heap _ w4).
  assert (H5 : nth_error (heap w5) cur =
               Some (with_userFullName (field "name" d)
                       (with_userID (field "id" d)
                          (with_username (field "username" d) s1))))
    by apply (nth_error_list_update_same _ _ _ _ H4).
  rewrite (update_ok cur _ w5 _ H5).
  set (sfin := with_authenticated true _).
  set (w6 := with_heap _ w5).
  assert (H6 : nth_error (heap w6) cur = Some sfin)
    by apply (nth_error_list_update_same _ _ _ _ H5).
  (* the second fetch *)
  assert (Hex6 : existingSession w6 = Some cur) by exact Hex.
  assert (Hp6 : platform w6 = Reply 200 (Some (PDict d)) :: rest) by reflexivity.
  assert (Hd6 : disk_ok w6 = true) by exact Hdisk.
  rewrite (bind_ok _ _ _ _ _
             (user_accepted n cur cur sfin sfin tok tok d rest w6
                H6 eq_refl Htr Hex6 H6 eq_refl Hp6 Hudata Hd6)).
  fold data. rewrite User_username_field. cbn [prolific.data].
  rewrite Hfield by discriminate.
  eexists _, data. split; [reflexivity|].
  split; [reflexivity|]. split.
  { exact H6. }
  split.
  { cbn [knownUsers set_prolificUser modify snd with_prolificUser with_trace
         with_knownUsers].
    now apply store_get_set_same. }
  split.
  { unfold data. apply dict_get_set_same. }
  split.
  { intros k Hk. unfold data. rewrite dict_get_set_other by assumption.
    rewrite (dict_merge_get k d Hwf). simpl.
    destruct (dict_get k d); auto.
    destruct (String.eqb_spec k "token"); congruence. }
  split; [reflexivity|].
  cbn [trace set_prolificUser modify snd with_prolificUser with_trace].
  unfold w6, w5, w4, w3, w2. cbn [trace with_heap with_trace].
  rewrite <- app_assoc. reflexivity.
Qed.

Lemma login_stores_token_witness :
  exists w' data,
    login 1 (PStr "tok")
      (Examples.running (PStr "old")
         [Reply 200 (Some Examples.alice); Reply 200 (Some Examples.alice)])
    = (Ok tt, w')
    /\ prolificUser w' = PStr "alice"
    /\ nth_error (heap w') 0 =
         Some (mkSession (PStr "alice") (PStr "u1") (PStr "Alice") true true PNone
                         (Some (PStr "tok")))
    /\ store_get (PStr "alice") (knownUsers w') = Some (PDict data)
    /\ dict_get "token" data = Some (PStr "tok")
    /\ (forall k, k <> "token" ->
         dict_get k data =
         dict_get k [("id", PStr "u1"); ("username", PStr "alice"); ("name", PStr "Alice")])
    /\ platform w' = []
    /\ trace w' =
         [EvRequest "GET" (ProlificClient.api_url ++ "/users/me/") (PStr "tok") None;
          EvSaveUsers;
          EvRequest "GET" (ProlificClient.api_url ++ "/users/me/") (PStr "tok") None;
          EvSaveUsers].
Proof.
  apply (login_stores_token 0 (PStr "tok") 0%nat (Examples.session_with (PStr "old"))
           [("id", PStr "u1"); ("username", PStr "alice"); ("name", PStr "Alice")] []
           (Examples.running (PStr "old")
              [Reply 200 (Some Examples.alice); Reply 200 (Some Examples.alice)]));
    try reflexivity.
  unfold dict_wf; simpl; repeat constructor; simpl; intuition discriminate.
Defined.

(** Logging in with a user name of the store is logging in with the token
    stored under it: [login] looks the name up and goes on with the [token]
    entry of what it finds (provided the token is not itself a key of the
    store). *)
Theorem login_by_username (fuel : nat) (u tok : PyVal) (data : dict) (w : World) :
  hashable u = true -> hashable tok = true ->
  store_get u (knownUsers w) = Some (PDict data) ->
  dict_get "token" data = Some tok ->
  store_get tok (knownUsers w) = None ->
  login fuel u w = login fuel tok w.
Proof.
  intros Hu Ht Hget Hd Hnew.
  assert (Htok : match tok with
                 | PDict d0 => match dict_get "token" d0 with Some t => t | None => tok end
                 | _ => tok
                 end = tok) by (destruct tok; try reflexivity; discriminate).
  destruct fuel as [|n]; [reflexivity|].
  assert (Hg : exists a w1, getCurrentSession (S n) w = (Ok (Some a), w1)
                            /\ knownUsers w1 = knownUsers w).
  { destruct (existingSession w) as [a|] eqn:E.
    - exists a, w. split; [now apply getCurrentSession_existing | reflexivity].
    - eexists _, _. split; [now apply getCurrentSession_first | reflexivity]. }
  destruct Hg as (a & w1 & Hg & Hk).
  unfold login. rewrite !(bind_ok _ _ _ _ _ Hg).
  unfold knownUsers_contains, knownUsers_getitem. rewrite Hu, Ht.
  unfold bind at 1. unfold bind at 1. unfold get_world at 1. rewrite Hk, Hget.
  unfold ret at 1. unfold bind at 1. unfold bind at 1. unfold get_world at 1.
  rewrite Hk, Hget. unfold ret at 1. rewrite Hd.
  symmetry.
  unfold bind at 1. unfold bind at 1. unfold get_world at 1. rewrite Hk, Hnew.
  unfold ret at 1. unfold bind at 1. unfold ret at 1. rewrite Htok.
  reflexivity.
Qed.

Lemma login_by_username_witness :
  login 2 (PStr "alice")
    (mkWorld [Examples.session_with (PStr "old")] (Some 0%nat)
             [(PStr "alice", PDict [("token", PStr "tok"); ("username", PStr "alice")])]
             true PNone true [Reply 403 None] [])
  = login 2 (PStr "tok")
      (mkWorld [Examples.session_with (PStr "old")] (Some 0%nat)
               [(PStr "alice", PDict [("token", PStr "tok"); ("username", PStr "alice")])]
               true PNone true [Reply 403 None] []).
Proof.
  apply (login_by_username 2 (PStr "alice") (PStr "tok")
           [("token", PStr "tok"); ("username", PStr "alice")]); reflexivity.
Defined.

End LogoutLogin.

(* ================================================================== *)
(** * What a session does for the study editor *)

Section SessionProjects.
Import prolific.

Variable repr : PyVal -> string.

Lemma create_study_not_201 (cl : ProlificClient.t)
      (title internal_name description url code : string)
      (participants duration : Z) (reward : Dec.Decimal) (r st : Z)
      (b : option PyVal) (rest : list NetReply) (w : World) :
  ProlificClient.minor_units reward = Ok r -> platform w = Reply st b :: rest -> st <> 201 ->
  exists w',
    ProlificClient.create_study repr cl title internal_name description url code
      participants duration reward w = (Ok PNone, w').
Proof.
  intros Hr Hp Hst.
  unfold ProlificClient.create_study; rewrite Hr; unfold lift at 1; unfold bind at 1.
  rewrite (bind_ok _ _ _ _ _ (request_reply _ _ _ _ _ _ _ _ Hp)). simpl.
  destruct (Z.eqb_spec st 201); [contradiction|]. eexists. reflexivity.
Qed.

Lemma create_study_201 (cl : ProlificClient.t)
      (title internal_name description url code : string)
      (participants duration : Z) (reward : Dec.Decimal) (r : Z)
      (d : dict) (idv : PyVal) (rest : list NetReply) (w : World) :
  ProlificClient.minor_units reward = Ok r -> platform w = Reply 201 (Some (PDict d)) :: rest ->
  dict_get "id" d = Some idv ->
  exists w',
    ProlificClient.create_study repr cl title internal_name description url code
      participants duration reward w =
      (Ok (PDict (dict_set "url"
                    (PStr (ProlificClient.client_url ++ "/studies/" ++ ProlificClient.format repr idv ++ "/")) d)), w').
Proof.
  intros Hr Hp Hid.
  unfold ProlificClient.create_study; rewrite Hr; unfold lift at 1; unfold bind at 1.
  rewrite (bind_ok _ _ _ _ _ (request_reply _ _ _ _ _ _ _ _ Hp)). simpl.
  unfold bind, json, lift. simpl. rewrite Hid. simpl. eexists. reflexivity.
Qed.

(** [createProject] for a session that holds a token.  A reply other than
    201 gives [None]; a 201 reply with [id] and [name] gives a project whose
    [id] is the local identifier, whose [idNumber] and [title] are those of
    the reply, whose [url] is [client_url/studies/<id>/] and whose
    [submissions_url] is that address followed by [submissions/]; a 201
    reply without [name] leaves as KeyError.  A session whose token is empty
    has no client: the call is AttributeError, and nothing was sent. *)
Theorem createProject_outcomes (self : addr) (s : ProlificSession) (tok pavloviaId : PyVal)
      (title internal_name description url code : string)
      (participants duration : Z) (reward : Dec.Decimal) (r : Z) (w : World) :
  nth_error (heap w) self = Some s -> token s = Some tok ->
  ProlificClient.minor_units reward = Ok r ->
  (truthy tok = false ->
     createProject repr self pavloviaId title internal_name description url code
       participants duration reward w = (Raise (AttributeError "create_study"), w))
  /\ (truthy tok = true ->
      (forall st b rest, platform w = Reply st b :: rest -> st <> 201 ->
         fst (createProject repr self pavloviaId title internal_name description url
                code participants duration reward w) = Ok None)
      /\ (forall d idv nm rest,
            platform w = Reply 201 (Some (PDict d)) :: rest ->
            dict_get "id" d = Some idv -> dict_get "name" d = Some nm ->
            exists p,
              fst (createProject repr self pavloviaId title internal_name description
                     url code participants duration reward w) = Ok (Some p)
              /\ ProlificProject_id p = Ok pavloviaId
              /\ ProlificProject_idNumber p = Ok idv
              /\ ProlificProject_title p = Ok nm
              /\ ProlificProject_url p =
                   Ok (PStr (ProlificClient.client_url ++ "/studies/" ++ ProlificClient.format repr idv ++ "/"))
              /\ ProlificProject_submissions_url p =
                   Ok (PStr ((ProlificClient.client_url ++ "/studies/" ++ ProlificClient.format repr idv ++ "/")
                             ++ "submissions/")))
      /\ (forall d idv rest,
            platform w = Reply 201 (Some (PDict d)) :: rest ->
            dict_get "id" d = Some idv -> dict_get "name" d = None ->
            fst (createProject repr self pavloviaId title internal_name description
                   url code participants duration reward w) = Raise (KeyError "name"))).
Proof.
  intros H Ht Hr. split.
  - intros Hf. unfold createProject.
    now rewrite (bind_ok _ _ _ _ _ (client_none self w s tok H Ht Hf)).
  - intros Htr. unfold createProject.
    rewrite (bind_ok _ _ _ _ _ (client_some self w s tok H Ht Htr)).
    split; [|split].
    + intros st b rest Hp Hst.
      destruct (create_study_not_201 (ProlificClient.mk tok) title internal_name description url code
                  participants duration reward r st b rest w Hr Hp Hst) as [w' Hc].
      now rewrite (bind_ok _ _ _ _ _ Hc).
    + intros d idv nm rest Hp Hid Hnm.
      destruct (create_study_201 (ProlificClient.mk tok) title internal_name description url code
                  participants duration reward r d idv rest w Hr Hp Hid) as [w' Hc].
      rewrite (bind_ok _ _ _ _ _ Hc).
      set (U := PStr (ProlificClient.client_url ++ "/studies/" ++ ProlificClient.format repr idv ++ "/")).
      assert (Hne : truthy (PDict (dict_set "url" U d)) = true).
      { simpl. destruct (dict_set "url" U d) eqn:E; auto.
        exfalso. revert E. apply dict_set_nonempty. }
      rewrite Hne.
      assert (Hid' : dict_get "id" (dict_set "url" U d) = Some idv)
        by (rewrite dict_get_set_other by discriminate; exact Hid).
      assert (Hnm' : dict_get "name" (dict_set "url" U d) = Some nm)
        by (rewrite dict_get_set_other by discriminate; exact Hnm).
      rewrite ProlificProject_call_positional.
      rewrite (ProlificProject_init_ok pavloviaId _ idv nm Hid' Hnm').
      eexists. split; [reflexivity|].
      split; [reflexivity|].
      unfold ProlificProject_submissions_url, ProlificProject_url,
        ProlificProject_title, ProlificProject_idNumber, ProlificProject_prolific.
      cbn [attrs dict_get String.eqb Ascii.eqb Bool.eqb]. rewrite Hne.
      unfold py_get. rewrite Hid', Hnm', dict_get_set_same.
      repeat split; reflexivity.
    + intros d idv rest Hp Hid Hnm.
      destruct (create_study_201 (ProlificClient.mk tok) title internal_name description url code
                  participants duration reward r d idv rest w Hr Hp Hid) as [w' Hc].
      rewrite (bind_ok _ _ _ _ _ Hc).
      set (U := PStr (ProlificClient.client_url ++ "/studies/" ++ ProlificClient.format repr idv ++ "/")).
      assert (Hne : truthy (PDict (dict_set "url" U d)) = true).
      { simpl. destruct (dict_set "url" U d) eqn:E; auto.
        exfalso. revert E. apply dict_set_nonempty. }
      rewrite Hne. rewrite ProlificProject_call_positional.
      unfold ProlificProject_init, subscript.
      rewrite !dict_get_set_other by discriminate. now rewrite Hid, Hnm.
Qed.

(** [publish] posts to [/studies/<idNumber>/transition/] under the
    session's token.  A reply other than 200 gives [None].  A 200 reply with
    [id] and [name] gives a new project under the same local identifier whose
    payload is the reply as it came: unlike after [createProject], nothing
    adds a [url], so when the reply has none the [url] of the published
    project is [None] and its [submissions_url] is a TypeError. *)
Theorem publish_outcomes (self : addr) (s : ProlificSession) (tok pavloviaId : PyVal)
      (d : dict) (idv nm : PyVal) (w : World) :
  nth_error (heap w) self = Some s -> token s = Some tok -> truthy tok = true ->
  dict_get "id" d = Some idv -> dict_get "name" d = Some nm ->
  forall project, ProlificProject_call [pavloviaId; PDict d] [] = Ok project ->
  trace (snd (publish repr self project w)) =
    (trace w ++ [EvRequest "POST"
                   (ProlificClient.api_url ++ "/studies/" ++ ProlificClient.format repr idv
                      ++ "/transition/")
                   tok (Some (PDict [("action", PStr "PUBLISH")]))])%list
  /\ (forall st b rest, platform w = Reply st b :: rest -> st <> 200 ->
        fst (publish repr self project w) = Ok None)
  /\ (forall d' idv' nm' rest,
        platform w = Reply 200 (Some (PDict d')) :: rest ->
        dict_get "id" d' = Some idv' -> dict_get "name" d' = Some nm' ->
        exists p,
          fst (publish repr self project w) = Ok (Some p)
          /\ ProlificProject_id p = Ok pavloviaId
          /\ ProlificProject_idNumber p = Ok idv'
          /\ ProlificProject_title p = Ok nm'
          /\ ProlificProject_url p = Ok (field "url" d')
          /\ (dict_get "url" d' = None ->
              ProlificProject_submissions_url p =
                Raise (TypeError "unsupported operand type(s) for +"))).
Proof.
  intros H Ht Htr Hid Hnm project Hproject.
  rewrite ProlificProject_call_positional in Hproject.
  rewrite (ProlificProject_init_ok pavloviaId d idv nm Hid Hnm) in Hproject.
  injection Hproject as <-.
  assert (Hne : truthy (PDict d) = true)
    by (destruct d; [discriminate | reflexivity]).
  assert (Hnum : ProlificProject_idNumber
                   (mkProject
                      [("id", pavloviaId); ("idNumber", idv); ("title", nm);
                       ("url", PStr "")]
                      [("_storedAttribs", PDict []); ("pavloviaId", pavloviaId);
                       ("prolific", PDict d); ("_lastKnownSync", PInt 0)]) = Ok idv).
  { unfold ProlificProject_idNumber, ProlificProject_prolific.
    cbn [attrs dict_get String.eqb Ascii.eqb Bool.eqb]. rewrite Hne.
    unfold py_get. now rewrite Hid. }
  unfold publish.
  rewrite (bind_ok _ _ _ _ _ (client_some self w s tok H Ht Htr)).
  rewrite Hnum. rewrite (bind_ok (lift (Ok idv)) _ w w idv eq_refl).
  unfold ProlificClient.publish_study. cbn [ProlificClient.token].
  split; [|split].
  - destruct (platform w) as [|[st b|msg] rest] eqn:Hp.
    + unfold bind at 1. now rewrite (bind_raise _ _ _ _ _ (request_silent _ _ _ _ _ Hp)).
    + unfold bind at 1.
      rewrite (bind_ok _ _ _ _ _ (request_reply _ _ _ _ _ _ _ _ Hp)). simpl.
      destruct (st =? 200); simpl; [|reflexivity].
      unfold json. simpl. destruct b as [v|]; simpl; [|reflexivity].
      destruct (truthy v); [|reflexivity].
      unfold bind, lift, ret. simpl.
      destruct (ProlificProject_call _ _); reflexivity.
    + unfold bind at 1. now rewrite (bind_raise _ _ _ _ _ (request_down _ _ _ _ _ _ _ Hp)).
  - intros st b rest Hp Hst. unfold bind at 1.
    rewrite (bind_ok _ _ _ _ _ (request_reply _ _ _ _ _ _ _ _ Hp)). simpl.
    destruct (Z.eqb_spec st 200); [contradiction | reflexivity].
  - intros d' idv' nm' rest Hp Hid' Hnm'. unfold bind at 1.
    rewrite (bind_ok _ _ _ _ _ (request_reply _ _ _ _ _ _ _ _ Hp)).
    cbn [status_code Z.eqb Pos.eqb negb]. unfold json. cbn [body]. unfold ret at 1.
    assert (Hne' : truthy (PDict d') = true)
      by (destruct d'; [discriminate | reflexivity]).
    rewrite Hne'.
    unfold ProlificProject_id at 1.
    cbn [attrs dict_get String.eqb Ascii.eqb Bool.eqb].
    unfold lift at 1. unfold bind at 1.
    rewrite ProlificProject_call_positional.
    rewrite (ProlificProject_init_ok pavloviaId d' idv' nm' Hid' Hnm').
    eexists. split; [reflexivity|].
    split; [reflexivity|].
    unfold ProlificProject_submissions_url, ProlificProject_url,
      ProlificProject_title, ProlificProject_idNumber, ProlificProject_prolific.
    cbn [attrs dict_get String.eqb Ascii.eqb Bool.eqb]. rewrite Hne'.
    unfold py_get, field. rewrite Hid', Hnm'.
    repeat split; try reflexivity.
    intros Hno. now rewrite Hno.
Qed.

End SessionProjects.

Section SessionProjectsExamples.
Import prolific.

Lemma createProject_outcomes_witness :
  exists p,
    fst (createProject Examples.no_repr 0%nat (PStr "alice/stroop")
           "Stroop" "stroop" "A task" "https://run.pavlovia.org/alice/stroop" "C0DE"
           20 5 (Dec.DFin 13 (-2))
           (Examples.running (PStr "tok")
              [Reply 201 (Some (PDict [("id", PStr "6f"); ("name", PStr "Stroop")]))]))
    = Ok (Some p)
    /\ ProlificProject_id p = Ok (PStr "alice/stroop")
    /\ ProlificProject_idNumber p = Ok (PStr "6f")
    /\ ProlificProject_title p = Ok (PStr "Stroop")
    /\ ProlificProject_url p = Ok (PStr "https://test-client.prolific.co/studies/6f/")
    /\ ProlificProject_submissions_url p =
         Ok (PStr "https://test-client.prolific.co/studies/6f/submissions/").
Proof.
  destruct (createProject_outcomes Examples.no_repr 0%nat (Examples.session_with (PStr "tok"))
              (PStr "tok") (PStr "alice/stroop")
              "Stroop" "stroop" "A task" "https://run.pavlovia.org/alice/stroop" "C0DE"
              20 5 (Dec.DFin 13 (-2)) 13
              (Examples.running (PStr "tok")
                 [Reply 201 (Some (PDict [("id", PStr "6f"); ("name", PStr "Stroop")]))])
              eq_refl eq_refl eq_refl) as (_ & H).
  destruct (H eq_refl) as (_ & H201 & _).
  exact (H201 [("id", PStr "6f"); ("name", PStr "Stroop")] (PStr "6f") (PStr "Stroop") []
           eq_refl eq_refl eq_refl).
Defined.

Lemma publish_outcomes_witness :
  exists p,
    fst (publish Examples.no_repr 0%nat (Examples.study (PInt 30))
           (Examples.running (PStr "tok")
              [Reply 200 (Some (PDict [("id", PInt 42); ("name", PStr "Stroop");
                                       ("status", PStr "ACTIVE")]))]))
    = Ok (Some p)
    /\ ProlificProject_id p = Ok (PStr "alice/stroop")
    /\ ProlificProject_url p = Ok PNone
    /\ ProlificProject_submissions_url p =
         Raise (TypeError "unsupported operand type(s) for +").
Proof.
  destruct (publish_outcomes Examples.no_repr 0%nat (Examples.session_with (PStr "tok")) (PStr "tok")
              (PStr "alice/stroop")
              [("id", PInt 42); ("name", PStr "Stroop"); ("permissions", PInt 30)]
              (PInt 42) (PStr "Stroop")
              (Examples.running (PStr "tok")
                 [Reply 200 (Some (PDict [("id", PInt 42); ("name", PStr "Stroop");
                                          ("status", PStr "ACTIVE")]))])
              eq_refl eq_refl eq_refl eq_refl eq_refl
              (Examples.study (PInt 30)) eq_refl) as (_ & _ & H).
  destruct (H [("id", PInt 42); ("name", PStr "Stroop"); ("status", PStr "ACTIVE")]
              (PInt 42) (PStr "Stroop") [] eq_refl eq_refl eq_refl)
    as (p & Hp & Hid & _ & _ & Hurl & Hsub).
  exists p. repeat split; [exact Hp | exact Hid | exact Hurl | exact (Hsub eq_refl)].
Defined.

End SessionProjectsExamples.

(* ================================================================== *)
(** * The price label *)

Section PriceLabel.
Import prolific.

Variable n : nat.
Variable parse : PyVal -> Result Dec.Decimal.
Variable repr : PyVal -> string.
Variable Decimal_str : Dec.Decimal -> string.

Lemma calculate_total_not_200 (cl : ProlificClient.t) (participants : Z)
      (reward : Dec.Decimal) (r st : Z) (b : option PyVal) (rest : list NetReply)
      (w : World) :
  ProlificClient.minor_units reward = Ok r ->
  platform w = Reply st b :: rest -> st <> 200 ->
  ProlificClient.calculate_total parse cl participants reward w =
    (Ok None,
     with_platform rest
       (with_trace
          (trace w ++ [EvRequest "POST" (ProlificClient.api_url ++ "/study-cost-calculator/")
                         (ProlificClient.token cl)
                         (Some (PDict [("reward", PInt r);
                                       ("total_available_places", PInt participants);
                                       ("study_type", PStr "SINGLE")]))])%list w)).
Proof.
  intros Hr Hp Hst. unfold ProlificClient.calculate_total. rewrite Hr.
  rewrite (bind_ok (lift (Ok r)) _ w w r eq_refl).
  rewrite (bind_ok _ _ _ _ _ (request_reply _ _ _ _ _ _ _ _ Hp)).
  cbn [status_code]. destruct (Z.eqb_spec st 200); [contradiction | reflexivity].
Qed.

Lemma calculate_total_ok (cl : ProlificClient.t) (participants : Z)
      (reward : Dec.Decimal) (r t : Z) (q : Dec.Decimal) (c : dict)
      (rest : list NetReply) (w : World) :
  ProlificClient.minor_units reward = Ok r ->
  platform w = Reply 200 (Some (PDict c)) :: rest ->
  dict_get "total_cost" c = Some (PInt t) ->
  Dec.div_int (Dec.DFin t 0) 100 = Ok q ->
  ProlificClient.calculate_total parse cl participants reward w =
    (Ok (Some q),
     with_platform rest
       (with_trace
          (trace w ++ [EvRequest "POST" (ProlificClient.api_url ++ "/study-cost-calculator/")
                         (ProlificClient.token cl)
                         (Some (PDict [("reward", PInt r);
                                       ("total_available_places", PInt participants);
                                       ("study_type", PStr "SINGLE")]))])%list w)).
Proof.
  intros Hr Hp Hc Hq. unfold ProlificClient.calculate_total. rewrite Hr.
  rewrite (bind_ok (lift (Ok r)) _ w w r eq_refl).
  rewrite (bind_ok _ _ _ _ _ (request_reply _ _ _ _ _ _ _ _ Hp)).
  cbn [status_code Z.eqb Pos.eqb negb]. unfold json. cbn [body].
  unfold bind, ret, lift, subscript. rewrite Hc.
  cbn [ProlificClient.Decimal_of]. now rewrite Hq.
Qed.

Lemma user_rejected (self : addr) (s : ProlificSession) (tok : PyVal) (st : Z)
      (b : option PyVal) (rest : list NetReply) (w : World) :
  existingSession w = Some self ->
  nth_error (heap w) self = Some s -> token s = Some tok -> truthy tok = true ->
  platform w = Reply st b :: rest -> st <> 200 ->
  user (getCurrentSession (S n)) self w =
    (Ok (mkUser [("token", tok)]),
     with_platform rest
       (with_trace
          (trace w ++ [EvRequest "GET" (ProlificClient.api_url ++ "/users/me/") tok None])%list
          w)).
Proof.
  intros Hex H Ht Htr Hp Hst. unfold user.
  rewrite (bind_ok _ _ _ _ _ (client_some self w s tok H Ht Htr)).
  rewrite (bind_ok _ _ _ _ _ (client_some self w s tok H Ht Htr)).
  unfold ProlificClient.retrieve_prolific_user. cbn [ProlificClient.token].
  unfold bind at 1. unfold bind at 1.
  rewrite (request_reply _ _ _ _ _ _ _ _ Hp). cbn [status_code].
  destruct (Z.eqb_spec st 200); [contradiction|]. cbn [negb]. unfold ret at 1.
  cbn [truthy]. unfold User_init.
  set (w1 := with_platform rest _).
  assert (Hex1 : existingSession w1 = Some self) by exact Hex.
  rewrite (bind_ok _ _ _ _ _ (getCurrentSession_existing n self w1 Hex1)).
  assert (H1 : nth_error (heap w1) self = Some s) by exact H.
  rewrite (bind_ok _ _ _ _ _ (getToken_ok self w1 s tok H1 Ht)).
  reflexivity.
Qed.

Lemma dict_get_of_user_data (k : string) (tok tc : PyVal) (d : dict) :
  dict_wf d -> k <> "token" ->
  dict_get k (dict_set "token" tc (dict_merge [("token", tok)] d)) = dict_get k d.
Proof.
  intros Hwf Hk. rewrite dict_get_set_other by assumption.
  rewrite (dict_merge_get k d Hwf). simpl.
  destruct (dict_get k d); auto.
  destruct (String.eqb_spec k "token"); congruence.
Qed.

(** The label of the total price, for the current session.  Without a token
    it is empty and nothing is sent.  With a token it takes two requests, the
    cost and then the identity: when both are refused the label reads
    [NoneNone]; when the cost is [t] minor units and the account's
    [currency_code] is in the table of symbols, the label is [t/100]
    followed by the symbol; and a currency that is not in the table (only GBP
    and USD are) makes the call a KeyError. *)
Theorem calculate_total_price_label (self : addr) (s : ProlificSession) (tok : PyVal)
      (participants : Z) (reward : Dec.Decimal) (r : Z) (w : World) :
  existingSession w = Some self ->
  nth_error (heap w) self = Some s -> token s = Some tok ->
  ProlificClient.minor_units reward = Ok r ->
  (truthy tok = false ->
     calculate_total_price (getCurrentSession (S n)) parse repr Decimal_str
       self participants reward w = (Ok "", w))
  /\ (truthy tok = true ->
      (forall st b st' b' rest,
         platform w = Reply st b :: Reply st' b' :: rest -> st <> 200 -> st' <> 200 ->
         fst (calculate_total_price (getCurrentSession (S n)) parse repr Decimal_str
                self participants reward w) = Ok "NoneNone")
      /\ (forall c t q d code rest,
            platform w = Reply 200 (Some (PDict c)) :: Reply 200 (Some (PDict d)) :: rest ->
            dict_get "total_cost" c = Some (PInt t) ->
            Dec.div_int (Dec.DFin t 0) 100 = Ok q ->
            dict_wf d -> hashable (field "username" d) = true -> disk_ok w = true ->
            dict_get "currency_code" d = Some (PStr code) -> code <> "" ->
            fst (calculate_total_price (getCurrentSession (S n)) parse repr Decimal_str
                   self participants reward w) =
              match currency_symbol_get code currency_symbol with
              | Some sym => Ok (Decimal_str q ++ sym)
              | None => Raise (KeyError code)
              end)).
Proof.
  intros Hex H Ht Hr. split.
  - intros Hf. unfold calculate_total_price.
    now rewrite (bind_ok _ _ _ _ _ (client_none self w s tok H Ht Hf)).
  - intros Htr. unfold calculate_total_price.
    rewrite (bind_ok _ _ _ _ _ (client_some self w s tok H Ht Htr)).
    rewrite (bind_ok _ _ _ _ _ (client_some self w s tok H Ht Htr)).
    split.
    + intros st b st' b' rest Hp Hst Hst'.
      rewrite (bind_ok _ _ _ _ _
                 (calculate_total_not_200 (ProlificClient.mk tok) participants reward
                    r st b _ w Hr Hp Hst)).
      set (w1 := with_platform _ _).
      now rewrite (bind_ok _ _ _ _ _
                     (user_rejected self s tok st' b' rest w1 Hex H Ht Htr eq_refl Hst')).
    + intros c t q d code rest Hp Hc Hq Hwf Hhash Hdisk Hcode Hne.
      rewrite (bind_ok _ _ _ _ _
                 (calculate_total_ok (ProlificClient.mk tok) participants reward
                    r t q c _ w Hr Hp Hc Hq)).
      set (w1 := with_platform _ _).
      assert (Hhash' : hashable (field "username"
                          (dict_set "token" tok (dict_merge [("token", tok)] d))) = true)
        by (rewrite field_of_user_data by (auto; discriminate); exact Hhash).
      rewrite (bind_ok _ _ _ _ _
                 (user_accepted n self self s s tok tok d rest w1
                    H Ht Htr Hex H Ht eq_refl Hhash' Hdisk)).
      unfold User_currency_symbol, User_currency_code, dict_has. cbn [data].
      rewrite (dict_get_of_user_data "currency_code" tok tok d Hwf) by discriminate.
      rewrite Hcode. cbn [truthy].
      destruct (String.eqb_spec code ""); [contradiction|]. cbn [negb].
      destruct (currency_symbol_get code currency_symbol); reflexivity.
Qed.

End PriceLabel.

Section PriceLabelExamples.
Import prolific.

Lemma calculate_total_price_label_witness :
  fst (calculate_total_price (getCurrentSession 1) Examples.no_parse Examples.no_repr
         (fun _ => "7.8") 0%nat 5 (Dec.DFin 13 (-1))
         (Examples.running (PStr "tok")
            [Reply 200 (Some (PDict [("total_cost", PInt 780)]));
             Reply 200 (Some (PDict [("username", PStr "alice");
                                     ("currency_code", PStr "USD")]))]))
    = Ok "7.8$"
  /\ fst (calculate_total_price (getCurrentSession 1) Examples.no_parse Examples.no_repr
            (fun _ => "7.8") 0%nat 5 (Dec.DFin 13 (-1))
            (Examples.running (PStr "tok")
               [Reply 200 (Some (PDict [("total_cost", PInt 780)]));
                Reply 200 (Some (PDict [("username", PStr "alice");
                                        ("currency_code", PStr "EUR")]))]))
     = Raise (KeyError "EUR").
Proof.
  split.
  - destruct (calculate_total_price_label 0%nat Examples.no_parse Examples.no_repr
                (fun _ => "7.8") 0%nat (Examples.session_with (PStr "tok"))
                (PStr "tok") 5 (Dec.DFin 13 (-1)) 130
                (Examples.running (PStr "tok")
                   [Reply 200 (Some (PDict [("total_cost", PInt 780)]));
                    Reply 200 (Some (PDict [("username", PStr "alice");
                                            ("currency_code", PStr "USD")]))])
                eq_refl eq_refl eq_refl eq_refl) as (_ & Hl).
    destruct (Hl eq_refl) as (_ & Hl').
    apply (Hl' [("total_cost", PInt 780)] 780 (Dec.DFin 78 (-1))
               [("username", PStr "alice"); ("currency_code", PStr "USD")] "USD" []);
      try reflexivity; try discriminate.
    unfold dict_wf; simpl; repeat constructor; simpl; intuition discriminate.
  - destruct (calculate_total_price_label 0%nat Examples.no_parse Examples.no_repr
                (fun _ => "7.8") 0%nat (Examples.session_with (PStr "tok"))
                (PStr "tok") 5 (Dec.DFin 13 (-1)) 130
                (Examples.running (PStr "tok")
                   [Reply 200 (Some (PDict [("total_cost", PInt 780)]));
                    Reply 200 (Some (PDict [("username", PStr "alice");
                                            ("currency_code", PStr "EUR")]))])
                eq_refl eq_refl eq_refl eq_refl) as (_ & Hl).
    destruct (Hl eq_refl) as (_ & Hl').
    apply (Hl' [("total_cost", PInt 780)] 780 (Dec.DFin 78 (-1))
               [("username", PStr "alice"); ("currency_code", PStr "EUR")] "EUR" []);
      try reflexivity; try discriminate.
    unfold dict_wf; simpl; repeat constructor; simpl; intuition discriminate.
Defined.

End PriceLabelExamples.

(* ================================================================== *)
(** * The study editor *)

Section StudyEditor.
Import prolific prolific_ui.

Variable n : nat.
Variable int_of_str : string -> option Z.
Variable parse : PyVal -> Result Dec.Decimal.
Variable repr : PyVal -> string.
Variable Decimal_str : Dec.Decimal -> string.
Variable EndModal : M unit.
Variable knownProjects_save : M unit.

Lemma bind_assoc {A B C} (m : M A) (k : A -> M B) (k' : B -> M C) (w : World) :
  bind (bind m k) k' w = bind m (fun a => bind (k a) k') w.
Proof. unfold bind. destruct (m w) as [[a|e|] w1]; reflexivity. Qed.

Lemma returns_only_raise {A} (P : A -> Prop) (e : Exc) : returns_only P (raise e).
Proof. intros w a w' E. discriminate. Qed.

Lemma returns_only_lift_raise {A} (P : A -> Prop) (e : Exc) :
  returns_only P (lift (Raise e)).
Proof. intros w a w' E. discriminate. Qed.

(** Pressing OK in an editor opened on an existing project never completes.
    The branch for an existing project assigns [name] on the project's
    payload, which takes no attributes, so the handler always leaves with an
    exception: the dialog is not closed and the project list is not saved,
    whatever the state and the replies of the platform. *)
Theorem submitChanges_edit_never_completes (fuel : nat) (self : ProjectEditor) :
  isNew self = false ->
  returns_only (fun _ => False)
    (submitChanges int_of_str parse repr EndModal knownProjects_save fuel self).
Proof.
  intros Hnew. unfold submitChanges. rewrite Hnew.
  apply returns_only_bind with (Q := fun _ => True); [apply returns_only_any|].
  intros session _.
  apply returns_only_bind with (Q := fun _ => True); [apply returns_only_any|].
  intros _ _.
  apply returns_only_bind with (Q := fun _ => True); [apply returns_only_any|].
  intros reward _.
  apply returns_only_bind with (Q := fun _ => False); [|intros ? []].
  destruct (editor_project self) as [p|]; [|apply returns_only_raise].
  apply returns_only_bind with (Q := fun _ => True); [apply returns_only_any|].
  intros prolific _.
  apply returns_only_bind with (Q := fun _ => False); [|intros ? []].
  apply returns_only_lift_raise.
Qed.

(** Pressing OK in an editor for a new study, the reward having been read
    and converted.  A session without a token is not stopped by the test of
    [session.user] (a [User] object is always true): the handler goes on to
    [createProject], which has no client, and leaves as AttributeError with
    nothing sent.  For a session the platform accepts: when the study is
    refused (a reply other than 201) the handler leaves as AttributeError on
    [_newRemote]; when it is created (201 with [id] and [name]) the editor
    holds the new project, marked [_newRemote], under the editor's
    identifier, and a builder frame is given that project. *)
Theorem submitChanges_new_study (self : ProjectEditor) (cur : addr)
      (s : ProlificSession) (tok : PyVal) (reward : Dec.Decimal) (r : Z) (w : World) :
  isNew self = true ->
  existingSession w = Some cur -> nth_error (heap w) cur = Some s ->
  token s = Some tok ->
  as_decimal parse (rewardBox self) = Ok reward ->
  ProlificClient.minor_units reward = Ok r ->
  (truthy tok = false ->
     submitChanges int_of_str parse repr EndModal knownProjects_save (S n) self w
       = (Raise (AttributeError "create_study"), w))
  /\ (truthy tok = true ->
      forall u, dict_wf u -> hashable (field "username" u) = true -> disk_ok w = true ->
      (forall st b rest,
         platform w = Reply 200 (Some (PDict u)) :: Reply st b :: rest -> st <> 201 ->
         fst (submitChanges int_of_str parse repr EndModal knownProjects_save (S n) self w)
           = Raise (AttributeError "_newRemote"))
      /\ (forall d idv nm rest,
            platform w = Reply 200 (Some (PDict u)) :: Reply 201 (Some (PDict d)) :: rest ->
            dict_get "id" d = Some idv -> dict_get "name" d = Some nm ->
            gui_only EndModal -> gui_only knownProjects_save ->
            exists self' p,
              fst (submitChanges int_of_str parse repr EndModal knownProjects_save
                     (S n) self w) = Ok self'
              /\ editor_project self' = Some p
              /\ dict_get "_newRemote" (attrs p) = Some (PBool true)
              /\ ProlificProject_id p = Ok (editor_pavloviaId self)
              /\ ProlificProject_title p = Ok nm
              /\ (forall f old, editor_parent self = BuilderFrame f old ->
                  editor_parent self' = BuilderFrame f (Some p)))).
Proof.
  intros Hnew Hex H Ht Has Hr. split.
  - intros Hf. unfold submitChanges.
    rewrite (bind_ok _ _ _ _ _ (getCurrentSession_existing n cur w Hex)).
    rewrite (bind_ok _ _ _ _ _ (user_no_token n cur s tok w Hex H Ht Hf)).
    rewrite Has. rewrite (bind_ok (lift (Ok reward)) _ w w reward eq_refl).
    rewrite Hnew. rewrite bind_assoc. unfold createProject at 1.
    rewrite bind_assoc.
    now rewrite (bind_ok _ _ _ _ _ (client_none cur w s tok H Ht Hf)).
  - intros Htr u Hwf Hhash Hdisk.
    assert (Hhash' : hashable (field "username"
                        (dict_set "token" tok (dict_merge [("token", tok)] u))) = true)
      by (rewrite field_of_user_data by (auto; discriminate); exact Hhash).
    split.
    + intros st b rest Hp Hst. unfold submitChanges.
      rewrite (bind_ok _ _ _ _ _ (getCurrentSession_existing n cur w Hex)).
      rewrite (bind_ok _ _ _ _ _
                 (user_accepted n cur cur s s tok tok u _ w
                    H Ht Htr Hex H Ht Hp Hhash' Hdisk)).
      set (w1 := with_trace _ _).
      rewrite Has. rewrite (bind_ok (lift (Ok reward)) _ w1 w1 reward eq_refl).
      rewrite Hnew. rewrite bind_assoc. unfold createProject at 1.
      rewrite bind_assoc.
      assert (H1 : nth_error (heap w1) cur = Some s) by exact H.
      rewrite (bind_ok _ _ _ _ _ (client_some cur w1 s tok H1 Ht Htr)).
      rewrite bind_assoc.
      destruct (create_study_not_201 repr (ProlificClient.mk tok) (titleBox self)
                  (internalNameBox self) (descrBox self) (urlBox self) (codeBox self)
                  (as_int int_of_str (participantsBox self))
                  (as_int int_of_str (durationBox self)) reward r st b rest w1
                  Hr eq_refl Hst) as [w2 Hc].
      now rewrite (bind_ok _ _ _ _ _ Hc).
    + intros d idv nm rest Hp Hid Hnm Hend Hsave. unfold submitChanges.
      rewrite (bind_ok _ _ _ _ _ (getCurrentSession_existing n cur w Hex)).
      rewrite (bind_ok _ _ _ _ _
                 (user_accepted n cur cur s s tok tok u _ w
                    H Ht Htr Hex H Ht Hp Hhash' Hdisk)).
      set (w1 := with_trace _ _).
      rewrite Has. rewrite (bind_ok (lift (Ok reward)) _ w1 w1 reward eq_refl).
      rewrite Hnew. rewrite bind_assoc. unfold createProject at 1.
      rewrite bind_assoc.
      assert (H1 : nth_error (heap w1) cur = Some s) by exact H.
      rewrite (bind_ok _ _ _ _ _ (client_some cur w1 s tok H1 Ht Htr)).
      rewrite bind_assoc.
      destruct (create_study_201 repr (ProlificClient.mk tok) (titleBox self)
                  (internalNameBox self) (descrBox self) (urlBox self) (codeBox self)
                  (as_int int_of_str (participantsBox self))
                  (as_int int_of_str (durationBox self)) reward r d idv rest w1
                  Hr eq_refl Hid) as [w2 Hc].
      rewrite (bind_ok _ _ _ _ _ Hc).
      set (U := PStr (ProlificClient.client_url ++ "/studies/"
                        ++ ProlificClient.format repr idv ++ "/")).
      assert (Hne : truthy (PDict (dict_set "url" U d)) = true).
      { simpl. destruct (dict_set "url" U d) eqn:E; auto.
        exfalso. revert E. apply dict_set_nonempty. }
      rewrite Hne.
      assert (Hid' : dict_get "id" (dict_set "url" U d) = Some idv)
        by (rewrite dict_get_set_other by discriminate; exact Hid).
      assert (Hnm' : dict_get "name" (dict_set "url" U d) = Some nm)
        by (rewrite dict_get_set_other by discriminate; exact Hnm).
      rewrite ProlificProject_call_positional.
      rewrite (ProlificProject_init_ok (editor_pavloviaId self) _ idv nm Hid' Hnm').
      rewrite !bind_assoc.
      rewrite (bind_ok (lift (Ok _)) _ w2 w2 _ eq_refl).
      rewrite (bind_ok (ret _) _ w2 w2 _ eq_refl).
      rewrite (bind_ok (ret _) _ w2 w2 _ eq_refl).
      destruct (Hend w2) as [t1 He]. rewrite (bind_ok _ _ _ _ _ He).
      destruct (Hsave (with_trace t1 w2)) as [t2 Hs]. rewrite (bind_ok _ _ _ _ _ Hs).
      eexists _, _. split; [reflexivity|].
      split; [reflexivity|].
      split; [reflexivity|].
      split; [reflexivity|].
      split.
      * unfold ProlificProject_title, ProlificProject_prolific.
        cbn [attrs dict_get dict_set String.eqb Ascii.eqb Bool.eqb].
        unfold py_get. now rewrite Hnm'.
      * intros f old Hparent. cbn [editor_parent editor_project with_editor_parent
                                    with_editor_project].
        now rewrite Hparent.
Qed.

(** The update of the price, for the current session.  Without a token the
    total is emptied and nothing is sent.  With a token, a number of
    participants and a reward that cannot be read are not reported: the cost
    of 0 places at reward 0 is requested, then the identity, and when both
    are refused the total reads [NoneNone]. *)
Theorem onCostUpdate_unreadable_fields (self : ProjectEditor) (cur : addr)
      (s : ProlificSession) (tok : PyVal) (w : World) :
  existingSession w = Some cur -> nth_error (heap w) cur = Some s ->
  token s = Some tok ->
  (truthy tok = false ->
     parse (PStr (rewardBox self)) <> Abort ->
     onCostUpdate int_of_str parse repr Decimal_str (S n) self w
       = (Ok (with_totalBox "" self), w))
  /\ (truthy tok = true ->
      forall e st b st' b' rest,
        int_of_str (participantsBox self) = None ->
        parse (PStr (rewardBox self)) = Raise e ->
        platform w = Reply st b :: Reply st' b' :: rest -> st <> 200 -> st' <> 200 ->
        onCostUpdate int_of_str parse repr Decimal_str (S n) self w =
          (Ok (with_totalBox "NoneNone" self),
           with_platform rest
             (with_trace
                (trace w ++
                 [EvRequest "POST" (ProlificClient.api_url ++ "/study-cost-calculator/") tok
                    (Some (PDict [("reward", PInt 0);
                                  ("total_available_places", PInt 0);
                                  ("study_type", PStr "SINGLE")]));
                  EvRequest "GET" (ProlificClient.api_url ++ "/users/me/") tok None])%list
                w))).
Proof.
  intros Hex H Ht. split.
  - intros Hf Hab. unfold onCostUpdate, as_decimal.
    assert (Hd : exists d, match parse (PStr (rewardBox self)) with
                           | Ok d => Ok d
                           | Raise _ => Ok (Dec.DFin 0 0)
                           | Abort => Abort
                           end = Ok d)
      by (destruct (parse (PStr (rewardBox self))); [eauto | eauto | contradiction]).
    destruct Hd as [d ->].
    rewrite (bind_ok (lift (Ok d)) _ w w d eq_refl).
    rewrite (bind_ok _ _ _ _ _ (getCurrentSession_existing n cur w Hex)).
    unfold calculate_total_price.
    rewrite bind_assoc.
    now rewrite (bind_ok _ _ _ _ _ (client_none cur w s tok H Ht Hf)).
  - intros Htr e st b st' b' rest Hint Hparse Hp Hst Hst'.
    unfold onCostUpdate, as_decimal, as_int. rewrite Hint, Hparse.
    rewrite (bind_ok (lift (Ok (Dec.DFin 0 0))) _ w w _ eq_refl).
    rewrite (bind_ok _ _ _ _ _ (getCurrentSession_existing n cur w Hex)).
    unfold calculate_total_price.
    rewrite bind_assoc.
    rewrite (bind_ok _ _ _ _ _ (client_some cur w s tok H Ht Htr)).
    rewrite bind_assoc.
    rewrite (bind_ok _ _ _ _ _ (client_some cur w s tok H Ht Htr)).
    rewrite bind_assoc.
    rewrite (bind_ok _ _ _ _ _
               (calculate_total_not_200 parse (ProlificClient.mk tok) 0 (Dec.DFin 0 0)
                  0 st b _ w eq_refl Hp Hst)).
    set (w1 := with_platform _ _).
    rewrite bind_assoc.
    rewrite (bind_ok _ _ _ _ _
               (user_rejected n cur s tok st' b' rest w1 Hex H Ht Htr eq_refl Hst')).
    unfold w1. cbn [ProlificClient.token]. unfold bind, lift, ret. simpl.
    rewrite <- app_assoc. reflexivity.
Qed.

End StudyEditor.

Section StudyEditorExamples.
Import prolific prolific_ui.

Lemma submitChanges_edit_never_completes_witness :
  match fst (submitChanges (fun _ => None) Examples.no_parse Examples.no_repr
               (ret tt) (ret tt) 1
               (Examples.editor_on (Some (Examples.study (PInt 30))) false)
               (Examples.running (PStr "tok") [Reply 200 (Some Examples.alice)]))
  with
  | Ok _ => False
  | _ => True
  end.
Proof.
  destruct (submitChanges (fun _ => None) Examples.no_parse Examples.no_repr
              (ret tt) (ret tt) 1
              (Examples.editor_on (Some (Examples.study (PInt 30))) false)
              (Examples.running (PStr "tok") [Reply 200 (Some Examples.alice)]))
    as [[e|ex|] w'] eqn:E; cbn [fst]; try exact I.
  exact (submitChanges_edit_never_completes (fun _ => None) Examples.no_parse
           Examples.no_repr (ret tt) (ret tt) 1
           (Examples.editor_on (Some (Examples.study (PInt 30))) false)
           eq_refl _ e w' E).
Defined.

Lemma submitChanges_new_study_witness :
  fst (submitChanges (fun _ => None) Examples.no_parse Examples.no_repr (ret tt) (ret tt) 1
         (Examples.editor_on None true)
         (Examples.running (PStr "tok")
            [Reply 200 (Some Examples.alice); Reply 400 None]))
  = Raise (AttributeError "_newRemote").
Proof.
  destruct (submitChanges_new_study 0 (fun _ => None) Examples.no_parse Examples.no_repr
              (ret tt) (ret tt) (Examples.editor_on None true) 0%nat
              (Examples.session_with (PStr "tok")) (PStr "tok") (Dec.DFin 0 0) 0
              (Examples.running (PStr "tok")
                 [Reply 200 (Some Examples.alice); Reply 400 None])
              eq_refl eq_refl eq_refl eq_refl eq_refl eq_refl) as (_ & H).
  assert (Hwf : dict_wf [("id", PStr "u1"); ("username", PStr "alice");
                         ("name", PStr "Alice")])
    by (unfold dict_wf; simpl; repeat constructor; simpl; intuition discriminate).
  destruct (H eq_refl _ Hwf eq_refl eq_refl) as (Hrefused & _).
  apply (Hrefused 400 None []); [reflexivity | discriminate].
Defined.

Lemma onCostUpdate_unreadable_fields_witness :
  onCostUpdate (fun _ => None) Examples.no_parse Examples.no_repr (fun _ => "0") 1
    (Examples.editor_on None true)
    (Examples.running (PStr "tok") [Reply 401 None; Reply 401 None])
  = (Ok (with_totalBox "NoneNone" (Examples.editor_on None true)),
     with_platform []
       (with_trace
          [EvRequest "POST" (ProlificClient.api_url ++ "/study-cost-calculator/") (PStr "tok")
             (Some (PDict [("reward", PInt 0);
                           ("total_available_places", PInt 0);
                           ("study_type", PStr "SINGLE")]));
           EvRequest "GET" (ProlificClient.api_url ++ "/users/me/") (PStr "tok") None]
          (Examples.running (PStr "tok") [Reply 401 None; Reply 401 None]))).
Proof.
  destruct (onCostUpdate_unreadable_fields 0 (fun _ => None) Examples.no_parse
              Examples.no_repr (fun _ => "0") (Examples.editor_on None true) 0%nat
              (Examples.session_with (PStr "tok")) (PStr "tok")
              (Examples.running (PStr "tok") [Reply 401 None; Reply 401 None])
              eq_refl eq_refl eq_refl) as (_ & H).
  apply (H eq_refl (DecimalException "InvalidOperation") 401 None 401 None []);
    try reflexivity; discriminate.
Defined.

End StudyEditorExamples.

(* ================================================================== *)
(** * The sync button *)

Section SyncButton.
Import prolific prolific_ui.

Variable n : nat.
Variable logInProlific : Frame -> M PyVal.
Variable setLocalPath : ProlificProject -> M PyVal.

(** What the constructor builds, and what an attribute of it that is not
    one of its own gives. *)
Lemma built_project (pavloviaId : PyVal) (d : dict) (p : ProlificProject) :
  ProlificProject_call [pavloviaId; PDict d] [] = Ok p ->
  exists idv nm,
    p = mkProject
          [("id", pavloviaId); ("idNumber", idv); ("title", nm); ("url", PStr "")]
          [("_storedAttribs", PDict []); ("pavloviaId", pavloviaId);
           ("prolific", PDict d); ("_lastKnownSync", PInt 0)]
    /\ truthy (PDict d) = true.
Proof.
  rewrite ProlificProject_call_positional.
  unfold ProlificProject_init, subscript. intros Hp.
  destruct (dict_get "id" d) as [idv|] eqn:Hid; [|discriminate].
  destruct (dict_get "name" d) as [nm|] eqn:Hnm; [|discriminate].
  injection Hp as <-. exists idv, nm. split; [reflexivity|].
  destruct d; [discriminate Hid | reflexivity].
Qed.

Lemma built_project_attr (pavloviaId : PyVal) (d : dict) (p : ProlificProject)
      (name : string) :
  ProlificProject_call [pavloviaId; PDict d] [] = Ok p ->
  ~ In name ["id"; "idNumber"; "title"; "url";
             "_storedAttribs"; "pavloviaId"; "prolific"; "_lastKnownSync"] ->
  ProlificProject_attr p name =
    match dict_get name d with
    | Some v => Ok v
    | None => Raise (AttributeError name)
    end.
Proof.
  intros Hp Hname. destruct (built_project _ _ _ Hp) as (idv & nm & -> & Hne).
  assert (Hk : forall k, In k ["id"; "idNumber"; "title"; "url";
                               "_storedAttribs"; "pavloviaId"; "prolific";
                               "_lastKnownSync"] -> (name =? k)%string = false).
  { intros k Hk. destruct (String.eqb_spec name k); [subst; contradiction|reflexivity]. }
  unfold ProlificProject_attr, ProlificProject_getattr. cbn [attrs items dict_get].
  rewrite !Hk by (simpl; auto 10).
  change ("prolific" =? "_storedAttribs")%string with false.
  change ("prolific" =? "pavloviaId")%string with false.
  change ("prolific" =? "prolific")%string with true. cbv iota.
  rewrite Hne. cbn [negb]. unfold search.
  destruct (dict_get name d); reflexivity.
Qed.

(** The button pressed while the current session has no token: the login
    dialog is shown and, whatever the user does in it, the handler returns
    [None] with the panel as it was; nothing is sent by the handler and no
    sync is started. *)
Theorem onSyncButton_logged_out (self : DetailsPanel) (p : ProlificProject)
      (cur : addr) (s : ProlificSession) (tok v : PyVal) (w w' : World) :
  haveGit w = true -> panel_project self = Some p ->
  existingSession w = Some cur -> nth_error (heap w) cur = Some s ->
  token s = Some tok -> truthy tok = false ->
  logInProlific (panel_parent self)
    (with_trace (trace w ++ [EvLogInProlific])%list w) = (Ok v, w') ->
  onSyncButton logInProlific setLocalPath (S n) self w = (Ok (PNone, self), w').
Proof.
  intros Hgit Hproj Hex H Ht Hf Hdlg. unfold onSyncButton.
  rewrite (bind_ok get_world _ w w w eq_refl). rewrite Hgit, Hproj. cbn [negb].
  rewrite (bind_ok _ _ _ _ _ (getCurrentSession_existing n cur w Hex)).
  rewrite (bind_ok _ _ _ _ _ (user_no_token n cur s tok w Hex H Ht Hf)).
  change (truthy (User_username (mkUser [("token", tok)]))) with false. cbn [negb].
  rewrite (bind_ok (emit EvLogInProlific) _ w
             (with_trace (trace w ++ [EvLogInProlific])%list w) tt eq_refl).
  now rewrite (bind_ok _ _ _ _ _ Hdlg).
Qed.

(** The button pressed by a user the platform accepts, on a project built
    by the constructor whose payload gives the permission level [k].  Below
    the level of a developer the handler always leaves as AttributeError on
    [forkTo] (the payload having no such entry): such a project cannot be
    synchronised.  From that level up, the folder dialog is always shown,
    because the folder is looked for among the items under [localRoot] and
    stored as the attribute [local]; its answer, also [None] for a dialog
    that was cancelled, is stored and the sync goes on. *)
Theorem onSyncButton_logged_in (self : DetailsPanel) (p : ProlificProject)
      (pavloviaId : PyVal) (d u : dict) (k : Z)
      (cur : addr) (s : ProlificSession) (tok : PyVal) (rest : list NetReply)
      (w : World) :
  haveGit w = true -> panel_project self = Some p ->
  ProlificProject_call [pavloviaId; PDict d] [] = Ok p ->
  dict_get "permissions" d = Some (PInt k) ->
  existingSession w = Some cur -> nth_error (heap w) cur = Some s ->
  token s = Some tok -> truthy tok = true ->
  platform w = Reply 200 (Some (PDict u)) :: rest ->
  dict_wf u -> hashable (field "username" u) = true ->
  truthy (field "username" u) = true -> disk_ok w = true ->
  (k < 30 -> dict_get "forkTo" d = None ->
     fst (onSyncButton logInProlific setLocalPath (S n) self w)
       = Raise (AttributeError "forkTo"))
  /\ (30 <= k ->
      forall newPath, (forall w0, setLocalPath p w0 = (Ok newPath, w0)) ->
      exists p' w',
        onSyncButton logInProlific setLocalPath (S n) self w
          = (Ok (PNone, mkPanel (panel_parent self) (Some p')), w')
        /\ items p' = items p
        /\ dict_has "localRoot" (items p') = false
        /\ dict_get "local" (attrs p') = Some newPath
        /\ trace w' =
             (trace w ++
              [EvRequest "GET" (ProlificClient.api_url ++ "/users/me/") tok None;
               EvSaveUsers; EvSetLocalPath; EvRaiseWindow;
               EvSetStatus "Synchronizing..."; EvRaiseWindow])%list).
Proof.
  intros Hgit Hproj Hp Hperm Hex H Ht Htr Hplat Hwf Hhash Huser Hdisk.
  assert (Hhash' : hashable (field "username"
                      (dict_set "token" tok (dict_merge [("token", tok)] u))) = true)
    by (rewrite field_of_user_data by (auto; discriminate); exact Hhash).
  assert (Hattr : ProlificProject_attr p "permissions" = Ok (PInt k)).
  { rewrite (built_project_attr pavloviaId d p "permissions" Hp), Hperm; [reflexivity|].
    simpl. intuition discriminate. }
  unfold onSyncButton.
  rewrite (bind_ok get_world _ w w w eq_refl). rewrite Hgit, Hproj. cbn [negb].
  rewrite (bind_ok _ _ _ _ _ (getCurrentSession_existing n cur w Hex)).
  rewrite (bind_ok _ _ _ _ _
             (user_accepted n cur cur s s tok tok u rest w
                H Ht Htr Hex H Ht Hplat Hhash' Hdisk)).
  rewrite User_username_field. cbn [data].
  rewrite field_of_user_data by (auto; discriminate).
  rewrite Huser. cbn [negb].
  set (w1 := with_trace _ _).
  unfold fork_if_needed. rewrite Hattr.
  rewrite bind_assoc. rewrite (bind_ok (lift (Ok (PInt k))) _ w1 w1 _ eq_refl).
  rewrite forkRequired_int.
  rewrite bind_assoc. rewrite (bind_ok (lift (Ok (k <? 30))) _ w1 w1 _ eq_refl).
  split.
  - intros Hk Hfork.
    assert (Hlt : (k <? 30) = true) by (apply Z.ltb_lt; exact Hk).
    rewrite Hlt. unfold fork_step. rewrite bind_assoc.
    rewrite (built_project_attr pavloviaId d p "forkTo" Hp), Hfork
      by (simpl; intuition discriminate).
    reflexivity.
  - intros Hk newPath Hdlg.
    assert (Hge : (k <? 30) = false) by (apply Z.ltb_ge; exact Hk).
    rewrite Hge.
    destruct (built_project _ _ _ Hp) as (idv & nm & Hbuilt & _).
    assert (Hroot : dict_has "localRoot" (items p) = false) by (subst p; reflexivity).
    rewrite Hroot. cbn [negb].
    unfold bind, lift, ret, emit, modify. cbn [negb]. cbv beta.
    rewrite Hdlg.
    eexists _, _. split; [reflexivity|].
    cbn [items attrs]. split; [reflexivity|]. split; [exact Hroot|].
    split; [apply dict_get_set_same|].
    cbn [trace with_trace]. unfold w1. cbn [trace with_trace].
    rewrite <- !app_assoc. reflexivity.
Qed.

End SyncButton.

Section SyncButtonExamples.
Import prolific prolific_ui.

Lemma onSyncButton_logged_out_witness :
  onSyncButton Examples.login_accepted Examples.folder_chosen 1
    (mkPanel (OtherFrame "/home/user/study/stroop.py") (Some (Examples.study (PInt 50))))
    (Examples.running (PStr "") [])
  = (Ok (PNone,
         mkPanel (OtherFrame "/home/user/study/stroop.py")
                 (Some (Examples.study (PInt 50)))),
     with_trace [EvLogInProlific] (Examples.running (PStr "") [])).
Proof.
  apply (onSyncButton_logged_out 0 Examples.login_accepted Examples.folder_chosen
           (mkPanel (OtherFrame "/home/user/study/stroop.py")
                    (Some (Examples.study (PInt 50))))
           (Examples.study (PInt 50)) 0%nat (Examples.session_with (PStr ""))
           (PStr "") (PStr "alice") (Examples.running (PStr "") []));
    reflexivity.
Defined.

Lemma onSyncButton_logged_in_witness :
  fst (onSyncButton Examples.login_accepted Examples.folder_chosen 1
         (mkPanel (OtherFrame "/home/user/study/stroop.py")
                  (Some (Examples.study (PInt 20))))
         (Examples.running (PStr "tok") [Reply 200 (Some Examples.alice)]))
  = Raise (AttributeError "forkTo").
Proof.
  assert (Hwf : dict_wf [("id", PStr "u1"); ("username", PStr "alice");
                         ("name", PStr "Alice")])
    by (unfold dict_wf; simpl; repeat constructor; simpl; intuition discriminate).
  destruct (onSyncButton_logged_in 0 Examples.login_accepted Examples.folder_chosen
              (mkPanel (OtherFrame "/home/user/study/stroop.py")
                       (Some (Examples.study (PInt 20))))
              (Examples.study (PInt 20)) (PStr "alice/stroop")
              [("id", PInt 42); ("name", PStr "Stroop"); ("permissions", PInt 20)]
              [("id", PStr "u1"); ("username", PStr "alice"); ("name", PStr "Alice")]
              20 0%nat (Examples.session_with (PStr "tok")) (PStr "tok") []
              (Examples.running (PStr "tok") [Reply 200 (Some Examples.alice)])
              eq_refl eq_refl eq_refl eq_refl eq_refl eq_refl eq_refl eq_refl eq_refl
              Hwf eq_refl eq_refl eq_refl) as (Hfork & _).
  apply Hfork; [lia | reflexivity].
Defined.

End SyncButtonExamples.

(* ================================================================== *)
(** * What [syncProject] returns *)

Section SyncOutcomes.
Import prolific prolific_ui.

Variable n : nat.
Variable dirname : string -> string.
Variable expanduser : string -> string.
Variable normcase : string -> string.
Variable logInProlific : Frame -> M PyVal.

(** Whatever the frame, the project, the state, the replies of the platform
    and the login dialog, a call of [syncProject] that returns gives -1, 0
    or [None]: the value 1 that stands for success is never returned. *)
Theorem syncProject_return_values (fuel : nat) (parent : Frame)
      (project : option ProlificProject) (w : World) :
  match fst (syncProject dirname expanduser normcase logInProlific fuel parent project w)
  with
  | Ok v => v = PInt (-1) \/ v = PInt 0 \/ v = PNone
  | _ => True
  end.
Proof.
  destruct (syncProject dirname expanduser normcase logInProlific fuel parent project w)
    as [[v|e|] w'] eqn:E; cbn [fst]; auto.
  exact (syncProject_results dirname expanduser normcase logInProlific
           fuel parent project w v w' E).
Qed.

Lemma user_net_down_world (self : addr) (s : ProlificSession) (tok : PyVal)
      (msg : string) (rest : list NetReply) (w : World) :
  nth_error (heap w) self = Some s -> token s = Some tok -> truthy tok = true ->
  platform w = NetDown msg :: rest ->
  user (getCurrentSession (S n)) self w =
    (Raise (TransportError msg),
     with_platform rest
       (with_trace
          (trace w ++ [EvRequest "GET" (ProlificClient.api_url ++ "/users/me/") tok None])%list
          w)).
Proof.
  intros H Ht Htr Hp. unfold user.
  rewrite (bind_ok _ _ _ _ _ (client_some self w s tok H Ht Htr)).
  rewrite (bind_ok _ _ _ _ _ (client_some self w s tok H Ht Htr)).
  unfold ProlificClient.retrieve_prolific_user. cbn [ProlificClient.token].
  rewrite bind_assoc.
  now rewrite (bind_raise _ _ _ _ _ (request_down _ _ _ _ _ _ _ Hp)).
Qed.

Lemma user_bad_body (self : addr) (s : ProlificSession) (tok : PyVal)
      (b : option PyVal) (rest : list NetReply) (w : World) :
  nth_error (heap w) self = Some s -> token s = Some tok -> truthy tok = true ->
  platform w = Reply 200 b :: rest -> (forall d, b <> Some (PDict d)) ->
  exists e,
    user (getCurrentSession (S n)) self w =
      (Raise e,
       with_platform rest
         (with_trace
            (trace w ++ [EvRequest "GET" (ProlificClient.api_url ++ "/users/me/") tok None])%list
            w)).
Proof.
  intros H Ht Htr Hp Hb. unfold user.
  rewrite (bind_ok _ _ _ _ _ (client_some self w s tok H Ht Htr)).
  rewrite (bind_ok _ _ _ _ _ (client_some self w s tok H Ht Htr)).
  unfold ProlificClient.retrieve_prolific_user. cbn [ProlificClient.token].
  rewrite bind_assoc.
  rewrite (bind_ok _ _ _ _ _ (request_reply _ _ _ _ _ _ _ _ Hp)).
  cbn [status_code Z.eqb Pos.eqb negb]. unfold json. cbn [body].
  destruct b as [[| | | | |d]|]; try (eexists; reflexivity).
  exfalso. exact (Hb d eq_refl).
Qed.

(** [syncProject] without a project (none passed, none in the frame), from
    a folder that is allowed, for a current session.  The login dialog hangs
    on the [except] clause around the reading of the user name, and on
    nothing else: when that reading returns, [syncProject] adds nothing to
    what the reading did and gives 0 for a user name that is true and -1
    otherwise; when it raises, whatever the exception, the dialog is shown
    and the result is 0 if the dialog gives a user name and -1 if not, so
    logging in does not make the call succeed.  For a session that holds a
    token: an accepted token with a user name gives 0, a refused token gives
    -1, both without the dialog; a failure of the network shows the dialog,
    and so does a 200 reply whose body is not a JSON object. *)
Theorem syncProject_without_project (parent : Frame) (file : string)
      (cur : addr) (s : ProlificSession) (tok : PyVal) (w : World) :
  working_file parent = Some file ->
  normcase (expanduser (dirname file)) <> normcase (expanduser "~/Desktop") ->
  normcase (expanduser (dirname file)) <> normcase (expanduser "~/My Documents") ->
  project_truthy (context_project parent) = false ->
  existingSession w = Some cur -> nth_error (heap w) cur = Some s ->
  token s = Some tok -> truthy tok = true ->
  (forall u rest,
     platform w = Reply 200 (Some (PDict u)) :: rest ->
     dict_wf u -> hashable (field "username" u) = true ->
     truthy (field "username" u) = true -> disk_ok w = true ->
     fst (syncProject dirname expanduser normcase logInProlific (S n) parent None w)
       = Ok (PInt 0)
     /\ trace (snd (syncProject dirname expanduser normcase logInProlific (S n)
                      parent None w)) =
          (trace w ++ [EvRequest "GET" (ProlificClient.api_url ++ "/users/me/") tok None;
                       EvSaveUsers])%list)
  /\ (forall st b rest,
        platform w = Reply st b :: rest -> st <> 200 ->
        syncProject dirname expanduser normcase logInProlific (S n) parent None w =
          (Ok (PInt (-1)),
           with_platform rest
             (with_trace
                (trace w ++ [EvRequest "GET" (ProlificClient.api_url ++ "/users/me/")
                               tok None])%list w)))
  /\ (forall msg rest v w',
        platform w = NetDown msg :: rest ->
        logInProlific parent
          (with_trace
             (trace w ++ [EvRequest "GET" (ProlificClient.api_url ++ "/users/me/") tok None;
                          EvLogInProlific])%list
             (with_platform rest w)) = (Ok v, w') ->
        syncProject dirname expanduser normcase logInProlific (S n) parent None w =
          (Ok (if truthy v then PInt 0 else PInt (-1)), w'))
  /\ (forall b rest v w',
        platform w = Reply 200 b :: rest -> (forall d, b <> Some (PDict d)) ->
        logInProlific parent
          (with_trace
             (trace w ++ [EvRequest "GET" (ProlificClient.api_url ++ "/users/me/") tok None;
                          EvLogInProlific])%list
             (with_platform rest w)) = (Ok v, w') ->
        syncProject dirname expanduser normcase logInProlific (S n) parent None w =
          (Ok (if truthy v then PInt 0 else PInt (-1)), w'))
  /\ (forall u w1,
        user (getCurrentSession (S n)) cur w = (Ok u, w1) ->
        syncProject dirname expanduser normcase logInProlific (S n) parent None w =
          (Ok (if truthy (User_username u) then PInt 0 else PInt (-1)), w1))
  /\ (forall e w1 v w',
        user (getCurrentSession (S n)) cur w = (Raise e, w1) ->
        logInProlific parent (with_trace (trace w1 ++ [EvLogInProlific])%list w1)
          = (Ok v, w') ->
        syncProject dirname expanduser normcase logInProlific (S n) parent None w =
          (Ok (if truthy v then PInt 0 else PInt (-1)), w')).
Proof.
  intros Hfile H1 H2 Hctx Hex H Ht Htr.
  pose proof (syncProject_folder_ok dirname expanduser normcase
                (S n) parent None file w Hfile H1 H2) as Hout.
  assert (Hopen : forall w0,
    syncProject dirname expanduser normcase logInProlific (S n) parent None w0 =
    (returned <-
       (proSession <- getCurrentSession (S n) ;;
        username <-
          try_except
            (match proSession with
             | Some s0 =>
                 u <- user (getCurrentSession (S n)) s0 ;;
                 ret (User_username u)
             | None => raise (AttributeError "user")
             end)
            (emit EvLogInProlific ;; logInProlific parent) ;;
        if negb (truthy username) then ret (Some (PInt (-1)))
        else ret None) ;;
     match returned with
     | Some v => ret v
     | None => ret (PInt 0)
     end) w0).
  { intros w0. unfold syncProject.
    destruct parent as [[f|]|f pp|f]; simpl in Hfile; try discriminate;
      injection Hfile as ->; unfold bind at 1; unfold ret at 1;
      rewrite Hout; simpl in Hctx; cbn [project_truthy negb];
      rewrite ?Hctx; cbn [negb]; reflexivity. }
  assert (Hreturns : forall u w1,
    user (getCurrentSession (S n)) cur w = (Ok u, w1) ->
    syncProject dirname expanduser normcase logInProlific (S n) parent None w =
      (Ok (if truthy (User_username u) then PInt 0 else PInt (-1)), w1)).
  { intros u w1 Hu.
    rewrite Hopen. rewrite bind_assoc.
    rewrite (bind_ok _ _ _ _ _ (getCurrentSession_existing n cur w Hex)).
    rewrite bind_assoc.
    erewrite (bind_ok (try_except _ _)).
    2:{ unfold try_except. rewrite (bind_ok _ _ _ _ _ Hu). reflexivity. }
    destruct (truthy (User_username u)); reflexivity. }
  assert (Hraises : forall e w1 v w',
    user (getCurrentSession (S n)) cur w = (Raise e, w1) ->
    logInProlific parent (with_trace (trace w1 ++ [EvLogInProlific])%list w1)
      = (Ok v, w') ->
    syncProject dirname expanduser normcase logInProlific (S n) parent None w =
      (Ok (if truthy v then PInt 0 else PInt (-1)), w')).
  { intros e w1 v w' Hu Hdlg.
    rewrite Hopen. rewrite bind_assoc.
    rewrite (bind_ok _ _ _ _ _ (getCurrentSession_existing n cur w Hex)).
    rewrite bind_assoc.
    erewrite (bind_ok (try_except _ _)).
    2:{ unfold try_except. rewrite (bind_raise _ _ _ _ _ Hu).
        rewrite (bind_ok (emit EvLogInProlific) _ w1
                   (with_trace (trace w1 ++ [EvLogInProlific])%list w1) tt eq_refl).
        exact Hdlg. }
    destruct (truthy v); reflexivity. }
  assert (Hdialog : forall rest v w',
    logInProlific parent
      (with_trace
         (trace w ++ [EvRequest "GET" (ProlificClient.api_url ++ "/users/me/") tok None;
                      EvLogInProlific])%list
         (with_platform rest w)) = (Ok v, w') ->
    logInProlific parent
      (with_trace
         (trace (with_platform rest
                   (with_trace
                      (trace w ++ [EvRequest "GET" (ProlificClient.api_url ++ "/users/me/")
                                     tok None])%list w)) ++ [EvLogInProlific])%list
         (with_platform rest
            (with_trace
               (trace w ++ [EvRequest "GET" (ProlificClient.api_url ++ "/users/me/")
                              tok None])%list w))) = (Ok v, w')).
  { intros rest v w' Hdlg.
    cbn [with_trace with_platform trace heap existingSession knownUsers disk_ok
         prolificUser haveGit platform].
    rewrite <- app_assoc. exact Hdlg. }
  split; [|split; [|split; [|split; [|split]]]].
  - intros u rest Hp Hwf Hhash Huser Hdisk.
    assert (Hhash' : hashable (field "username"
                        (dict_set "token" tok (dict_merge [("token", tok)] u))) = true)
      by (rewrite field_of_user_data by (auto; discriminate); exact Hhash).
    rewrite (Hreturns _ _ (user_accepted n cur cur s s tok tok u rest w
                             H Ht Htr Hex H Ht Hp Hhash' Hdisk)).
    rewrite User_username_field. cbn [data].
    rewrite field_of_user_data by (auto; discriminate).
    rewrite Huser. split; reflexivity.
  - intros st b rest Hp Hst.
    now rewrite (Hreturns _ _ (user_rejected n cur s tok st b rest w Hex H Ht Htr Hp Hst)).
  - intros msg rest v w' Hp Hdlg.
    exact (Hraises _ _ v w' (user_net_down_world cur s tok msg rest w H Ht Htr Hp)
             (Hdialog rest v w' Hdlg)).
  - intros b rest v w' Hp Hb Hdlg.
    destruct (user_bad_body cur s tok b rest w H Ht Htr Hp Hb) as [e Hu].
    exact (Hraises _ _ v w' Hu (Hdialog rest v w' Hdlg)).
  - exact Hreturns.
  - exact Hraises.
Qed.

End SyncOutcomes.

Section SyncOutcomesExamples.
Import prolific prolific_ui Examples.

Lemma syncProject_without_project_witness :
  syncProject dirname expanduser normcase login_accepted 1
    (CoderFrame (Some "/home/user/study/stroop.py")) None
    (running (PStr "tok") [NetDown "unreachable"])
  = (Ok (PInt 0),
     with_trace [EvRequest "GET" (ProlificClient.api_url ++ "/users/me/") (PStr "tok") None;
                 EvLogInProlific]
       (running (PStr "tok") []))
  /\ syncProject dirname expanduser normcase login_declined 1
       (CoderFrame (Some "/home/user/study/stroop.py")) None
       (running (PStr "tok") [Reply 200 None])
     = (Ok (PInt (-1)),
        with_trace [EvRequest "GET" (ProlificClient.api_url ++ "/users/me/") (PStr "tok") None;
                    EvLogInProlific]
          (running (PStr "tok") [])).
Proof.
  split.
  - destruct (syncProject_without_project 0 dirname expanduser normcase login_accepted
                (CoderFrame (Some "/home/user/study/stroop.py"))
                "/home/user/study/stroop.py" 0%nat (session_with (PStr "tok")) (PStr "tok")
                (running (PStr "tok") [NetDown "unreachable"])
                eq_refl ltac:(discriminate) ltac:(discriminate) eq_refl
                eq_refl eq_refl eq_refl eq_refl)
      as (_ & _ & Hdown & _).
    apply (Hdown "unreachable" [] (PStr "alice")); reflexivity.
  - destruct (syncProject_without_project 0 dirname expanduser normcase login_declined
                (CoderFrame (Some "/home/user/study/stroop.py"))
                "/home/user/study/stroop.py" 0%nat (session_with (PStr "tok")) (PStr "tok")
                (running (PStr "tok") [Reply 200 None])
                eq_refl ltac:(discriminate) ltac:(discriminate) eq_refl
                eq_refl eq_refl eq_refl eq_refl)
      as (_ & _ & _ & Hbody & _).
    apply (Hbody None [] PNone); [reflexivity | discriminate | reflexivity].
Defined.

End SyncOutcomesExamples.

(* ================================================================== *)
(** * The fork block of the sync button *)

Section ForkBlock.
Import prolific prolific_ui.

Lemma bind_ok_inv {A B} (m : M A) (k : A -> M B) (w w' : World) (b : B) :
  bind m k w = (Ok b, w') ->
  exists a w1, m w = (Ok a, w1) /\ k a w1 = (Ok b, w').
Proof.
  unfold bind. destruct (m w) as [[a|e|] w1]; intros E; try discriminate.
  now exists a, w1.
Qed.

(** When the block ``fork first if needed'' is left normally, it has done
    nothing, and the test for a fork was negative. *)
Lemma fork_if_needed_returns (q : ProlificProject) (w0 w' : World) :
  fork_if_needed q w0 = (Ok tt, w') ->
  w' = w0
  /\ exists perms, ProlificProject_attr q "permissions" = Ok perms
                   /\ forkRequired perms = Ok false.
Proof.
  unfold fork_if_needed. intros E.
  apply bind_ok_inv in E. destruct E as (perms & w1 & Hperms & E).
  apply bind_ok_inv in E. destruct E as (fork_first & w2 & Hfork & E).
  unfold lift in Hperms, Hfork.
  injection Hperms as Hperms <-. injection Hfork as Hfork <-.
  destruct fork_first.
  - exfalso. exact (fork_step_never_returns q w0 w' tt E).
  - injection E as <-. split; [reflexivity|]. now exists perms.
Qed.

(** C7, on the code.  The test for a fork is the one of the claim: on the
    scale guest=10, reporter=20, developer=maintainer=30, owner=50 it holds
    exactly for the levels below 30, and for [None].  But no project is ever
    forked.  For a project built by the constructor whose payload gives a
    permission for which the test holds, the block calls
    [self.project.forkTo()], which the class does not define: the name goes
    through [__getattr__], and the block ends as AttributeError when the
    payload has no [forkTo] entry, and as TypeError (the entry is a JSON
    value, not callable) when it has one; nothing was sent and the state is
    what it was.  A payload without [permissions] does not lead to a fork
    either: reading the attribute is an AttributeError.  From level 30 up the
    block is skipped.  So whenever the block is left normally nothing was
    done, and a press of the sync button that returns has either gone the
    way of the login dialog or found that no fork was required. *)
Theorem fork_never_happens (pavloviaId : PyVal) (d : dict) (p : ProlificProject)
      (w : World) :
  ProlificProject_call [pavloviaId; PDict d] [] = Ok p ->
  (permissions_get "guest" permissions = Some 10
   /\ permissions_get "reporter" permissions = Some 20
   /\ permissions_get "developer" permissions = Some 30
   /\ permissions_get "maintainer" permissions = Some 30
   /\ permissions_get "owner" permissions = Some 50)
  /\ (forall n, forkRequired (PInt n) = Ok true <-> n < 30)
  /\ forkRequired PNone = Ok true
  /\ (forall n, In n [10; 20; 30; 50] ->
        (forkRequired (PInt n) = Ok true <-> n < 30))
  /\ (forall perms, dict_get "permissions" d = Some perms ->
        forkRequired perms = Ok true ->
        (dict_get "forkTo" d = None ->
           fork_if_needed p w = (Raise (AttributeError "forkTo"), w))
        /\ (forall v, dict_get "forkTo" d = Some v ->
              fork_if_needed p w = (Raise (TypeError "object is not callable"), w)))
  /\ (forall k, dict_get "permissions" d = Some (PInt k) -> 30 <= k ->
        fork_if_needed p w = (Ok tt, w))
  /\ (dict_get "permissions" d = None ->
        fork_if_needed p w = (Raise (AttributeError "permissions"), w))
  /\ (forall q w0 w', fork_step q w0 <> (Ok tt, w'))
  /\ (forall q w0 w', fork_if_needed q w0 = (Ok tt, w') ->
        w' = w0
        /\ exists perms, ProlificProject_attr q "permissions" = Ok perms
                         /\ forkRequired perms = Ok false)
  /\ (forall logInProlific setLocalPath fuel self q r w0 w',
        haveGit w0 = true -> panel_project self = Some q ->
        onSyncButton logInProlific setLocalPath fuel self w0 = (Ok r, w') ->
        r = (PNone, self)
        \/ exists perms, ProlificProject_attr q "permissions" = Ok perms
                         /\ forkRequired perms = Ok false).
Proof.
  intros Hp.
  assert (Hint : forall n, forkRequired (PInt n) = Ok true <-> n < 30).
  { intros n. rewrite forkRequired_int.
    destruct (Z.ltb_spec n 30); split; intros; try lia; try reflexivity; discriminate. }
  assert (Hattr : forall name,
            ~ In name ["id"; "idNumber"; "title"; "url"; "_storedAttribs";
                       "pavloviaId"; "prolific"; "_lastKnownSync"] ->
            ProlificProject_attr p name =
              match dict_get name d with
              | Some v => Ok v
              | None => Raise (AttributeError name)
              end)
    by (intros name Hname; now apply (built_project_attr pavloviaId)).
  assert (Hperm : ProlificProject_attr p "permissions" =
                  match dict_get "permissions" d with
                  | Some v => Ok v
                  | None => Raise (AttributeError "permissions")
                  end)
    by (apply Hattr; simpl; intuition discriminate).
  assert (Hfork : ProlificProject_attr p "forkTo" =
                  match dict_get "forkTo" d with
                  | Some v => Ok v
                  | None => Raise (AttributeError "forkTo")
                  end)
    by (apply Hattr; simpl; intuition discriminate).
  split; [repeat split|]. split; [exact Hint|]. split; [reflexivity|].
  split; [intros n _; apply Hint|].
  split; [|split; [|split; [|split; [|split]]]].
  - intros perms Hd Hreq. unfold fork_if_needed. rewrite Hperm, Hd.
    rewrite (bind_ok (lift (Ok perms)) _ w w perms eq_refl). rewrite Hreq.
    rewrite (bind_ok (lift (Ok true)) _ w w true eq_refl).
    unfold fork_step. rewrite Hfork. split.
    + intros ->. reflexivity.
    + intros v ->. reflexivity.
  - intros k Hd Hk. unfold fork_if_needed. rewrite Hperm, Hd.
    rewrite (bind_ok (lift (Ok (PInt k))) _ w w _ eq_refl). rewrite forkRequired_int.
    rewrite (bind_ok (lift (Ok (k <? 30))) _ w w _ eq_refl).
    assert (Hge : (k <? 30) = false) by (apply Z.ltb_ge; exact Hk).
    now rewrite Hge.
  - intros Hd. unfold fork_if_needed. rewrite Hperm, Hd. reflexivity.
  - intros q w0 w'. apply fork_step_never_returns.
  - intros q w0 w'. apply fork_if_needed_returns.
  - intros logInProlific setLocalPath fuel self q r w0 w' Hgit Hproj E.
    unfold onSyncButton in E.
    rewrite (bind_ok get_world _ w0 w0 w0 eq_refl) in E.
    rewrite Hgit, Hproj in E. cbn [negb] in E.
    apply bind_ok_inv in E. destruct E as (session & w1 & _ & E).
    apply bind_ok_inv in E. destruct E as (u & w2 & _ & E).
    destruct (negb (truthy (User_username u))).
    + left.
      apply bind_ok_inv in E. destruct E as (? & w3 & _ & E).
      apply bind_ok_inv in E. destruct E as (? & w4 & _ & E).
      now injection E as <- _.
    + right.
      apply bind_ok_inv in E. destruct E as ([] & w3 & Hblock & _).
      now destruct (fork_if_needed_returns q w2 w3 Hblock).
Qed.

(** A guest, a project whose payload carries an entry [forkTo], and an
    owner, run through the theorem. *)
Lemma fork_never_happens_witness :
  fork_if_needed (Examples.study (PInt 10)) (Examples.fresh [])
    = (Raise (AttributeError "forkTo"), Examples.fresh [])
  /\ fork_if_needed (Examples.study (PInt 50)) (Examples.fresh [])
     = (Ok tt, Examples.fresh []).
Proof.
  split.
  - destruct (fork_never_happens (PStr "alice/stroop")
                [("id", PInt 42); ("name", PStr "Stroop"); ("permissions", PInt 10)]
                (Examples.study (PInt 10)) (Examples.fresh []) eq_refl)
      as (_ & _ & _ & _ & H & _).
    destruct (H (PInt 10) eq_refl eq_refl) as (Hmissing & _).
    exact (Hmissing eq_refl).
  - destruct (fork_never_happens (PStr "alice/stroop")
                [("id", PInt 42); ("name", PStr "Stroop"); ("permissions", PInt 50)]
                (Examples.study (PInt 50)) (Examples.fresh []) eq_refl)
      as (_ & _ & _ & _ & _ & H & _).
    apply (H 50); [reflexivity | lia].
Defined.

End ForkBlock.
